(** * minecon: the server supervisor (main.py) and the chat wizards
      (discord_bot.py), embedded as Rocq functions.

    Python values are modelled as follows.
    - [str] is a list of Unicode code points ([pystr]); literals are written
      [lit "..."] for ASCII text and as explicit code points otherwise.
    - [int] is [Z]; a [dict] used as a table is a [gmap]; a [dict] with a
      fixed set of keys (a wizard session) is a record.
    - a method of [MinecraftServer] is a function in the monad [M], which
      threads the object [self] together with the outside world (database,
      file system, HTTP requests made, signals sent) and carries Python
      exceptions as [Raise]. *)

From Stdlib Require Import ZArith NArith Ascii String DecimalString Bool Lia.
From stdpp Require Import base option list gmap.

Local Open Scope Z_scope.

(** ** Python strings *)

Abbreviation pystr := (list N).

Module Py.

Definition lit (s : string) : pystr := map N_of_ascii (list_ascii_of_string s).

(** The code points for which [str.isspace] holds. *)
Definition isspace (c : N) : bool :=
  ((9 <=? c) && (c <=? 13) || (28 <=? c) && (c <=? 32) || (c =? 133)
   || (c =? 160) || (c =? 5760) || (8192 <=? c) && (c <=? 8202)
   || (c =? 8232) || (c =? 8233) || (c =? 8239) || (c =? 8287)
   || (c =? 12288))%N.

Fixpoint lstrip (s : pystr) : pystr :=
  match s with
  | c :: s' => if isspace c then lstrip s' else s
  | [] => []
  end.

Definition rstrip (s : pystr) : pystr := rev (lstrip (rev s)).

(** [s.strip()] *)
Definition strip (s : pystr) : pystr := rstrip (lstrip s).

(** [str.lower] on one code point: the ASCII, Latin-1 and Cyrillic capital
    letters and the Kelvin sign.  Cased letters of other scripts are left
    as they are. *)
Definition lower_cp (c : N) : N :=
  (if (65 <=? c) && (c <=? 90) then c + 32
   else if (192 <=? c) && (c <=? 222) && negb (c =? 215) then c + 32
   else if (1024 <=? c) && (c <=? 1039) then c + 80
   else if (1040 <=? c) && (c <=? 1071) then c + 32
   else if c =? 8490 then 107
   else c)%N.

(** [s.lower()] *)
Definition lower (s : pystr) : pystr := map lower_cp s.

(** [s.startswith(p)] *)
Fixpoint startswith (p s : pystr) : bool :=
  match p, s with
  | [], _ => true
  | a :: p', b :: s' => (a =? b)%N && startswith p' s'
  | _ :: _, [] => false
  end.

(** [s.endswith(p)] *)
Definition endswith (p s : pystr) : bool := startswith (rev p) (rev s).

(** [needle in hay] *)
Fixpoint contains (needle hay : pystr) : bool :=
  startswith needle hay
  || match hay with
     | [] => false
     | _ :: hay' => contains needle hay'
     end.

(** [x in [w1, ..., wn]] for a list of strings *)
Definition mem (x : pystr) (ws : list pystr) : bool :=
  existsb (fun w => bool_decide (x = w)) ws.

(** [sep.join(parts)] *)
Fixpoint join (sep : pystr) (parts : list pystr) : pystr :=
  match parts with
  | [] => []
  | [p] => p
  | p :: ps => p ++ sep ++ join sep ps
  end.

(** The part of [s] after the first occurrence of the code point [c]:
    [s.split(c, 1)[1]], which raises IndexError when [c] does not occur. *)
Fixpoint after_first (c : N) (s : pystr) : option pystr :=
  match s with
  | [] => None
  | d :: s' => if (d =? c)%N then Some s' else after_first c s'
  end.

(** The part of [s] after the last occurrence of [c], all of [s] when there
    is none: [os.path.basename] with [c] the separator, [url.split('/')[-1]]. *)
Fixpoint after_last (c : N) (s : pystr) : pystr :=
  match s with
  | [] => []
  | d :: s' =>
      if existsb (N.eqb c) s' then after_last c s'
      else if (d =? c)%N then s' else s
  end.

(** [str(n)] for an integer *)
Definition str_of_Z (z : Z) : pystr := lit (NilZero.string_of_int (Z.to_int z)).

Definition digit_val (c : N) : option Z :=
  if ((48 <=? c) && (c <=? 57))%N then Some (Z.of_N (c - 48)) else None.

Definition isdigit (c : N) : bool := ((48 <=? c) && (c <=? 57))%N.

(** Digits of an integer literal, with the single underscores Python allows
    between digits.  [prev] tells that the previous character was a digit. *)
Fixpoint int_digits (acc : Z) (prev : bool) (s : pystr) : option Z :=
  match s with
  | [] => if prev then Some acc else None
  | c :: s' =>
      match digit_val c with
      | Some d => int_digits (10 * acc + d) true s'
      | None => if (c =? 95)%N && prev then int_digits acc false s' else None
      end
  end.

(** [int(s)]: [None] stands for ValueError.  ASCII digits only. *)
Definition int (s : pystr) : option Z :=
  match strip s with
  | 43%N :: r => int_digits 0 false r
  | 45%N :: r => Z.opp <$> int_digits 0 false r
  | r => int_digits 0 false r
  end.

(** [re.match(r'^\d+[MG]$', s)] on a string without a final newline;
    [\d] is taken as the ASCII digits. *)
Definition match_memory (s : pystr) : bool :=
  match rev s with
  | c :: ds => ((c =? 77) || (c =? 71))%N && negb (bool_decide (ds = []))
               && forallb isdigit ds
  | [] => false
  end.

End Py.

(** ** discord_bot.py: the conversational wizards *)

Module Bot.

(** The dict stored in [setup_sessions]: keys 'step', 'port', 'server_type',
    'version', 'memory'; [None] is Python's None. *)
Record setup_session := {
  step : Z;
  port : option Z;
  server_type : option pystr;
  version : option pystr;
  memory : pystr
}.

(** The dict stored in [plugin_sessions]. *)
Record plugin_session := {
  p_step : Z;
  p_port : Z;
  p_server_type : pystr;
  filename : option pystr;
  file_content : option (list N);
  folder : option pystr
}.

(** The payload of POST /create_server built at step 4. *)
Record create_data := {
  cd_port : option Z;
  cd_version : option pystr;
  cd_server_type : option pystr;
  cd_memory : pystr;
  cd_auto_start : bool
}.

(** The dict handed to [api_upload]. *)
Record file_data := {
  fd_bytes : option (list N);
  fd_filename : option pystr;
  fd_path : option pystr
}.

Inductive request :=
| Get (endpoint : pystr)
| Post (endpoint : pystr) (data : create_data)
| Upload (endpoint : pystr) (data : file_data).

(** What [api_request] and [api_upload] return: the decoded body (of which
    the code reads 'error' and 'server_type') and the HTTP status. *)
Record reply := {
  status : Z;
  r_error : option pystr;
  r_server_type : option pystr
}.

(** What the bot says in the channel.  Each constructor stands for one
    [send] / [send_message] call of the source, with the values it shows. *)
Inductive said :=
| SetupCancelled                  (* "Настройка сервера отменена." *)
| PortOutOfRange                  (* "Порт должен быть в диапазоне 25565-26000" *)
| PortTaken                       (* "Этот порт уже занят другим сервером" *)
| PortBadFormat                   (* "Неверный формат порта. ..." *)
| AskServerType (port : Z)        (* step 2/4 embed *)
| UnknownServerType
| AskVersionMrpack (port : option Z) (server_type : pystr)
| AskVersion (port : option Z) (server_type : pystr)
| VersionMissing
| AskMemory (port : option Z) (server_type : option pystr) (version : pystr)
| MemoryBadFormat
| ServerCreated (port : option Z) (server_type version : option pystr) (memory : pystr)
| ServerCreateError (error : option pystr)
| SetupAlreadyActive              (* "У вас уже есть активная сессия настройки. ..." *)
| SetupWelcome                    (* step 1/4 embed *)
| ServerNotFound (port : Z)
| PluginAlreadyActive             (* "У вас уже есть активная сессия установки. ..." *)
| PluginWelcome (port : Z) (server_type : pystr)
| PluginCancelled                 (* "Установка плагина/мода отменена." *)
| MustBeJar
| AskConfirm (port : Z) (filename folder : option pystr)
| DownloadFailed
| AttachOrUrl
| PluginInstalled (filename : option pystr) (port : Z) (folder : option pystr)
| PluginInstallError (error : option pystr)
| InstallAborted.                 (* "Установка отменена" *)

Record attachment := {
  att_filename : pystr;
  att_read : option (list N)      (* None: [attachment.read()] raises *)
}.

Record message := {
  author : Z;
  author_bot : bool;
  content : pystr;
  attachments : list attachment
}.

(** The bot object: the two session tables, and, as a record of its effects,
    what it has sent and which API requests it has made. *)
Record bot := {
  setup_sessions : gmap Z setup_session;
  plugin_sessions : gmap Z plugin_session;
  sent : list said;
  calls : list request
}.

(** The outside of the bot during one handler: the backend behind
    [API_BASE_URL], the web for [download_file], and discord.py's
    [process_commands]. *)
Record env := {
  backend : request -> reply;
  http_get : pystr -> option (Z * list N);
  process_commands : message -> bot -> bot
}.

Definition send (x : said) (b : bot) : bot :=
  {| setup_sessions := setup_sessions b; plugin_sessions := plugin_sessions b;
     sent := sent b ++ [x]; calls := calls b |}.

Definition with_setup (f : gmap Z setup_session -> gmap Z setup_session) (b : bot) : bot :=
  {| setup_sessions := f (setup_sessions b); plugin_sessions := plugin_sessions b;
     sent := sent b; calls := calls b |}.

Definition with_plugin (f : gmap Z plugin_session -> gmap Z plugin_session) (b : bot) : bot :=
  {| setup_sessions := setup_sessions b; plugin_sessions := f (plugin_sessions b);
     sent := sent b; calls := calls b |}.

(** [api_request] / [api_upload]: never raise, the reply is the backend's. *)
Definition api_request (e : env) (r : request) (b : bot) : reply * bot :=
  (backend e r,
   {| setup_sessions := setup_sessions b; plugin_sessions := plugin_sessions b;
      sent := sent b; calls := calls b ++ [r] |}).

(** [download_file(url)]: (filename, content), or (None, None). *)
Definition download_file (e : env) (url : pystr) : option (pystr * list N) :=
  match http_get e url with
  | Some (code, body) =>
      if code =? 200 then Some (Py.after_last 47 url, body) else None
  | None => None
  end.

(** ['отмена', 'cancel', 'stop'] *)
Definition cancel_words : list pystr :=
  [ [1086; 1090; 1084; 1077; 1085; 1072]%N; Py.lit "cancel"; Py.lit "stop" ].

(** ['подтвердить', 'ок', 'yes', 'ok'] *)
Definition confirm_words : list pystr :=
  [ [1087; 1086; 1076; 1090; 1074; 1077; 1088; 1076; 1080; 1090; 1100]%N;
    [1086; 1082]%N; Py.lit "yes"; Py.lit "ok" ].

Definition valid_types : list pystr :=
  [ Py.lit "vanilla"; Py.lit "paper"; Py.lit "purpur"; Py.lit "fabric"; Py.lit "mrpack" ].

(** The plugins/mods directory for a server type. *)
Definition folder_for (server_type : pystr) : pystr :=
  if Py.mem server_type [Py.lit "paper"; Py.lit "purpur"] then Py.lit "plugins"
  else if bool_decide (server_type = Py.lit "fabric") then Py.lit "mods"
  else Py.lit "plugins".

Definition status_endpoint (port : Z) : pystr :=
  Py.lit "/api/server/status/" ++ Py.str_of_Z port.

Definition upload_endpoint (port : Z) : pystr :=
  Py.lit "/server_files/" ++ Py.str_of_Z port ++ Py.lit "/upload".

(** [MinecraftBot.handle_setup_message].  The result is the value returned:
    [True] when the message was consumed; falling off the end of the
    function (a step outside 1..4) returns None, which the caller treats as
    false.  Sending and [api_request] do not raise here, so the outer
    [except Exception] branch of the source is never entered. *)
Definition handle_setup_message (e : env) (m : message) (b : bot) : bot * bool :=
  let user_id := author m in
  match setup_sessions b !! user_id with
  | None => (b, false)
  | Some session =>
    let content := Py.strip (content m) in
    if Py.mem (Py.lower content) cancel_words then
      (send SetupCancelled (with_setup (delete user_id) b), true)
    else if step session =? 1 then
      match Py.int content with
      | None => (send PortBadFormat b, true)
      | Some port =>
        if (port <? 25565) || (port >? 26000) then (send PortOutOfRange b, true)
        else
          let '(r, b) := api_request e (Get (status_endpoint port)) b in
          if status r =? 200 then (send PortTaken b, true)
          else
            let session :=
              {| step := 2; port := Some port; server_type := server_type session;
                 version := version session; memory := memory session |} in
            (send (AskServerType port) (with_setup (insert user_id session) b), true)
      end
    else if step session =? 2 then
      let server_type := Py.lower content in
      if negb (Py.mem server_type valid_types) then (send UnknownServerType b, true)
      else
        let session' :=
          {| step := 3; port := port session; server_type := Some server_type;
             version := version session; memory := memory session |} in
        let b := with_setup (insert user_id session') b in
        if bool_decide (server_type = Py.lit "mrpack")
        then (send (AskVersionMrpack (port session) server_type) b, true)
        else (send (AskVersion (port session) server_type) b, true)
    else if step session =? 3 then
      let version := Py.strip content in
      if bool_decide (version = []) then (send VersionMissing b, true)
      else
        let session' :=
          {| step := 4; port := port session; server_type := server_type session;
             version := Some version; memory := memory session |} in
        (send (AskMemory (port session) (server_type session) version)
              (with_setup (insert user_id session') b), true)
    else if step session =? 4 then
      let memory := Py.strip content in
      if negb (Py.match_memory memory) then (send MemoryBadFormat b, true)
      else
        let session' :=
          {| step := step session; port := port session;
             server_type := server_type session; version := version session;
             memory := memory |} in
        let b := with_setup (insert user_id session') b in
        let data :=
          {| cd_port := port session; cd_version := version session;
             cd_server_type := server_type session; cd_memory := memory;
             cd_auto_start := true |} in
        let '(r, b) := api_request e (Post (Py.lit "/create_server") data) b in
        let b :=
          if status r =? 200
          then send (ServerCreated (port session) (server_type session)
                                   (version session) memory) b
          else send (ServerCreateError (r_error r)) b in
        (with_setup (delete user_id) b, true)
    else (b, false)
  end.

(** Step 1 of the plugin wizard once a JAR is at hand: 'filename',
    'file_content', 'step' and 'folder' are written in this order. *)
Definition plugin_accept (user_id : Z) (session : plugin_session)
    (name : pystr) (bytes : list N) (b : bot) : bot :=
  let session' :=
    {| p_step := 2; p_port := p_port session; p_server_type := p_server_type session;
       filename := Some name; file_content := Some bytes;
       folder := Some (folder_for (p_server_type session)) |} in
  send (AskConfirm (p_port session') (filename session') (folder session'))
       (with_plugin (insert user_id session') b).

(** [MinecraftBot.on_message] *)
Definition on_message (e : env) (m : message) (b : bot) : bot :=
  if author_bot m then b
  else
    let '(b, handled) := handle_setup_message e m b in
    if handled then b
    else
      let user_id := author m in
      match plugin_sessions b !! user_id with
      | Some session =>
        if Py.mem (Py.lower (content m)) cancel_words then
          send PluginCancelled (with_plugin (delete user_id) b)
        else if p_step session =? 1 then
          let url := Py.strip (content m) in
          match attachments m with
          | attachment :: _ =>
            if negb (Py.endswith (Py.lit ".jar") (Py.lower (att_filename attachment)))
            then with_plugin (delete user_id) (send MustBeJar b)
            else
              match att_read attachment with
              | None =>
                (* the read raises after 'filename' was stored *)
                with_plugin (insert user_id
                  {| p_step := p_step session; p_port := p_port session;
                     p_server_type := p_server_type session;
                     filename := Some (att_filename attachment);
                     file_content := file_content session;
                     folder := folder session |}) b
              | Some bytes => plugin_accept user_id session (att_filename attachment) bytes b
              end
          | [] =>
            if negb (bool_decide (url = [])) then
              match download_file e url with
              | Some (name, bytes) =>
                if bool_decide (name = []) || bool_decide (bytes = [])
                then with_plugin (delete user_id) (send DownloadFailed b)
                else if negb (Py.endswith (Py.lit ".jar") (Py.lower name))
                then with_plugin (delete user_id) (send MustBeJar b)
                else plugin_accept user_id session name bytes b
              | None => with_plugin (delete user_id) (send DownloadFailed b)
              end
            else send AttachOrUrl b
          end
        else if p_step session =? 2 then
          if Py.mem (Py.lower (content m)) confirm_words then
            let data :=
              {| fd_bytes := file_content session; fd_filename := filename session;
                 fd_path := folder session |} in
            let '(r, b) := api_request e (Upload (upload_endpoint (p_port session)) data) b in
            let b :=
              if status r =? 200
              then send (PluginInstalled (filename session) (p_port session) (folder session)) b
              else send (PluginInstallError (r_error r)) b in
            with_plugin (delete user_id) b
          else with_plugin (delete user_id) (send InstallAborted b)
        else process_commands e m b
      | None => process_commands e m b
      end.

(** [ServerCreateCommand.callback] *)
Definition server_create (user_id : Z) (b : bot) : bot :=
  if bool_decide (is_Some (setup_sessions b !! user_id)) then send SetupAlreadyActive b
  else
    send SetupWelcome
      (with_setup (insert user_id
         {| step := 1; port := None; server_type := None; version := None;
            memory := Py.lit "2G" |}) b).

(** [ServerInstallPluginCommand.callback]; the text command
    [server_install_plugin_text] has the same body. *)
Definition server_install_plugin (e : env) (user_id port : Z) (b : bot) : bot :=
  let '(server_data, b) := api_request e (Get (status_endpoint port)) b in
  if negb (status server_data =? 200) then send (ServerNotFound port) b
  else if bool_decide (is_Some (plugin_sessions b !! user_id)) then send PluginAlreadyActive b
  else
    let ty := default (Py.lit "vanilla") (r_server_type server_data) in
    send (PluginWelcome port ty)
      (with_plugin (insert user_id
         {| p_step := 1; p_port := port; p_server_type := ty;
            filename := None; file_content := None; folder := None |}) b).

(** The bot as constructed by [MinecraftBot.__init__]. *)
Definition new_bot : bot :=
  {| setup_sessions := ∅; plugin_sessions := ∅; sent := []; calls := [] |}.

(** The two kinds of wizard, and whether a user has a live session of one. *)
Inductive kind := Creation | PluginInstall.

Definition live (k : kind) (user_id : Z) (b : bot) : Prop :=
  match k with
  | Creation => is_Some (setup_sessions b !! user_id)
  | PluginInstall => is_Some (plugin_sessions b !! user_id)
  end.

(** Starting a wizard of kind [k] through its slash command. *)
Definition start_wizard (e : env) (k : kind) (user_id port : Z) (b : bot) : bot :=
  match k with
  | Creation => server_create user_id b
  | PluginInstall => server_install_plugin e user_id port b
  end.

(** *** The bot over time

    What can happen to the bot between two moments: a message arrives, one of
    the two slash commands that start a wizard is run, or a command is run
    that only asks the API and answers in the channel (the status, start,
    stop, restart, list, logs, command, plugins and help commands). *)
Inductive occurrence :=
| Says (m : message)
| SlashCreate (user_id : Z)
| SlashInstall (user_id port : Z)
| SlashOther (answers : list said) (asked : list request).

Definition after (e : env) (h : occurrence) (b : bot) : bot :=
  match h with
  | Says m => on_message e m b
  | SlashCreate user_id => server_create user_id b
  | SlashInstall user_id port => server_install_plugin e user_id port b
  | SlashOther answers asked =>
      {| setup_sessions := setup_sessions b; plugin_sessions := plugin_sessions b;
         sent := sent b ++ answers; calls := calls b ++ asked |}
  end.

(** The states the bot gets into, from the one it is constructed in. *)
Inductive reached (e : env) : bot -> Prop :=
| reached_new : reached e new_bot
| reached_after b h : reached e b -> reached e (after e h b).

End Bot.

(** ** main.py: the server supervisor and its HTTP API *)

Module Srv.

(** The values of the 'status' attribute. *)
Inductive server_status := Stopped | Starting | Running | Stopping | Error.

#[export] Instance status_eq_dec : EqDecision server_status.
Proof. solve_decision. Defined.

(** The text stored for a status. *)
Definition status_text (s : server_status) : pystr :=
  match s with
  | Stopped => Py.lit "stopped"
  | Starting => Py.lit "starting"
  | Running => Py.lit "running"
  | Stopping => Py.lit "stopping"
  | Error => Py.lit "error"
  end.

(** Decoded JSON, with integers for numbers and an association list (first
    binding of a key) for objects. *)
#[local] Unset Elimination Schemes.
Inductive json :=
| JNull
| JBool (b : bool)
| JNum (z : Z)
| JStr (s : pystr)
| JArr (l : list json)
| JObj (kv : list (pystr * json)).
#[local] Set Elimination Schemes.

(** A Python exception; [str(e)] is its message. *)
Record exn := Exn { exn_msg : pystr }.

Inductive result (A : Type) :=
| Val (a : A)
| Raise (e : exn).
Arguments Val {A} a.
Arguments Raise {A} e.

(** A child process behind a [subprocess.Popen] handle, described by what it
    does when [stop()] deals with it. *)
Record Popen := {
  alive : bool;              (* it is running, so its stdin pipe takes a write *)
  exit_after : option nat;   (* seconds from the shutdown directive to its exit;
                                None: it ignores the directive *)
  term_after : option nat    (* seconds from SIGTERM to its exit;
                                None: it ignores SIGTERM *)
}.

(** What the supervisor does to the outside, in order. *)
Inductive action :=
| Spawn (command : list pystr) (cwd : pystr)
| ThreadStart                       (* threading.Thread(target=monitor_output) *)
| StdinWrite (text : pystr)
| Sleep (seconds : nat)
| Terminate
| Kill.

Inductive node := Dir | File (bytes : list N).

(** A row of table [servers] (the port is the key) and of [server_logs]. *)
Record server_row := {
  row_version : pystr;
  row_server_type : pystr;
  row_status : server_status;
  row_memory : pystr;
  row_motd : pystr;
  row_max_players : Z;
  row_auto_start : bool;
  row_last_started : option pystr
}.

Record log_row := {
  log_port : Z;
  log_text : pystr;
  log_level : pystr
}.

Record database := {
  servers_tbl : gmap Z server_row;
  server_logs : list log_row          (* in order of id *)
}.

(** Everything outside the server objects. *)
Record world := {
  db : database;
  fs : gmap pystr node;               (* files and directories by path *)
  requests : list pystr;              (* URLs fetched with requests.get *)
  effects : list action
}.

(** The object.  [seen] is not an attribute of the source: it lists every
    value assigned to [status], oldest first. *)
Record MinecraftServer := {
  port : Z;
  version : pystr;
  server_type : pystr;
  process : option Popen;
  status : server_status;
  memory : pystr;
  motd : pystr;
  max_players : Z;
  auto_start : bool;
  temporary : bool;
  mrpack_minecraft_version : option json;
  seen : list server_status
}.

Record state := {
  self : MinecraftServer;
  out : world
}.

(** The answer to one [requests.get]. *)
Record response := {
  status_code : Z;
  json_body : option json;            (* None: [.json()] raises *)
  chunks : list (list N);             (* [iter_content] *)
  broken : bool                       (* the stream raises after the chunks *)
}.

(** The outside during one operation. *)
Record env := {
  BASE_DIR : pystr;
  abspath : pystr -> pystr;                       (* os.path.abspath *)
  now : pystr;                                    (* strftime("%H:%M:%S") *)
  CURRENT_TIMESTAMP : pystr;
  http : nat -> pystr -> result response;         (* the n-th request so far *)
  spawn : list pystr -> pystr -> result Popen;    (* subprocess.Popen *)
  install_mrpack : pystr -> pystr -> gmap pystr node -> result (gmap pystr node);
  get_mrpack_information : pystr -> result json;
  repr : json -> pystr;                           (* str() of a list or dict *)
  repr_names : list pystr -> pystr                (* str() of a list of names *)
}.

(** *** The monad of methods *)

Definition M (A : Type) : Type := state -> state * result A.

Definition ret {A} (a : A) : M A := fun st => (st, Val a).

Definition raise {A} (msg : pystr) : M A := fun st => (st, Raise (Exn msg)).

Definition bind {A B} (m : M A) (k : A -> M B) : M B :=
  fun st =>
    match m st with
    | (st', Val a) => k a st'
    | (st', Raise e) => (st', Raise e)
    end.

(** [try: m except Exception as e: h e] *)
Definition try_except {A} (m : M A) (h : exn -> M A) : M A :=
  fun st =>
    match m st with
    | (st', Val a) => (st', Val a)
    | (st', Raise e) => h e st'
    end.

Definition lift {A} (r : result A) : M A := fun st => (st, r).

Declare Scope m_scope.
Delimit Scope m_scope with M.
Notation "x <- m ;; k" := (bind m (fun x => k))
  (at level 100, m at next level, k at level 200, right associativity) : m_scope.
Notation "m ;; k" := (bind m (fun _ => k))
  (at level 100, k at level 200, right associativity) : m_scope.
Local Open Scope m_scope.

Definition get_self : M MinecraftServer := fun st => (st, Val (self st)).

Definition get_out : M world := fun st => (st, Val (out st)).

Definition put_self (s : MinecraftServer) : M unit :=
  fun st => ({| self := s; out := out st |}, Val tt).

Definition put_out (w : world) : M unit :=
  fun st => ({| self := self st; out := w |}, Val tt).

Definition put_db (d : database) : M unit :=
  w <- get_out ;;
  put_out {| db := d; fs := fs w; requests := requests w; effects := effects w |}.

Definition put_fs (f : gmap pystr node) : M unit :=
  w <- get_out ;;
  put_out {| db := db w; fs := f; requests := requests w; effects := effects w |}.

(** Record one action on the outside. *)
Definition act (a : action) : M unit :=
  w <- get_out ;;
  put_out {| db := db w; fs := fs w; requests := requests w;
             effects := effects w ++ [a] |}.

(** [self.status = s] *)
Definition set_status (s : server_status) : M unit :=
  o <- get_self ;;
  put_self {| port := port o; version := version o; server_type := server_type o;
              process := process o; status := s; memory := memory o;
              motd := motd o; max_players := max_players o;
              auto_start := auto_start o; temporary := temporary o;
              mrpack_minecraft_version := mrpack_minecraft_version o;
              seen := seen o ++ [s] |}.

(** [self.process = p] *)
Definition set_process (p : option Popen) : M unit :=
  o <- get_self ;;
  put_self {| port := port o; version := version o; server_type := server_type o;
              process := p; status := status o; memory := memory o;
              motd := motd o; max_players := max_players o;
              auto_start := auto_start o; temporary := temporary o;
              mrpack_minecraft_version := mrpack_minecraft_version o;
              seen := seen o |}.

(** [self.mrpack_minecraft_version = v] *)
Definition set_mrpack_minecraft_version (v : json) : M unit :=
  o <- get_self ;;
  put_self {| port := port o; version := version o; server_type := server_type o;
              process := process o; status := status o; memory := memory o;
              motd := motd o; max_players := max_players o;
              auto_start := auto_start o; temporary := temporary o;
              mrpack_minecraft_version := Some v;
              seen := seen o |}.

(** *** Paths and the file system *)

(** [os.path.join(a, b)] on POSIX *)
Definition path_join (a b : pystr) : pystr :=
  if Py.startswith [47%N] b then b
  else if bool_decide (a = []) || Py.endswith [47%N] a then a ++ b
  else a ++ [47%N] ++ b.

(** [get_full_path] of the given path parts *)
Definition get_full_path (E : env) (path_parts : list pystr) : pystr :=
  abspath E (fold_left path_join path_parts (BASE_DIR E)).

(** [os.makedirs(p, exist_ok=True)]: fails on a file in the way. *)
Definition makedirs (p : pystr) : M unit :=
  w <- get_out ;;
  match fs w !! p with
  | Some (File _) => raise (Py.lit "[Errno 17] File exists")
  | _ => put_fs (<[p := Dir]> (fs w))
  end.

Definition path_exists (p : pystr) : M bool :=
  w <- get_out ;; ret (bool_decide (is_Some (fs w !! p))).

Definition path_isfile (p : pystr) : M bool :=
  w <- get_out ;;
  ret match fs w !! p with Some (File _) => true | _ => false end.

(** [os.path.getsize(p)] of a file *)
Definition path_getsize (p : pystr) : M Z :=
  w <- get_out ;;
  match fs w !! p with
  | Some (File bytes) => ret (Z.of_nat (length bytes))
  | Some Dir => ret 4096
  | None => raise (Py.lit "[Errno 2] No such file or directory")
  end.

(** The names directly under directory [p]. *)
Definition names_under (p : pystr) (f : gmap pystr node) : list pystr :=
  omap (fun q : pystr =>
          if Py.startswith (p ++ [47%N]) q
          then let name := drop (length p + 1) q in
               if existsb (N.eqb 47) name || bool_decide (name = []) then None
               else Some name
          else None)
       (map fst (map_to_list f)).

(** [os.listdir(p)] *)
Definition listdir (p : pystr) : M (list pystr) :=
  w <- get_out ;;
  match fs w !! p with
  | Some Dir => ret (names_under p (fs w))
  | _ => raise (Py.lit "[Errno 20] Not a directory")
  end.

(** [with open(p, 'wb') as f: for chunk in r.iter_content(...): f.write(chunk)] *)
Definition write_chunks (p : pystr) (r : response) : M unit :=
  w <- get_out ;;
  match fs w !! p with
  | Some Dir => raise (Py.lit "[Errno 21] Is a directory")
  | _ =>
      put_fs (<[p := File (concat (chunks r))]> (fs w)) ;;
      if broken r then raise (Py.lit "Connection broken") else ret tt
  end.

(** [requests.get(url)] *)
Definition requests_get (E : env) (url : pystr) : M response :=
  w <- get_out ;;
  put_out {| db := db w; fs := fs w; requests := requests w ++ [url];
             effects := effects w |} ;;
  lift (http E (length (requests w)) url).

(** [requests.get(url).json()] *)
Definition get_json (E : env) (url : pystr) : M json :=
  r <- requests_get E url ;;
  match json_body r with
  | Some j => ret j
  | None => raise (Py.lit "Expecting value")
  end.

(** *** Operations on decoded JSON *)

(** [v[key]] for a string key *)
Definition getitem (key : pystr) (v : json) : M json :=
  match v with
  | JObj kv =>
      match list_find (fun p : pystr * json => p.1 = key) kv with
      | Some (_, (_, x)) => ret x
      | None => raise key                       (* KeyError *)
      end
  | _ => raise (Py.lit "indices must be integers")
  end.

(** [v.get(key, default)] *)
Definition dict_get (key : pystr) (default : json) (v : json) : M json :=
  match v with
  | JObj kv =>
      match list_find (fun p : pystr * json => p.1 = key) kv with
      | Some (_, (_, x)) => ret x
      | None => ret default
      end
  | _ => raise (Py.lit "object has no attribute 'get'")
  end.

(** [v[0]] *)
Definition getitem_first (v : json) : M json :=
  match v with
  | JArr (x :: _) => ret x
  | JStr (c :: _) => ret (JStr [c])
  | JArr [] | JStr [] => raise (Py.lit "index out of range")
  | JObj _ => raise (Py.lit "0")                 (* KeyError *)
  | _ => raise (Py.lit "object is not subscriptable")
  end.

(** [v[-1]] *)
Definition getitem_last (v : json) : M json :=
  match v with
  | JArr l => match last l with Some x => ret x
                              | None => raise (Py.lit "index out of range") end
  | JStr s => match last s with Some c => ret (JStr [c])
                              | None => raise (Py.lit "index out of range") end
  | JObj _ => raise (Py.lit "-1")                (* KeyError *)
  | _ => raise (Py.lit "object is not subscriptable")
  end.

(** [v[:20]] *)
Definition slice20 (v : json) : M json :=
  match v with
  | JArr l => ret (JArr (take 20 l))
  | JStr s => ret (JStr (take 20 s))
  | _ => raise (Py.lit "object is not subscriptable")
  end.

(** The elements [for x in v] runs over. *)
Definition iterate (v : json) : M (list json) :=
  match v with
  | JArr l => ret l
  | JObj kv => ret (map (fun p => JStr p.1) kv)
  | JStr s => ret (map (fun c => JStr [c]) s)
  | _ => raise (Py.lit "object is not iterable")
  end.

(** Truth value *)
Definition truthy (v : json) : bool :=
  match v with
  | JNull => false
  | JBool b => b
  | JNum z => negb (z =? 0)
  | JStr s => negb (bool_decide (s = []))
  | JArr l => negb (bool_decide (length l = 0%nat))
  | JObj kv => negb (bool_decide (length kv = 0%nat))
  end.

(** [v == s] for a string [s] *)
Definition eq_str (v : json) (s : pystr) : bool :=
  match v with
  | JStr t => bool_decide (t = s)
  | _ => false
  end.

(** [f"{v}"] *)
Definition format (E : env) (v : json) : pystr :=
  match v with
  | JStr s => s
  | JNum z => Py.str_of_Z z
  | JBool true => Py.lit "True"
  | JBool false => Py.lit "False"
  | JNull => Py.lit "None"
  | _ => repr E v
  end.

(** *** REPOSITORIES *)

Inductive repo_type := Mojang | Papermc | Purpur | Fabric | Velocity | Modrinth.

#[export] Instance repo_type_eq_dec : EqDecision repo_type.
Proof. solve_decision. Defined.

Record repository := {
  repo_name : pystr;
  repo_url : pystr;
  repo_kind : repo_type                (* the 'type' entry *)
}.

Local Abbreviation L := Py.lit.

(** [REPOSITORIES.get(key)] *)
Definition REPOSITORIES (key : pystr) : option repository :=
  if bool_decide (key = L "vanilla") then
    Some {| repo_name := L "Mojang Official";
            repo_url := L "https://launchermeta.mojang.com/mc/game/version_manifest.json";
            repo_kind := Mojang |}
  else if bool_decide (key = L "paper") then
    Some {| repo_name := L "PaperMC Official";
            repo_url := L "https://api.papermc.io/v2/projects/paper";
            repo_kind := Papermc |}
  else if bool_decide (key = L "purpur") then
    Some {| repo_name := L "Purpur Official";
            repo_url := L "https://api.purpurmc.org/v2/purpur";
            repo_kind := Purpur |}
  else if bool_decide (key = L "fabric") then
    Some {| repo_name := L "Fabric Official";
            repo_url := L "https://meta.fabricmc.net/v2/versions";
            repo_kind := Fabric |}
  else if bool_decide (key = L "velocity") then
    Some {| repo_name := L "Velocity Official";
            repo_url := L "https://api.papermc.io/v2/projects/velocity";
            repo_kind := Velocity |}
  else if bool_decide (key = L "mrpack") then
    Some {| repo_name := L "Modrinth Modpack";
            repo_url := L "https://api.modrinth.com/v2";
            repo_kind := Modrinth |}
  else None.

(** *** MinecraftServer: persistence *)

Definition INFO : pystr := L "INFO".
Definition ERROR : pystr := L "ERROR".
Definition WARNING : pystr := L "WARNING".

(** SQLite holds an integer in 64 bits, signed: binding a Python int
    outside that range to a parameter of a statement raises OverflowError. *)
Definition sqlite_int (z : Z) : bool :=
  (-9223372036854775808 <=? z) && (z <=? 9223372036854775807).

Definition too_large : pystr := L "Python int too large to convert to SQLite INTEGER".

(** [MinecraftServer._save_to_db]: INSERT OR REPLACE INTO servers.  Of the
    integers it binds, [max_players] is whatever a request has put there.
    The port binds: the object is in the registry, or is being constructed
    for a row of the table or by a creation endpoint, which has then bound
    the port before (see [new_server]). *)
Definition _save_to_db : M unit :=
  o <- get_self ;;
  if negb (sqlite_int (max_players o)) then raise too_large
  else
    w <- get_out ;;
    put_db {| servers_tbl :=
                <[port o := {| row_version := version o;
                               row_server_type := server_type o;
                               row_status := status o;
                               row_memory := memory o;
                               row_motd := motd o;
                               row_max_players := max_players o;
                               row_auto_start := auto_start o;
                               row_last_started := None |}]> (servers_tbl (db w));
              server_logs := server_logs (db w) |}.

(** [MinecraftServer.update_status] *)
Definition update_status (E : env) (s : server_status) : M unit :=
  set_status s ;;
  o <- get_self ;;
  if temporary o then ret tt
  else
    w <- get_out ;;
    put_db {| servers_tbl :=
                alter (fun r =>
                         {| row_version := row_version r;
                            row_server_type := row_server_type r;
                            row_status := s;
                            row_memory := row_memory r;
                            row_motd := row_motd r;
                            row_max_players := row_max_players r;
                            row_auto_start := row_auto_start r;
                            row_last_started :=
                              if bool_decide (s = Running)
                              then Some (CURRENT_TIMESTAMP E)
                              else row_last_started r |})
                      (port o) (servers_tbl (db w));
              server_logs := server_logs (db w) |}.

(** [MinecraftServer.add_log].  The line sent to the Python logger is not
    part of the model. *)
Definition add_log (E : env) (message level : pystr) : M unit :=
  o <- get_self ;;
  if temporary o then ret tt
  else
    let log_entry := L "[" ++ now E ++ L "] " ++ message in
    w <- get_out ;;
    put_db {| servers_tbl := servers_tbl (db w);
              server_logs :=
                server_logs (db w)
                ++ [{| log_port := port o; log_text := log_entry; log_level := level |}] |}.

(** [MinecraftServer.__init__]: the new object, and the world after it. *)
Definition __init__ (port : Z) (version server_type : pystr) (temporary : bool)
    (w : world) : state :=
  let st :=
    {| self := {| port := port; version := version; server_type := server_type;
                  process := None; status := Stopped; memory := L "2G";
                  motd := L "Minecraft Server"; max_players := 20;
                  auto_start := false; temporary := temporary;
                  mrpack_minecraft_version := None; seen := [Stopped] |};
       out := w |} in
  if temporary then st else (_save_to_db st).1.

(** *** MinecraftServer.get_available_versions *)

(** [[val(v) for v in l if cond(v)]] *)
Fixpoint comprehension (cond : json -> M bool) (val : json -> M json)
    (l : list json) : M (list json) :=
  match l with
  | [] => ret []
  | v :: l' =>
      c <- cond v ;;
      if c then x <- val v ;; xs <- comprehension cond val l' ;; ret (x :: xs)
      else comprehension cond val l'
  end.

Definition versions_of (E : env) (url : pystr) : M json :=
  response <- requests_get E url ;;
  if status_code response =? 200 then
    match json_body response with
    | Some j => v <- dict_get (L "versions") (JArr []) j ;; slice20 v
    | None => raise (L "Expecting value")
    end
  else ret (JArr []).

Definition get_available_versions (E : env) : M json :=
  try_except
    (o <- get_self ;;
     match REPOSITORIES (server_type o) with
     | None => ret (JArr [])
     | Some repo =>
       match repo_kind repo with
       | Mojang =>
           data <- get_json E (repo_url repo) ;;
           vs <- getitem (L "versions") data ;;
           l <- iterate vs ;;
           versions <- comprehension
                         (fun v => t <- getitem (L "type") v ;; ret (eq_str t (L "release")))
                         (getitem (L "id")) l ;;
           ret (JArr (take 20 versions))
       | Papermc | Velocity => versions_of E (repo_url repo ++ L "/versions")
       | Purpur => versions_of E (repo_url repo)
       | Fabric =>
           response <- requests_get E (repo_url repo ++ L "/game") ;;
           if status_code response =? 200 then
             match json_body response with
             | Some j =>
                 l <- iterate j ;;
                 versions <- comprehension
                               (fun v => t <- getitem (L "stable") v ;; ret (truthy t))
                               (getitem (L "version")) l ;;
                 ret (JArr (take 20 versions))
             | None => raise (L "Expecting value")
             end
           else ret (JArr [])
       | Modrinth => ret (JArr [JStr (L "uploaded:mrpack")])
       end
     end)
    (fun e => add_log E (L "Error getting versions: " ++ exn_msg e) ERROR ;; ret (JArr [])).

(** *** MinecraftServer.download_server *)

(** [next((v for v in l if v["id"] == version), None)] *)
Fixpoint find_version (version : pystr) (l : list json) : M (option json) :=
  match l with
  | [] => ret None
  | v :: l' =>
      i <- getitem (L "id") v ;;
      if eq_str i version then ret (Some v) else find_version version l'
  end.

(** [requests.get(u)] for a decoded value [u]: only a string is a URL. *)
Definition requests_get_value (E : env) (u : json) : M response :=
  match u with
  | JStr url => requests_get E url
  | _ => raise (L "Invalid URL")
  end.

(** [MinecraftServer._process_mrpack] *)
Definition _process_mrpack (E : env) (mrpack_path server_dir : pystr) : M (option pystr) :=
  try_except
    (add_log E (L "Processing mrpack file: " ++ mrpack_path) INFO ;;
     w <- get_out ;;
     f <- lift (install_mrpack E mrpack_path server_dir (fs w)) ;;
     put_fs f ;;
     modpack_info <- lift (get_mrpack_information E mrpack_path) ;;
     deps <- dict_get (L "dependencies") (JObj []) modpack_info ;;
     minecraft_version <- dict_get (L "minecraft") JNull deps ;;
     (if truthy minecraft_version then
        set_mrpack_minecraft_version minecraft_version ;;
        add_log E (L "Modpack Minecraft version: " ++ format E minecraft_version) INFO
      else add_log E (L "Could not find Minecraft version in modpack") WARNING) ;;
     deps1 <- dict_get (L "dependencies") (JObj []) modpack_info ;;
     fabric_loader <- dict_get (L "fabric-loader") JNull deps1 ;;
     loader <- (if truthy fabric_loader then ret fabric_loader
                else deps2 <- dict_get (L "dependencies") (JObj []) modpack_info ;;
                     dict_get (L "forge") JNull deps2) ;;
     (if truthy loader then add_log E (L "Modpack loader: " ++ format E loader) INFO
      else ret tt) ;;
     names <- listdir server_dir ;;
     match filter (fun f => Is_true (Py.endswith (L ".jar") f)) names with
     | jar :: _ =>
         let jar_path := path_join server_dir jar in
         add_log E (L "Found server jar: " ++ jar_path) INFO ;;
         ret (Some jar_path)
     | [] =>
         add_log E (L "No server jar found after installation") ERROR ;;
         ret None
     end)
    (fun e => add_log E (L "Error processing mrpack: " ++ exn_msg e) ERROR ;; ret None).

(** [MinecraftServer._download_mrpack] *)
Definition _download_mrpack (E : env) (server_dir : pystr) : M (option pystr) :=
  try_except
    (o <- get_self ;;
     if Py.startswith (L "uploaded:") (version o) then
       match Py.after_first 58 (version o) with
       | Some filename =>
           let mrpack_path := get_full_path E [L "uploads"; filename] in
           ex <- path_exists mrpack_path ;;
           if negb ex then
             add_log E (L "Uploaded mrpack not found: " ++ mrpack_path) ERROR ;;
             ret None
           else _process_mrpack E mrpack_path server_dir
       | None => raise (L "list index out of range")
       end
     else
       add_log E (L "Invalid mrpack version format") ERROR ;;
       ret None)
    (fun e => add_log E (L "Error downloading mrpack: " ++ exn_msg e) ERROR ;; ret None).

(** [f"{server_type}-{version}.jar"] *)
Definition jar_name_of (o : MinecraftServer) : pystr :=
  server_type o ++ L "-" ++ version o ++ L ".jar".

(** The provider-specific part of [download_server]: the download URL, and
    the name and path the download will be written to. *)
Definition resolve (E : env) (repo : repository) (server_dir jar_name jar_path : pystr)
    : M (json * pystr * pystr) :=
  o <- get_self ;;
  match repo_kind repo with
  | Mojang =>
      manifest <- get_json E (repo_url repo) ;;
      vs <- getitem (L "versions") manifest ;;
      l <- iterate vs ;;
      version_info <- find_version (version o) l ;;
      match version_info with
      | Some info =>
          if negb (truthy info) then raise (L "Version not found")
          else
            u <- getitem (L "url") info ;;
            r <- requests_get_value E u ;;
            match json_body r with
            | Some version_data =>
                d <- getitem (L "downloads") version_data ;;
                s <- getitem (L "server") d ;;
                download_url <- getitem (L "url") s ;;
                ret (download_url, jar_name, jar_path)
            | None => raise (L "Expecting value")
            end
      | None => raise (L "Version not found")
      end
  | Papermc =>
      let builds_url := repo_url repo ++ L "/versions/" ++ version o in
      builds <- get_json E builds_url ;;
      bs <- getitem (L "builds") builds ;;
      latest_build <- getitem_last bs ;;
      ret (JStr (builds_url ++ L "/builds/" ++ format E latest_build
                 ++ L "/downloads/paper-" ++ version o ++ L "-"
                 ++ format E latest_build ++ L ".jar"),
           jar_name, jar_path)
  | Purpur =>
      let builds_url := repo_url repo ++ L "/" ++ version o in
      builds <- get_json E builds_url ;;
      bs <- getitem (L "builds") builds ;;
      latest_build <- getitem (L "latest") bs ;;
      ret (JStr (builds_url ++ L "/" ++ format E latest_build
                 ++ L "/downloads/purpur-" ++ version o ++ L "-"
                 ++ format E latest_build ++ L ".jar"),
           jar_name, jar_path)
  | Fabric =>
      loader_versions <- get_json E (repo_url repo ++ L "/loader") ;;
      l0 <- getitem_first loader_versions ;;
      l1 <- getitem (L "loader") l0 ;;
      latest_loader <- getitem (L "version") l1 ;;
      installer_versions <- get_json E (repo_url repo ++ L "/installer") ;;
      i0 <- getitem_first installer_versions ;;
      latest_installer <- getitem (L "version") i0 ;;
      let jar_name := L "fabric-server.jar" in
      ret (JStr (L "https://meta.fabricmc.net/v2/versions/loader/" ++ version o
                 ++ L "/" ++ format E latest_loader ++ L "/"
                 ++ format E latest_installer ++ L "/server/jar"),
           jar_name, path_join server_dir jar_name)
  | Velocity =>
      let builds_url := repo_url repo ++ L "/versions/" ++ version o in
      builds <- get_json E builds_url ;;
      bs <- getitem (L "builds") builds ;;
      latest_build <- getitem_last bs ;;
      ret (JStr (builds_url ++ L "/builds/" ++ format E latest_build
                 ++ L "/downloads/velocity-" ++ version o ++ L "-"
                 ++ format E latest_build ++ L ".jar"),
           jar_name, jar_path)
  | Modrinth => ret (JNull, jar_name, jar_path)
  end.

(** [MinecraftServer.download_server]: the path of the jar, or None. *)
Definition download_server (E : env) : M (option pystr) :=
  try_except
    (o <- get_self ;;
     let server_dir := get_full_path E [L "servers"; Py.str_of_Z (port o)] in
     makedirs server_dir ;;
     match REPOSITORIES (server_type o) with
     | None =>
         add_log E (L "Unknown server type: " ++ server_type o) ERROR ;;
         ret None
     | Some repo =>
         if bool_decide (repo_kind repo = Modrinth) then _download_mrpack E server_dir
         else
           let jar_name := jar_name_of o in
           let jar_path := path_join server_dir jar_name in
           ex <- path_exists jar_path ;;
           if ex then
             add_log E (L "Using existing jar: " ++ jar_name) INFO ;;
             ret (Some jar_path)
           else
             add_log E (L "Downloading " ++ server_type o ++ L " version " ++ version o) INFO ;;
             r <- resolve E repo server_dir jar_name jar_path ;;
             let '(download_url, jar_name, jar_path) := r in
             if negb (truthy download_url) then raise (L "Could not find download URL")
             else
               response <- requests_get_value E download_url ;;
               if negb (status_code response =? 200) then
                 raise (L "Download failed with status " ++ Py.str_of_Z (status_code response))
               else
                 write_chunks jar_path response ;;
                 add_log E (L "Downloaded " ++ jar_name) INFO ;;
                 ret (Some jar_path)
     end)
    (fun e => add_log E (L "Error downloading server: " ++ exn_msg e) ERROR ;; ret None).

(** *** MinecraftServer.start *)

(** [MinecraftServer.create_start_script] *)
Definition create_start_script (jar_path : pystr) : M (list pystr) :=
  o <- get_self ;;
  ret [L "java"; L "-Xmx" ++ memory o; L "-jar"; Py.after_last 47 jar_path; L "nogui"].

(** [subprocess.Popen(start_script, cwd=server_dir, ...)] *)
Definition popen (E : env) (start_script : list pystr) (server_dir : pystr) : M Popen :=
  act (Spawn start_script server_dir) ;;
  lift (spawn E start_script server_dir).

(** The first statements of the [try] block of [start]: the server
    directory is made and announced. *)
Definition start_prologue (E : env) : M pystr :=
  o <- get_self ;;
  let server_dir := get_full_path E [L "servers"; Py.str_of_Z (port o)] in
  makedirs server_dir ;;
  add_log E (L "Starting server in directory: " ++ server_dir) INFO ;;
  ret server_dir.

(** The rest of the [try] block, from the test of what [download_server]
    returned. *)
Definition launch (E : env) (server_dir : pystr) (jar : option pystr) : M bool :=
  match jar with
  | None | Some [] =>
      add_log E (L "Failed to download server jar") ERROR ;;
      ret false
  | Some jar_path =>
      ex <- path_exists jar_path ;;
      if negb ex then
        add_log E (L "Server jar not found at path: " ++ jar_path) ERROR ;;
        exd <- path_exists server_dir ;;
        (if exd then
           files <- listdir server_dir ;;
           add_log E (L "Files in server directory: " ++ repr_names E files) INFO
         else ret tt) ;;
        ret false
      else
        isf <- path_isfile jar_path ;;
        if negb isf then
          add_log E (L "JAR path is not a file: " ++ jar_path) ERROR ;;
          ret false
        else
          file_size <- path_getsize jar_path ;;
          if file_size =? 0 then
            add_log E (L "JAR file is empty: " ++ jar_path) ERROR ;;
            ret false
          else
            add_log E (L "Using JAR file: " ++ jar_path ++ L " (size: "
                       ++ Py.str_of_Z file_size ++ L " bytes)") INFO ;;
            start_script <- create_start_script jar_path ;;
            add_log E (L "Start command: " ++ Py.join (L " ") start_script) INFO ;;
            p <- popen E start_script server_dir ;;
            set_process (Some p) ;;
            set_status Starting ;;
            update_status E Starting ;;
            o <- get_self ;;
            add_log E (L "Server starting on port " ++ Py.str_of_Z (port o)) INFO ;;
            act ThreadStart ;;
            ret true
  end.

(** [MinecraftServer.start] *)
Definition start (E : env) : M bool :=
  o <- get_self ;;
  if bool_decide (status o = Running) then ret false
  else
    try_except
      (server_dir <- start_prologue E ;;
       jar_path <- download_server E ;;
       launch E server_dir jar_path)
      (fun e =>
         add_log E (L "Error starting server: " ++ exn_msg e) ERROR ;;
         set_status Error ;;
         update_status E Error ;;
         ret false).

(** *** MinecraftServer.monitor_output *)

(** The body of the loop, for one line read from the process. *)
Definition monitor_line (E : env) (line : pystr) : M unit :=
  let line := Py.strip line in
  if negb (bool_decide (line = [])) then
    add_log E line INFO ;;
    if Py.contains (L "Done") line && Py.contains (L "For help") line then
      update_status E Running ;;
      add_log E (L "Server started successfully") INFO
    else if Py.contains (L "Failed to start") line then
      update_status E Error ;;
      add_log E (L "Server failed to start") INFO
    else ret tt
  else ret tt.

(** [for line in iter(readline, ''): ...] over the lines the stream yields. *)
Fixpoint monitor_lines (E : env) (lines : list pystr) : M unit :=
  match lines with
  | [] => ret tt
  | line :: lines' => monitor_line E line ;; monitor_lines E lines'
  end.

(** How the output stream ends: it is closed (readline returns ''), or
    reading it raises. *)
Inductive stream_end := Closed | ReadError (e : exn).

(** [MinecraftServer.monitor_output], run on a stream that yields [lines]
    and then ends as [fin]. *)
Definition monitor_output (E : env) (lines : list pystr) (fin : stream_end) : M unit :=
  try_except
    (monitor_lines E lines ;;
     match fin with
     | Closed => ret tt
     | ReadError e => lift (Raise e)
     end)
    (fun e => add_log E (L "Error in output monitor: " ++ exn_msg e) ERROR).

(** *** MinecraftServer.stop *)

(** [process.poll() is not None], [t] seconds after the shutdown directive. *)
Definition exited (p : Popen) (t : nat) : bool :=
  match exit_after p with
  | Some d => (d <=? t)%nat
  | None => false
  end.

(** The same after SIGTERM was sent at second [t0]. *)
Definition exited_after_term (p : Popen) (t0 t : nat) : bool :=
  exited p t
  || match term_after p with
     | Some d => (t0 + d <=? t)%nat
     | None => false
     end.

(** [process.stdin.write(text); process.stdin.flush()] *)
Definition stdin_write (p : Popen) (text : pystr) : M unit :=
  if alive p then act (StdinWrite text)
  else raise (L "[Errno 32] Broken pipe").

(** [for _ in range(n): if poll() is not None: break; time.sleep(1)],
    started [t] seconds after the directive; the result is the time at
    which the loop is left. *)
Fixpoint wait_exit (p : Popen) (n t : nat) : M nat :=
  match n with
  | O => ret t
  | S n' => if exited p t then ret t else act (Sleep 1) ;; wait_exit p n' (S t)
  end.

(** The [try] block of [stop] for the process [p]. *)
Definition stop_body (E : env) (p : Popen) : M bool :=
  stdin_write p (L "stop" ++ [10%N]) ;;
  set_status Stopping ;;
  update_status E Stopping ;;
  t <- wait_exit p 30 0 ;;
  (if negb (exited p t) then
     act Terminate ;;
     act (Sleep 5) ;;
     if negb (exited_after_term p t (t + 5)) then act Kill else ret tt
   else ret tt) ;;
  set_process None ;;
  set_status Stopped ;;
  update_status E Stopped ;;
  add_log E (L "Server stopped") INFO ;;
  ret true.

(** [MinecraftServer.stop] *)
Definition stop (E : env) : M bool :=
  o <- get_self ;;
  match process o with
  | None => ret false
  | Some p =>
      if bool_decide (status o = Stopped) then ret false
      else
        try_except (stop_body E p)
          (fun e => add_log E (L "Error stopping server: " ++ exn_msg e) ERROR ;; ret false)
  end.

(** [MinecraftServer.restart] *)
Definition restart (E : env) : M bool :=
  stop E ;;
  act (Sleep 5) ;;
  start E.

(** [MinecraftServer.send_command] *)
Definition send_command (E : env) (command : pystr) : M bool :=
  o <- get_self ;;
  match process o with
  | None => ret false
  | Some p =>
      if negb (bool_decide (status o = Running)) then ret false
      else
        try_except (stdin_write p (command ++ [10%N]) ;; ret true)
          (fun e => add_log E (L "Error sending command: " ++ exn_msg e) ERROR ;; ret false)
  end.

(** *** The reader at work during an operation

    [start] leaves its reader thread running and [stop] does not join it, so
    a reader may handle lines while [stop] waits for the process and while a
    later [start] is at work.  [window E lines] is what the readers do at
    one point of an operation: they handle [lines], in this order.  The
    operations below are [stop], [start] and [restart] with such a point
    before each of their assignments to the status after the first test; [r]
    gives the lines handled at each point.  (A line handled at another point
    of the operation changes the status as one handled at the next of these
    points, or after the operation has returned.) *)
Definition window (E : env) (lines : list pystr) : M unit := monitor_lines E lines.

Definition stop_body_racing (E : env) (p : Popen) (r : nat -> list pystr) : M bool :=
  stdin_write p (L "stop" ++ [10%N]) ;;
  set_status Stopping ;;
  window E (r 0%nat) ;;
  update_status E Stopping ;;
  t <- wait_exit p 30 0 ;;
  (if negb (exited p t) then
     act Terminate ;;
     act (Sleep 5) ;;
     if negb (exited_after_term p t (t + 5)) then act Kill else ret tt
   else ret tt) ;;
  set_process None ;;
  window E (r 1%nat) ;;
  set_status Stopped ;;
  window E (r 2%nat) ;;
  update_status E Stopped ;;
  add_log E (L "Server stopped") INFO ;;
  ret true.

Definition stop_racing (E : env) (r : nat -> list pystr) : M bool :=
  o <- get_self ;;
  match process o with
  | None => ret false
  | Some p =>
      if bool_decide (status o = Stopped) then ret false
      else
        try_except (stop_body_racing E p r)
          (fun e => add_log E (L "Error stopping server: " ++ exn_msg e) ERROR ;; ret false)
  end.

Definition launch_racing (E : env) (server_dir : pystr) (jar : option pystr)
    (r : nat -> list pystr) : M bool :=
  match jar with
  | None | Some [] =>
      add_log E (L "Failed to download server jar") ERROR ;;
      ret false
  | Some jar_path =>
      ex <- path_exists jar_path ;;
      if negb ex then
        add_log E (L "Server jar not found at path: " ++ jar_path) ERROR ;;
        exd <- path_exists server_dir ;;
        (if exd then
           files <- listdir server_dir ;;
           add_log E (L "Files in server directory: " ++ repr_names E files) INFO
         else ret tt) ;;
        ret false
      else
        isf <- path_isfile jar_path ;;
        if negb isf then
          add_log E (L "JAR path is not a file: " ++ jar_path) ERROR ;;
          ret false
        else
          file_size <- path_getsize jar_path ;;
          if file_size =? 0 then
            add_log E (L "JAR file is empty: " ++ jar_path) ERROR ;;
            ret false
          else
            add_log E (L "Using JAR file: " ++ jar_path ++ L " (size: "
                       ++ Py.str_of_Z file_size ++ L " bytes)") INFO ;;
            start_script <- create_start_script jar_path ;;
            add_log E (L "Start command: " ++ Py.join (L " ") start_script) INFO ;;
            p <- popen E start_script server_dir ;;
            set_process (Some p) ;;
            window E (r 0%nat) ;;
            set_status Starting ;;
            window E (r 1%nat) ;;
            update_status E Starting ;;
            o <- get_self ;;
            add_log E (L "Server starting on port " ++ Py.str_of_Z (port o)) INFO ;;
            act ThreadStart ;;
            ret true
  end.

Definition start_racing (E : env) (r : nat -> list pystr) : M bool :=
  o <- get_self ;;
  if bool_decide (status o = Running) then ret false
  else
    try_except
      (server_dir <- start_prologue E ;;
       jar_path <- download_server E ;;
       launch_racing E server_dir jar_path r)
      (fun e =>
         add_log E (L "Error starting server: " ++ exn_msg e) ERROR ;;
         window E (r 2%nat) ;;
         set_status Error ;;
         window E (r 3%nat) ;;
         update_status E Error ;;
         ret false).

(** In [restart] the readers also have the five seconds between [stop] and
    [start], before [start] tests the status. *)
Definition restart_racing (E : env) (r : nat -> list pystr) : M bool :=
  stop_racing E r ;;
  act (Sleep 5) ;;
  window E (r 3%nat) ;;
  start_racing E (fun i => r (4 + i)%nat).

(** *** The supervisor of one server over time

    One server object together with the number of reader threads
    ([monitor_output]) still attached to an output stream.  The operations
    are issued one at a time; a reader handles a line between two
    operations, or, as long as a reader is attached, during one. *)

Record supervisor := {
  sv : state;
  readers : nat
}.

Inductive event :=
| EvStart (E : env)
| EvStop (E : env)
| EvRestart (E : env)
| EvCommand (E : env) (command : pystr)
| EvLine (E : env) (line : pystr)      (* a reader gets a line *)
| EvClosed (E : env)                   (* a reader's stream is closed *)
| EvReadError (E : env) (e : exn)      (* a reader's stream raises *)
| EvProcess (p : Popen)                (* the child process changes by itself *)
| EvStartRacing (E : env) (r : nat -> list pystr)
| EvStopRacing (E : env) (r : nat -> list pystr)
| EvRestartRacing (E : env) (r : nat -> list pystr).

Definition spawned_reader (r : result bool) : nat :=
  match r with Val true => 1%nat | _ => 0%nat end.

Inductive step : supervisor -> event -> supervisor -> Prop :=
| step_start E s :
    step s (EvStart E)
         {| sv := (start E (sv s)).1;
            readers := readers s + spawned_reader (start E (sv s)).2 |}
| step_stop E s :
    step s (EvStop E) {| sv := (stop E (sv s)).1; readers := readers s |}
| step_restart E s :
    step s (EvRestart E)
         {| sv := (restart E (sv s)).1;
            readers := readers s + spawned_reader (restart E (sv s)).2 |}
| step_command E c s :
    step s (EvCommand E c) {| sv := (send_command E c (sv s)).1; readers := readers s |}
| step_line E line s n :
    readers s = S n ->
    step s (EvLine E line) {| sv := (monitor_line E line (sv s)).1; readers := readers s |}
| step_closed E s n :
    readers s = S n ->
    step s (EvClosed E) {| sv := (monitor_output E [] Closed (sv s)).1; readers := n |}
| step_read_error E e s n :
    readers s = S n ->
    step s (EvReadError E e) {| sv := (monitor_output E [] (ReadError e) (sv s)).1; readers := n |}
| step_process p p' s :
    process (self (sv s)) = Some p ->
    step s (EvProcess p')
         {| sv := (set_process (Some p') (sv s)).1; readers := readers s |}
| step_start_racing E r s n :
    readers s = S n ->
    step s (EvStartRacing E r)
         {| sv := (start_racing E r (sv s)).1;
            readers := readers s + spawned_reader (start_racing E r (sv s)).2 |}
| step_stop_racing E r s n :
    readers s = S n ->
    step s (EvStopRacing E r) {| sv := (stop_racing E r (sv s)).1; readers := readers s |}
| step_restart_racing E r s n :
    readers s = S n ->
    step s (EvRestartRacing E r)
         {| sv := (restart_racing E r (sv s)).1;
            readers := readers s + spawned_reader (restart_racing E r (sv s)).2 |}.

(** A server as constructed, or as rehydrated by [load_servers_from_db],
    which overwrites the attributes read from the row: the status the
    constructor has set to "stopped" is assigned the status of the row. *)
Definition rehydrate (row : server_row) (st : state) : state :=
  {| self := {| port := port (self st); version := version (self st);
                server_type := server_type (self st); process := process (self st);
                status := row_status row; memory := row_memory row;
                motd := row_motd row; max_players := row_max_players row;
                auto_start := row_auto_start row; temporary := temporary (self st);
                mrpack_minecraft_version := mrpack_minecraft_version (self st);
                seen := seen (self st) ++ [row_status row] |};
     out := out st |}.

Inductive initial : supervisor -> Prop :=
| initial_new port version server_type temporary w :
    initial {| sv := __init__ port version server_type temporary w; readers := 0 |}
| initial_loaded port row w :
    initial {| sv := rehydrate row (__init__ port (row_version row) (row_server_type row) false w);
               readers := 0 |}.

Inductive reachable : supervisor -> Prop :=
| reachable_initial s : initial s -> reachable s
| reachable_step s ev s' : reachable s -> step s ev s' -> reachable s'.

(** *** The HTTP API: the endpoints addressed to one port *)

(** The Flask application: the registry [servers] and the world. *)
Record app := {
  servers : gmap Z MinecraftServer;
  outside : world
}.

(** The JSON bodies the endpoints answer with. *)
Inductive body :=
| BError (error : pystr)
| BSuccess
| BLogs (logs : list pystr)
| BStatus (status : server_status) (version server_type memory motd : pystr)
          (max_players : Z) (auto_start : bool) (logs : option (list pystr))
| BJson (j : json)
| BServerError.    (* the page Flask makes of an exception no handler caught *)

Record http_response := {
  code : Z;
  answer : body
}.

Definition not_found : http_response :=
  {| code := 404; answer := BError (L "Server not found") |}.

(** Run a method of the object registered under [port]; the object in the
    registry is the one the method mutates. *)
Definition call {A} (port : Z) (o : MinecraftServer) (m : M A) (a : app) : app * result A :=
  let '(st, r) := m {| self := o; out := outside a |} in
  ({| servers := <[port := self st]> (servers a); outside := out st |}, r).

(** [SELECT log_text FROM server_logs WHERE server_port = ? ORDER BY id DESC
    LIMIT ?], reversed: the last [limit] lines of the port, oldest first
    (a negative LIMIT is no limit). *)
Definition last_logs (port limit : Z) (d : database) : list pystr :=
  let l := log_text <$> filter (fun r => log_port r = port) (server_logs d) in
  if limit <? 0 then l else drop (length l - Z.to_nat limit) l.

(** GET /api/server/<port>/logs.  Port and limit are bound to the SELECT;
    the OverflowError of an integer SQLite cannot hold is caught by no
    handler. *)
Definition get_logs (port limit : Z) (a : app) : app * http_response :=
  if sqlite_int port && sqlite_int limit
  then (a, {| code := 200; answer := BLogs (last_logs port limit (db (outside a))) |})
  else (a, {| code := 500; answer := BServerError |}).

Definition status_body (o : MinecraftServer) (logs : option (list pystr)) : body :=
  BStatus (status o) (version o) (server_type o) (memory o) (motd o)
          (max_players o) (auto_start o) logs.

(** GET /api/server/<port>/status *)
Definition get_status (port : Z) (a : app) : app * http_response :=
  match servers a !! port with
  | None => (a, not_found)
  | Some server => (a, {| code := 200; answer := status_body server None |})
  end.

(** GET /server_status/<port> *)
Definition server_status_route (port : Z) (a : app) : app * http_response :=
  match servers a !! port with
  | None => (a, not_found)
  | Some server =>
      (a, {| code := 200;
             answer := status_body server (Some (last_logs port 50 (db (outside a)))) |})
  end.

Definition bool_answer (failure : pystr) (r : result bool) : http_response :=
  match r with
  | Val true => {| code := 200; answer := BSuccess |}
  | Val false => {| code := 500; answer := BError failure |}
  | Raise e => {| code := 500; answer := BError (exn_msg e) |}
  end.

(** POST /api/server/<port>/start (and /start_server/<port>) *)
Definition start_server (E : env) (port : Z) (a : app) : app * http_response :=
  match servers a !! port with
  | None => (a, not_found)
  | Some server =>
      let '(a, r) := call port server (start E) a in
      (a, bool_answer (L "Failed to start server") r)
  end.

(** POST /api/server/<port>/stop (and /stop_server/<port>) *)
Definition stop_server (E : env) (port : Z) (a : app) : app * http_response :=
  match servers a !! port with
  | None => (a, not_found)
  | Some server =>
      let '(a, r) := call port server (stop E) a in
      (a, bool_answer (L "Failed to stop server") r)
  end.

(** POST /api/server/<port>/restart *)
Definition restart_server (E : env) (port : Z) (a : app) : app * http_response :=
  match servers a !! port with
  | None => (a, not_found)
  | Some server =>
      let '(a, r) := call port server (restart E) a in
      (a, bool_answer (L "Failed to restart server") r)
  end.

(** POST /api/server/<port>/command, with the 'command' entry of the body *)
Definition send_command_route (E : env) (port : Z) (command : option pystr) (a : app)
    : app * http_response :=
  match servers a !! port with
  | None => (a, not_found)
  | Some server =>
      match command with
      | None | Some [] => (a, {| code := 400; answer := BError (L "Command required") |})
      | Some c =>
          let '(a, r) := call port server (send_command E c) a in
          (a, bool_answer (L "Failed to send command") r)
      end
  end.

(** The body of POST /api/server/<port>/settings: the entries present. *)
Record settings := {
  new_memory : option pystr;
  new_motd : option pystr;
  new_max_players : option Z;
  new_auto_start : option bool
}.

Definition apply_settings (d : settings) : M unit :=
  o <- get_self ;;
  put_self {| port := port o; version := version o; server_type := server_type o;
              process := process o; status := status o;
              memory := default (memory o) (new_memory d);
              motd := default (motd o) (new_motd d);
              max_players := default (max_players o) (new_max_players d);
              auto_start := default (auto_start o) (new_auto_start d);
              temporary := temporary o;
              mrpack_minecraft_version := mrpack_minecraft_version o;
              seen := seen o |}.

(** POST /api/server/<port>/settings.  The attributes are assigned before
    the object is saved; what [_save_to_db] raises is caught by no handler. *)
Definition update_settings (port : Z) (d : settings) (a : app) : app * http_response :=
  match servers a !! port with
  | None => (a, not_found)
  | Some server =>
      let '(a, r) := call port server (apply_settings d ;; _save_to_db) a in
      match r with
      | Val _ => (a, {| code := 200; answer := BSuccess |})
      | Raise _ => (a, {| code := 500; answer := BServerError |})
      end
  end.

(** [shutil.rmtree(p)] *)
Definition rmtree (p : pystr) (f : gmap pystr node) : gmap pystr node :=
  filter (fun kv : pystr * node =>
            kv.1 <> p /\ Is_true (negb (Py.startswith (p ++ [47%N]) kv.1))) f.

(** POST /api/server/<port>/delete.  The server is stopped outside the
    [try]; inside it, [shutil.rmtree] raises on a path that is a regular
    file, and the two DELETE statements bind the port.  The [except] branch
    answers 500 with the text of the exception and leaves the rest undone. *)
Definition delete_server (E : env) (port : Z) (a : app) : app * http_response :=
  match servers a !! port with
  | None => (a, not_found)
  | Some server =>
      let a :=
        if negb (bool_decide (status server = Stopped))
        then (call port server (stop E) a).1 else a in
      let server_dir := get_full_path E [L "servers"; Py.str_of_Z port] in
      let w := outside a in
      match fs w !! server_dir with
      | Some (File _) =>
          (a, {| code := 500;
                 answer := BError (L "[Errno 20] Not a directory: '" ++ server_dir ++ L "'") |})
      | node =>
          let f := if bool_decide (is_Some node) then rmtree server_dir (fs w) else fs w in
          if negb (sqlite_int port)
          then ({| servers := servers a;
                   outside := {| db := db w; fs := f; requests := requests w;
                                 effects := effects w |} |},
                {| code := 500; answer := BError too_large |})
          else
            let d := {| servers_tbl := delete port (servers_tbl (db w));
                        server_logs :=
                          filter (fun r => log_port r <> port) (server_logs (db w)) |} in
            ({| servers := delete port (servers a);
                outside := {| db := d; fs := f; requests := requests w;
                              effects := effects w |} |},
             {| code := 200; answer := BSuccess |})
      end
  end.

(** *** The routes of the Flask application

    A rule of [@app.route], cut at its slashes. *)
Inductive segment :=
| Lit (s : pystr)
| IntArg         (* <int:port>: one or more digits *)
| StrArg         (* <server_type>: one or more characters other than a slash *)
| PathArg.       (* <path:filename>: the rest of the path, not empty *)

Inductive http_method := GET | POST.

#[export] Instance http_method_eq_dec : EqDecision http_method.
Proof. solve_decision. Defined.

(** The rule Flask adds for static files, and the rules of main.py in the
    order of the file, each with its methods (GET where none are given).
    The digits of [<int:port>] are taken as the ASCII digits. *)
Definition routes : list (list http_method * list segment) :=
  [ ([GET], [Lit (L "static"); PathArg]);
    ([GET], [Lit []]);
    ([GET], [Lit (L "server_stats")]);
    ([GET], [Lit (L "list_servers")]);
    ([GET], [Lit (L "available_server_types")]);
    ([GET], [Lit (L "available_versions"); StrArg]);
    ([GET], [Lit (L "repository_info"); StrArg]);
    ([POST], [Lit (L "start_server"); IntArg]);
    ([POST], [Lit (L "stop_server"); IntArg]);
    ([POST], [Lit (L "create_server")]);
    ([GET], [Lit (L "server_status"); IntArg]);
    ([GET; POST], [Lit (L "api"); Lit (L "servers")]);
    ([POST], [Lit (L "api"); Lit (L "create_server")]);
    ([POST], [Lit (L "api"); Lit (L "server"); IntArg; Lit (L "start")]);
    ([POST], [Lit (L "api"); Lit (L "server"); IntArg; Lit (L "stop")]);
    ([POST], [Lit (L "api"); Lit (L "server"); IntArg; Lit (L "restart")]);
    ([POST], [Lit (L "api"); Lit (L "server"); IntArg; Lit (L "command")]);
    ([GET], [Lit (L "api"); Lit (L "server"); IntArg; Lit (L "logs")]);
    ([GET], [Lit (L "api"); Lit (L "server"); IntArg; Lit (L "status")]);
    ([POST], [Lit (L "api"); Lit (L "server"); IntArg; Lit (L "settings")]);
    ([POST], [Lit (L "api"); Lit (L "server"); IntArg; Lit (L "delete")]);
    ([GET], [Lit (L "api"); Lit (L "repositories")]);
    ([GET], [Lit (L "api"); Lit (L "versions"); StrArg]);
    ([GET], [Lit (L "server_files"); IntArg]);
    ([GET], [Lit (L "server_files"); IntArg; Lit (L "content")]);
    ([GET], [Lit (L "server_files"); IntArg; Lit (L "download")]);
    ([POST], [Lit (L "server_files"); IntArg; Lit (L "save")]);
    ([POST], [Lit (L "server_files"); IntArg; Lit (L "create_file")]);
    ([POST], [Lit (L "server_files"); IntArg; Lit (L "create_folder")]);
    ([POST], [Lit (L "server_files"); IntArg; Lit (L "delete")]);
    ([POST], [Lit (L "server_files"); IntArg; Lit (L "upload")]);
    ([POST], [Lit (L "upload_mrpack")]) ].

(** The text up to the next slash or question mark, and what follows it. *)
Fixpoint cut_segment (s : pystr) : pystr * pystr :=
  match s with
  | [] => ([], [])
  | c :: s' =>
      if ((c =? 47) || (c =? 63))%N then ([], s)
      else let '(x, rest) := cut_segment s' in (c :: x, rest)
  end.

Definition segment_fits (g : segment) (x : pystr) : bool :=
  match g with
  | Lit l => bool_decide (x = l)
  | IntArg => negb (bool_decide (x = [])) && forallb Py.isdigit x
  | StrArg | PathArg => negb (bool_decide (x = []))
  end.

(** Whether a rule matches a path (which a query string may follow): every
    segment of the rule fits the text between two slashes, and the path ends
    with the rule. *)
Fixpoint rule_matches (rule : list segment) (path : pystr) : bool :=
  match rule with
  | [] => match path with [] => true | c :: _ => (c =? 63)%N end
  | g :: rule' =>
      match path with
      | c :: path' =>
          if (c =? 47)%N then
            let '(x, rest) := cut_segment path' in
            if segment_fits g x
            then match g with PathArg => true | _ => rule_matches rule' rest end
            else false
          else false
      | [] => false
      end
  end.

(** Whether some rule serves a request of the method for the path. *)
Definition served (method : http_method) (path : pystr) : bool :=
  existsb (fun r : list http_method * list segment =>
             if bool_decide (method ∈ r.1) then rule_matches r.2 path else false)
          routes.

(** The endpoints of the API that take a port.  The file-management
    endpoints under /server_files/<port> start with the same lookup as
    [get_status] and are not part of the model. *)
Inductive endpoint :=
| Logs (limit : Z)
| Status
| ServerStatus
| Start
| Stop
| Restart
| Command (command : option pystr)
| Settings (d : settings)
| Delete.

Definition handle (E : env) (ep : endpoint) (port : Z) (a : app) : app * http_response :=
  match ep with
  | Logs limit => get_logs port limit a
  | Status => get_status port a
  | ServerStatus => server_status_route port a
  | Start => start_server E port a
  | Stop => stop_server E port a
  | Restart => restart_server E port a
  | Command c => send_command_route E port c a
  | Settings d => update_settings port d a
  | Delete => delete_server E port a
  end.

(** GET /api/versions/<server_type> (and /available_versions/<server_type>):
    the versions are asked of a temporary server on port 99999. *)
Definition get_versions (E : env) (server_type : pystr) (a : app) : app * http_response :=
  match REPOSITORIES server_type with
  | None => (a, {| code := 400; answer := BError (L "Invalid server type") |})
  | Some _ =>
      if bool_decide (server_type = L "mrpack")
      then (a, {| code := 200; answer := BJson (JArr [JStr (L "uploaded:mrpack")]) |})
      else
        let st := __init__ 99999 (L "temp") server_type true (outside a) in
        let '(st, r) := get_available_versions E st in
        ({| servers := servers a; outside := out st |},
         match r with
         | Val versions => {| code := 200; answer := BJson versions |}
         | Raise e => {| code := 500; answer := BError (exn_msg e) |}
         end)
  end.

(** *** The HTTP API: creating servers, and rehydration *)

(** The JSON body of the creation endpoints: the entries the code reads
    ([None]: the key is absent). *)
Record create_request := {
  cr_port : option Z;
  cr_version : option pystr;
  cr_server_type : option pystr;
  cr_memory : option pystr;
  cr_max_players : option Z;
  cr_motd : option pystr;
  cr_auto_start : option bool;
  cr_mrpack_file_id : option pystr
}.

(** [all([port, version, server_type])]: every entry is there and truthy. *)
Definition required (d : create_request) : option (Z * pystr * pystr) :=
  match cr_port d, cr_version d, cr_server_type d with
  | Some port, Some version, Some server_type =>
      if negb (port =? 0) && negb (bool_decide (version = []))
         && negb (bool_decide (server_type = []))
      then Some (port, version, server_type) else None
  | _, _, _ => None
  end.

(** [server.memory = memory; server.max_players = max_players;
    server.motd = motd; server.auto_start = auto_start], with the defaults
    of [data.get]. *)
Definition configure (d : create_request) : M unit :=
  o <- get_self ;;
  put_self {| port := port o; version := version o; server_type := server_type o;
              process := process o; status := status o;
              memory := default (L "2G") (cr_memory d);
              motd := default (L "Minecraft Server") (cr_motd d);
              max_players := default 20 (cr_max_players d);
              auto_start := default false (cr_auto_start d);
              temporary := temporary o;
              mrpack_minecraft_version := mrpack_minecraft_version o;
              seen := seen o |}.

(** The end of the three creation endpoints: the object is put in the
    registry and started if [auto_start] is set; the answer is a success
    whatever [start] returned. *)
Definition register (E : env) (port : Z) (d : create_request) (st : state) (a : app)
    : app * http_response :=
  let a := {| servers := <[port := self st]> (servers a); outside := out st |} in
  let a := if default false (cr_auto_start d)
           then (call port (self st) (start E) a).1 else a in
  (a, {| code := 200; answer := BSuccess |}).

(** [MinecraftServer(port, version, server_type)] in a creation endpoint:
    the object and the world after [__init__], or the OverflowError of its
    INSERT when the port of the request is an integer SQLite cannot hold
    (the other integers it binds are the defaults). *)
Definition new_server (port : Z) (version server_type : pystr) (w : world) : result state :=
  if sqlite_int port then Val (__init__ port version server_type false w)
  else Raise (Exn too_large).

(** The answer of the [except Exception] branch of the creation endpoints. *)
Definition creation_failed (e : exn) : http_response :=
  {| code := 500; answer := BError (exn_msg e) |}.

(** POST /create_server *)
Definition create_server_route (E : env) (d : create_request) (a : app)
    : app * http_response :=
  match required d with
  | None => (a, {| code := 400; answer := BError (L "Missing required parameters") |})
  | Some (port, version, server_type) =>
      if bool_decide (is_Some (servers a !! port))
      then (a, {| code := 400; answer := BError (L "Port already in use") |})
      else
        match new_server port version server_type (outside a) with
        | Raise e => (a, creation_failed e)
        | Val st =>
            let st := (configure d st).1 in
            register E port d st a
        end
  end.

(** POST /api/servers: as above, and the configured object is saved again
    before it is registered.  When that second save raises, the row the
    constructor has written stays and nothing is registered. *)
Definition servers_handler_post (E : env) (d : create_request) (a : app)
    : app * http_response :=
  match required d with
  | None => (a, {| code := 400; answer := BError (L "Missing parameters") |})
  | Some (port, version, server_type) =>
      if bool_decide (is_Some (servers a !! port))
      then (a, {| code := 400; answer := BError (L "Port already in use") |})
      else
        match new_server port version server_type (outside a) with
        | Raise e => (a, creation_failed e)
        | Val st =>
            let st := (configure d st).1 in
            match _save_to_db st with
            | (_, Raise e) =>
                ({| servers := servers a; outside := out st |}, creation_failed e)
            | (st, Val _) => register E port d st a
            end
        end
  end.

(** POST /api/create_server: as /create_server, with one more test for
    modpack servers. *)
Definition api_create_server (E : env) (d : create_request) (a : app)
    : app * http_response :=
  match required d with
  | None =>
      (a, {| code := 400;
             answer := BError (L "Missing required parameters: port, version, server_type") |})
  | Some (port, version, server_type) =>
      if bool_decide (is_Some (servers a !! port))
      then (a, {| code := 400; answer := BError (L "Port already in use") |})
      else if bool_decide (server_type = L "mrpack")
              && negb (match cr_mrpack_file_id d with Some (_ :: _) => true | _ => false end)
              && negb (Py.startswith (L "uploaded:") version)
      then (a, {| code := 400;
                  answer := BError (L "For mrpack servers, mrpack_file_id or uploaded version is required") |})
      else
        match new_server port version server_type (outside a) with
        | Raise e => (a, creation_failed e)
        | Val st =>
            let st := (configure d st).1 in
            register E port d st a
        end
  end.

(** One turn of the loop of [load_servers_from_db], for the row of [port]. *)
Definition load_row (E : env) (a : app) (r : Z * server_row) : app :=
  let st := rehydrate r.2 (__init__ r.1 (row_version r.2) (row_server_type r.2) false
                             (outside a)) in
  let a := {| servers := <[r.1 := self st]> (servers a); outside := out st |} in
  if auto_start (self st) && bool_decide (status (self st) = Stopped)
  then (call r.1 (self st) (start E) a).1 else a.

(** [load_servers_from_db]: the rows are fetched first, then each is turned
    into a registered object. *)
Definition load_servers_from_db (E : env) (a : app) : app :=
  fold_left (load_row E) (map_to_list (servers_tbl (db (outside a)))) a.

End Srv.

(** ** Concrete inputs used in the examples below *)

Module Sample.

(** A backend that knows every port and answers 200 with a paper server. *)
Definition backend_ok : Bot.env :=
  {| Bot.backend := fun _ => {| Bot.status := 200; Bot.r_error := None;
                                Bot.r_server_type := Some (Py.lit "paper") |};
     Bot.http_get := fun _ => None;
     Bot.process_commands := fun _ b => b |}.

(** A backend that knows no port and answers 404. *)
Definition backend_404 : Bot.env :=
  {| Bot.backend := fun _ => {| Bot.status := 404;
                                Bot.r_error := Some (Py.lit "Server not found");
                                Bot.r_server_type := None |};
     Bot.http_get := fun _ => None;
     Bot.process_commands := fun _ b => b |}.

(** A message of user 7, who is not a bot, without attachments. *)
Definition says (text : pystr) : Bot.message :=
  {| Bot.author := 7; Bot.author_bot := false; Bot.content := text;
     Bot.attachments := [] |}.

(** User 7 has just run /server_create. *)
Definition creating : Bot.bot := Bot.server_create 7 Bot.new_bot.

(** User 7 has run /server_create and then /server_install_plugin 25565. *)
Definition both : Bot.bot := Bot.server_install_plugin backend_ok 7 25565 creating.

Import Srv.

(** A temporary server on port 99999, as the version-listing endpoints
    make it, in a world whose database already holds a log line. *)
Definition temp_state : state :=
  __init__ 99999 (Py.lit "temp") (Py.lit "paper") true
    {| db := {| servers_tbl := ∅;
                server_logs := [ {| log_port := 25565; log_text := Py.lit "[12:00:00] hello";
                                    log_level := INFO |} ] |};
       fs := ∅; requests := []; effects := [] |}.

(** An outside in which every request, spawn and installation fails. *)
Definition offline : env :=
  {| BASE_DIR := Py.lit "/app"; abspath := id; now := Py.lit "12:00:00";
     CURRENT_TIMESTAMP := Py.lit "2025-01-01 12:00:00";
     http := fun _ _ => Raise (Exn (Py.lit "Connection refused"));
     spawn := fun _ _ => Raise (Exn (Py.lit "[Errno 2] No such file or directory: 'java'"));
     install_mrpack := fun _ _ _ => Raise (Exn (Py.lit "bad archive"));
     get_mrpack_information := fun _ => Raise (Exn (Py.lit "bad archive"));
     repr := fun _ => Py.lit "[...]";
     repr_names := fun _ => Py.lit "[...]" |}.

(** An empty world, and servers just created in it on port 25565. *)
Definition world0 : world :=
  {| db := {| servers_tbl := ∅; server_logs := [] |}; fs := ∅; requests := [];
     effects := [] |}.

Definition vanilla_new : state := __init__ 25565 (Py.lit "1.20.1") (Py.lit "vanilla") false world0.
Definition fabric_new : state := __init__ 25565 (Py.lit "1.20.1") (Py.lit "fabric") false world0.
Definition paper_new : state := __init__ 25565 (Py.lit "1.20.1") (Py.lit "paper") false world0.

(** A process that ignores the shutdown directive and SIGTERM. *)
Definition deaf : Popen := {| alive := true; exit_after := None; term_after := None |}.

(** An outside in which the providers answer: the Fabric loader and
    installer lists, a build list for the other providers, and a two-byte
    body for every download; Java starts a process that ignores shutdown. *)
Definition online : env :=
  {| BASE_DIR := Py.lit "/app"; abspath := id; now := Py.lit "12:00:00";
     CURRENT_TIMESTAMP := Py.lit "2025-01-01 12:00:00";
     http := fun _ url =>
       Val {| status_code := 200;
              json_body :=
                Some (if Py.endswith (Py.lit "/loader") url then
                        JArr [JObj [(Py.lit "loader", JObj [(Py.lit "version", JStr (Py.lit "0.16.0"))])]]
                      else if Py.endswith (Py.lit "/installer") url then
                        JArr [JObj [(Py.lit "version", JStr (Py.lit "1.0.1"))]]
                      else JObj [(Py.lit "builds", JArr [JNum 1; JNum 2])]);
              chunks := [[80; 75]%N];
              broken := false |};
     spawn := fun _ _ => Val deaf;
     install_mrpack := fun _ _ f => Val f;
     get_mrpack_information := fun _ => Val (JObj []);
     repr := fun _ => Py.lit "[...]";
     repr_names := fun _ => Py.lit "[...]" |}.

(** A paper server started (the jar is downloaded, the process spawned) and
    then reported as initialised by its output. *)
Definition started : state := (start online paper_new).1.

Definition done_line : pystr :=
  Py.lit "[12:00:09] [Server thread/INFO]: Done (8.1s)! For help, type help".

Definition running : state := (monitor_line online done_line started).1.

(** The supervisor of the paper server: new, started, then stopped, and
    then handed a line its reader still held. *)
Definition sup_new : supervisor := {| sv := paper_new; readers := 0 |}.

Definition sup_started : supervisor :=
  {| sv := (start online (sv sup_new)).1;
     readers := readers sup_new + spawned_reader (start online (sv sup_new)).2 |}.

Definition sup_stopped : supervisor :=
  {| sv := (stop online (sv sup_started)).1; readers := readers sup_started |}.

Definition sup_late_line : supervisor :=
  {| sv := (monitor_line online done_line (sv sup_stopped)).1;
     readers := readers sup_stopped |}.

(** The application with no server registered. *)
Definition app0 : app := {| servers := ∅; outside := world0 |}.

(** The running paper server after its process has died by itself. *)
Definition dead : Popen := {| alive := false; exit_after := Some 0%nat; term_after := Some 0%nat |}.

Definition crashed : state := (set_process (Some dead) running).1.

(** The lines a reader handles at the points of an operation: the line that
    reports the server as initialised at point [n], none at the others. *)
Definition done_at (n : nat) : nat -> list pystr :=
  fun i => if (i =? n)%nat then [done_line] else [].

(** The started paper server is stopped while its reader gets to the line,
    during the wait of [stop]; and the stopped server is started again while
    the reader of the first process gets to it. *)
Definition sup_line_during_stop : supervisor :=
  {| sv := (stop_racing online (done_at 1) (sv sup_started)).1;
     readers := readers sup_started |}.

Definition sup_line_during_start : supervisor :=
  {| sv := (start_racing online (done_at 0) (sv sup_stopped)).1;
     readers := readers sup_stopped
                + spawned_reader (start_racing online (done_at 0) (sv sup_stopped)).2 |}.

(** A server loaded from a row that was persisted while it was stopping. *)
Definition sup_loaded_stopping : supervisor :=
  {| sv := rehydrate {| row_version := Py.lit "1.20.1"; row_server_type := Py.lit "paper";
                        row_status := Stopping; row_memory := Py.lit "2G";
                        row_motd := Py.lit "Minecraft Server"; row_max_players := 20;
                        row_auto_start := false; row_last_started := None |}
                     (__init__ 25565 (Py.lit "1.20.1") (Py.lit "paper") false world0);
     readers := 0 |}.

End Sample.

(** ** The vocabulary of the properties

    Relations between the state before and after a method, and the
    invariant of a supervised server. *)

Import Srv.
Local Open Scope m_scope.

(** Running [m] relates the state before to the state after by [R], whether
    [m] returns or raises. *)
Definition keeps {A} (R : state -> state -> Prop) (m : M A) : Prop :=
  forall st, R st (m st).1.

(** The status, its history, the process handle, the port and the
    [temporary] flag are as before. *)
Definition same_status (st st' : state) : Prop :=
  status (self st') = status (self st)
  /\ seen (self st') = seen (self st)
  /\ process (self st') = process (self st)
  /\ temporary (self st') = temporary (self st)
  /\ port (self st') = port (self st).

(** On a temporary object: it stays temporary and the database is as before. *)
Definition same_db (st st' : state) : Prop :=
  temporary (self st) = true ->
  temporary (self st') = true /\ db (out st') = db (out st).

(** [m] never raises. *)
Definition returns {A} (m : M A) : Prop :=
  forall st, exists a, (m st).2 = Val a.

(** A running server is still running afterwards. *)
Definition stays_running (st st' : state) : Prop :=
  status (self st) = Running -> status (self st') = Running.

(** The state with more actions recorded. *)
Definition add_effects (l : list action) (st : state) : state :=
  {| self := self st;
     out := {| db := db (out st); fs := fs (out st); requests := requests (out st);
               effects := effects (out st) ++ l |} |}.

(** What [stop] does to a process still running after the loop, left at
    second [t]: SIGTERM, five seconds, and SIGKILL if it is still there. *)
Definition escalation (p : Popen) (t : nat) : list action :=
  if exited p t then []
  else Terminate :: Sleep 5 :: (if exited_after_term p t (t + 5) then [] else [Kill]).

(** The change made by a successful [start]. *)
Definition started (st st' : state) : Prop :=
  status (self st') = Starting
  /\ seen (self st') = seen (self st) ++ [Starting; Starting]
  /\ is_Some (process (self st')).

(** [m] returns True having started the server, or else leaves the status
    alone. *)
Definition starts (m : M bool) : Prop :=
  forall st,
    match (m st).2 with
    | Val true => started st (m st).1
    | _ => same_status st (m st).1
    end.

(** The ways an operation or an event can change the status, its history
    and the process handle. *)
Inductive change (st st' : state) : Prop :=
| change_none :
    same_status st st' -> change st st'
| change_start :
    status (self st) <> Running -> started st st' -> change st st'
| change_error :
    status (self st') = Error ->
    seen (self st') = seen (self st) ++ [Error; Error] ->
    process (self st') = process (self st) ->
    change st st'
| change_stop :
    status (self st) <> Stopped ->
    status (self st') = Stopped ->
    seen (self st') = seen (self st) ++ [Stopping; Stopping; Stopped; Stopped] ->
    process (self st') = None ->
    change st st'
| change_line s :
    s = Running \/ s = Error ->
    status (self st') = s ->
    seen (self st') = seen (self st) ++ [s] ->
    process (self st') = process (self st) ->
    change st st'
| change_process :
    status (self st') = status (self st) ->
    seen (self st') = seen (self st) ->
    is_Some (process (self st)) ->
    is_Some (process (self st')) ->
    change st st'.

(** The edges along which the status moves: every one but stopped ->
    stopping and starting -> stopped. *)
Definition legal (a b : server_status) : Prop :=
  match b with
  | Stopping => a <> Stopped
  | Stopped => a <> Starting
  | Starting | Running | Error => True
  end.

Fixpoint chain_from (a : server_status) (l : list server_status) : Prop :=
  match l with
  | [] => True
  | b :: l' => (a = b \/ legal a b) /\ chain_from b l'
  end.

(** A history of which every two neighbours are equal or joined by an edge. *)
Definition chain (l : list server_status) : Prop :=
  match l with
  | [] => True
  | a :: l' => chain_from a l'
  end.

(** A history: it begins with the "stopped" of the constructor, and from
    the value that follows (written by an operation, or read from the row
    when the server is loaded) it is a chain. *)
Definition history (l : list server_status) : Prop :=
  match l with
  | [] => False
  | a :: l' => a = Stopped /\ chain l'
  end.

(** The invariant of a server: a process handle is only held outside
    "stopped", and the history ends with the current status and is a
    history in the sense above. *)
Definition wf (st : state) : Prop :=
  (is_Some (process (self st)) -> status (self st) <> Stopped)
  /\ last (seen (self st)) = Some (status (self st))
  /\ history (seen (self st)).

(** What an operation with the readers at work does to the status and its
    history: it writes the values [ws], each of them "starting", "running"
    or "error", and the status is the last of them. *)
Definition writes_up (st st' : state) : Prop :=
  exists ws,
    seen (self st') = seen (self st) ++ ws
    /\ status (self st') = default (status (self st)) (last ws)
    /\ Forall (fun s => s = Starting \/ s = Running \/ s = Error) ws.

(** The handle is the one held before. *)
Definition same_process (st st' : state) : Prop :=
  process (self st') = process (self st).

(** [m] returns True with a status other than "stopped", or else leaves the
    handle alone. *)
Definition starts_up (m : M bool) : Prop :=
  forall st,
    match (m st).2 with
    | Val true => status (self (m st).1) <> Stopped
    | _ => process (self (m st).1) = process (self st)
    end.

(** The state has a well-formed history, its status is one of [S] and its
    handle one of [P]. *)
Definition hist (S : server_status -> Prop) (P : option Popen -> Prop) (st : state) : Prop :=
  last (seen (self st)) = Some (status (self st))
  /\ history (seen (self st))
  /\ S (status (self st))
  /\ P (process (self st)).

(** From a state in [P], [m] returns, in a state in [Q]. *)
Definition triple {A} (P : state -> Prop) (m : M A) (Q : A -> state -> Prop) : Prop :=
  forall st, P st -> exists a, (m st).2 = Val a /\ Q a (m st).1.

(** The log table has only grown. *)
Definition logs_grow (st st' : state) : Prop :=
  server_logs (db (out st)) `prefix_of` server_logs (db (out st')).

(** What a row of [servers] holds besides the status and the time of the
    last start. *)
Definition settings_of (r : server_row) : pystr * pystr * pystr * pystr * Z * bool :=
  (row_version r, row_server_type r, row_memory r, row_motd r, row_max_players r,
   row_auto_start r).

(** The table [servers] has the same ports; the rows of other ports are as
    they were, and the row of the object's own port has kept its settings. *)
Definition rows_kept (st st' : state) : Prop :=
  port (self st') = port (self st)
  /\ forall q,
      (q <> port (self st) ->
       servers_tbl (db (out st')) !! q = servers_tbl (db (out st)) !! q)
      /\ settings_of <$> servers_tbl (db (out st')) !! q
         = settings_of <$> servers_tbl (db (out st)) !! q.

(** Whenever [m] returns, the value satisfies [P]. *)
Definition yields {A} (P : A -> Prop) (m : M A) : Prop :=
  forall st, match (m st).2 with Val a => P a | Raise _ => True end.

(** Nothing but the list of requests made has changed. *)
Definition only_requests (st st' : state) : Prop :=
  self st' = self st /\ db (out st') = db (out st) /\ fs (out st') = fs (out st)
  /\ effects (out st') = effects (out st).

(** A line of output that carries neither of the two signatures the reader
    looks for. *)
Definition plain_line (line : pystr) : Prop :=
  (Py.contains (Py.lit "Done") (Py.strip line)
   && Py.contains (Py.lit "For help") (Py.strip line)) = false
  /\ Py.contains (Py.lit "Failed to start") (Py.strip line) = false.

(** The row [add_log] inserts for a message at level INFO. *)
Definition info_row (E : env) (port : Z) (message : pystr) : log_row :=
  {| log_port := port; log_text := Py.lit "[" ++ now E ++ Py.lit "] " ++ message;
     log_level := INFO |}.

(** The log table has only grown, and by rows of the object's own port. *)
Definition logs_own (st st' : state) : Prop :=
  port (self st') = port (self st)
  /\ exists l, server_logs (db (out st')) = server_logs (db (out st)) ++ l
              /\ Forall (fun r => log_port r = port (self st)) l.

(** The attributes set at creation or through the settings endpoint are as
    before. *)
Definition same_config (st st' : state) : Prop :=
  port (self st') = port (self st)
  /\ version (self st') = version (self st)
  /\ server_type (self st') = server_type (self st)
  /\ memory (self st') = memory (self st)
  /\ motd (self st') = motd (self st)
  /\ max_players (self st') = max_players (self st)
  /\ auto_start (self st') = auto_start (self st)
  /\ temporary (self st') = temporary (self st).

(** The file system is as before. *)
Definition same_fs (st st' : state) : Prop := fs (out st') = fs (out st).

(** The bot talks to the application of main.py: when no rule of main.py
    serves the path of its status request, the request does not come back
    with status 200 (Flask answers 404 with a page that is not JSON, and
    [api_request] reports 500). *)
Definition answers_as_main (e : Bot.env) : Prop :=
  forall port,
    served GET (Bot.status_endpoint port) = false ->
    Bot.status (Bot.backend e (Bot.Get (Bot.status_endpoint port))) <> 200.

(** What the dispatcher of discord.py runs for a message that no wizard has
    taken: nothing or a text command that leaves the session tables alone
    (server_plugins, server_remove_plugin, server_plugin_url, plugins_help),
    or server_install_plugin for the author and the port in the text. *)
Definition dispatches (e : Bot.env) : Prop :=
  forall m b,
    (Bot.setup_sessions (Bot.process_commands e m b) = Bot.setup_sessions b
     /\ Bot.plugin_sessions (Bot.process_commands e m b) = Bot.plugin_sessions b)
    \/ exists port,
         Bot.process_commands e m b = Bot.server_install_plugin e (Bot.author m) port b.

(** * Properties *)

(** ** The wizards *)

Example strip_ex : Py.strip (Py.lit "  25600 ") = Py.lit "25600".
Proof. reflexivity. Qed.

Example int_ex : Py.int (Py.lit "25_600") = Some 25600.
Proof. reflexivity. Qed.

Example both_live :
  Bot.setup_sessions Sample.both !! 7 =
    Some {| Bot.step := 1; Bot.port := None; Bot.server_type := None;
            Bot.version := None; Bot.memory := Py.lit "2G" |}
  /\ Bot.plugin_sessions Sample.both !! 7 =
    Some {| Bot.p_step := 1; Bot.p_port := 25565; Bot.p_server_type := Py.lit "paper";
            Bot.filename := None; Bot.file_content := None; Bot.folder := None |}.
Proof. split; vm_compute; reflexivity. Qed.

Lemma lower_cp_cases (x : N) :
  (Py.lower_cp x = x
   \/ (65 <= x <= 90 /\ Py.lower_cp x = x + 32)
   \/ (192 <= x <= 222 /\ Py.lower_cp x = x + 32)
   \/ (1024 <= x <= 1039 /\ Py.lower_cp x = x + 80)
   \/ (1040 <= x <= 1071 /\ Py.lower_cp x = x + 32)
   \/ (x = 8490 /\ Py.lower_cp x = 107))%N.
Proof.
  unfold Py.lower_cp.
  repeat match goal with
         | |- context [if ?c then _ else _] =>
             let H := fresh in
             destruct c eqn:H;
             [ rewrite ?andb_true_iff, ?negb_true_iff, ?N.leb_le, ?N.eqb_eq, ?N.eqb_neq in H;
               lia | clear H ]
         end.
  now left.
Qed.

(** A code point whose lower case is the letter [y] is [y] or its capital. *)
Ltac lower_inv H :=
  match type of H with
  | Py.lower_cp ?x = ?y =>
      let C := fresh in
      let y' := eval vm_compute in (y - 32)%N in
      pose proof (lower_cp_cases x) as C; rewrite H in C;
      assert (x = y \/ x = y')%N by lia;
      clear C
  end.

(** What [int] accepts is never a cancellation word. *)
Lemma int_not_cancel (c : pystr) (p : Z) :
  Py.int c = Some p -> Py.mem (Py.lower c) Bot.cancel_words = false.
Proof.
  intros Hint. destruct (Py.mem (Py.lower c) Bot.cancel_words) eqn:Hm; [|reflexivity].
  exfalso. unfold Py.mem, Bot.cancel_words in Hm. simpl in Hm.
  rewrite !orb_true_iff in Hm.
  destruct Hm as [Hm|[Hm|[Hm|Hm]]]; [| | |discriminate];
    apply bool_decide_eq_true in Hm; unfold Py.lower in Hm;
    repeat (destruct c as [|? c]; [discriminate Hm|]);
    (destruct c; [|discriminate Hm]);
    simpl in Hm; injection Hm as H1 H2 H3 H4;
    try (injection H4 as H4 H5 H6);
    match goal with
    | Hl : Py.lower_cp ?xl = _, Hf : Py.lower_cp ?xf = _ |- _ =>
        match type of Hint with
        | Py.int (xf :: _) = _ =>
            lower_inv Hf; lower_inv Hl
        end
    end;
    repeat match goal with
           | H : _ \/ _ |- _ => destruct H
           end; subst; try discriminate; vm_compute in Hint; discriminate.
Qed.

Lemma is_Some_decide {A} (o : option A) :
  bool_decide (is_Some o) = match o with Some _ => true | None => false end.
Proof.
  destruct o; [apply bool_decide_eq_true; eauto | apply bool_decide_eq_false; intros [? ?]; discriminate].
Qed.

(** The two wizards do not look at each other's table.  With a backend
    that answers 200 to the status request of the bot (the application of
    main.py does not, see [status_route_unserved] below), user 7, who has a
    live creation session, starts the plugin-install wizard for port 25565,
    and both sessions are live afterwards. *)
Lemma second_kind_accepted :
  let b := Bot.server_create 7 Bot.new_bot in
  let b' := Bot.start_wizard Sample.backend_ok Bot.PluginInstall 7 25565 b in
  Bot.live Bot.Creation 7 b
  /\ ~ Bot.live Bot.PluginInstall 7 b
  /\ Bot.live Bot.Creation 7 b'
  /\ Bot.live Bot.PluginInstall 7 b'
  /\ Bot.sent b' = Bot.sent b ++ [Bot.PluginWelcome 25565 (Py.lit "paper")].
Proof.
  cbv zeta. unfold Bot.live.
  split; [eexists; vm_compute; reflexivity|].
  split; [intros [x Hx]; vm_compute in Hx; discriminate|].
  split; [eexists; vm_compute; reflexivity|].
  split; [eexists; vm_compute; reflexivity|].
  vm_compute; reflexivity.
Qed.

(** Whatever the backend answers, a user has at most one session of each
    kind (the tables are keyed by user), and starting a wizard of a kind
    while the same user has a live session of that same kind is rejected:
    both session tables are left as they were and one refusal is sent. *)
Theorem same_kind_rejected (e : Bot.env) (k : Bot.kind) (user port : Z) (b : Bot.bot) :
  Bot.live k user b ->
  let b' := Bot.start_wizard e k user port b in
  Bot.setup_sessions b' = Bot.setup_sessions b
  /\ Bot.plugin_sessions b' = Bot.plugin_sessions b
  /\ exists refusal,
       Bot.sent b' = Bot.sent b ++ [refusal]
       /\ (refusal = Bot.SetupAlreadyActive \/ refusal = Bot.PluginAlreadyActive
           \/ refusal = Bot.ServerNotFound port).
Proof.
  intros Hlive. destruct k; simpl in *.
  - unfold Bot.server_create. rewrite is_Some_decide.
    destruct Hlive as [s ->]. simpl. eauto 10.
  - unfold Bot.server_install_plugin, Bot.api_request. simpl.
    destruct (Bot.status _ =? 200); simpl; [|eauto 10].
    rewrite is_Some_decide. destruct Hlive as [s ->]. simpl. eauto 10.
Qed.

Lemma same_kind_rejected_witness :
  Bot.setup_sessions (Bot.start_wizard Sample.backend_ok Bot.Creation 7 0 Sample.creating)
  = Bot.setup_sessions Sample.creating.
Proof.
  refine (proj1 (same_kind_rejected Sample.backend_ok Bot.Creation 7 0 Sample.creating _)).
  eexists; vm_compute; reflexivity.
Defined.

(** C8: at step 1 of the creation wizard a number outside 25565..26000
    (25000, say) is answered with the range error and leaves both session
    tables as they were, so the session is still at step 1 with what it had
    gathered; a number inside the range for which the backend does not answer
    200 (25600, say) is stored as the port and the session moves to step 2. *)
Theorem port_step_validation (e : Bot.env) (m : Bot.message) (b : Bot.bot)
    (s : Bot.setup_session) (p : Z) :
  Bot.author_bot m = false ->
  Bot.setup_sessions b !! Bot.author m = Some s ->
  Bot.step s = 1 ->
  Py.int (Py.strip (Bot.content m)) = Some p ->
  let b' := Bot.on_message e m b in
  (p < 25565 \/ 26000 < p ->
     Bot.setup_sessions b' = Bot.setup_sessions b
     /\ Bot.plugin_sessions b' = Bot.plugin_sessions b
     /\ Bot.sent b' = Bot.sent b ++ [Bot.PortOutOfRange])
  /\ (25565 <= p <= 26000 ->
      Bot.status (Bot.backend e (Bot.Get (Bot.status_endpoint p))) <> 200 ->
      Bot.setup_sessions b' =
        <[Bot.author m := {| Bot.step := 2; Bot.port := Some p;
                             Bot.server_type := Bot.server_type s;
                             Bot.version := Bot.version s;
                             Bot.memory := Bot.memory s |}]> (Bot.setup_sessions b)
      /\ Bot.plugin_sessions b' = Bot.plugin_sessions b
      /\ Bot.sent b' = Bot.sent b ++ [Bot.AskServerType p]).
Proof.
  intros Hbot Hs Hstep Hint. cbv zeta.
  unfold Bot.on_message, Bot.handle_setup_message.
  rewrite Hbot, Hs, (int_not_cancel _ _ Hint), Hstep, Hint. simpl.
  split.
  - intros Hout.
    replace ((p <? 25565) || (p >? 26000)) with true; [simpl; auto|].
    symmetry. apply orb_true_iff. destruct Hout; [left|right]; lia.
  - intros Hin Hfree.
    replace ((p <? 25565) || (p >? 26000)) with false
      by (symmetry; apply orb_false_iff; split; lia).
    apply Z.eqb_neq in Hfree. rewrite Hfree. simpl. auto.
Qed.

Lemma port_step_validation_witness :
  (let b' := Bot.on_message Sample.backend_404 (Sample.says (Py.lit "25000")) Sample.creating in
   Bot.setup_sessions b' = Bot.setup_sessions Sample.creating
   /\ Bot.plugin_sessions b' = Bot.plugin_sessions Sample.creating
   /\ Bot.sent b' = Bot.sent Sample.creating ++ [Bot.PortOutOfRange])
  /\ (let b' := Bot.on_message Sample.backend_404 (Sample.says (Py.lit "25600")) Sample.creating in
      Bot.setup_sessions b' =
        <[7 := {| Bot.step := 2; Bot.port := Some 25600; Bot.server_type := None;
                  Bot.version := None; Bot.memory := Py.lit "2G" |}]>
          (Bot.setup_sessions Sample.creating)
      /\ Bot.plugin_sessions b' = Bot.plugin_sessions Sample.creating
      /\ Bot.sent b' = Bot.sent Sample.creating ++ [Bot.AskServerType 25600]).
Proof.
  split.
  - refine (proj1 (port_step_validation Sample.backend_404 (Sample.says (Py.lit "25000"))
                     Sample.creating _ 25000 _ _ _ _) _).
    + reflexivity.
    + vm_compute; reflexivity.
    + reflexivity.
    + vm_compute; reflexivity.
    + lia.
  - refine (proj2 (port_step_validation Sample.backend_404 (Sample.says (Py.lit "25600"))
                     Sample.creating
                     {| Bot.step := 1; Bot.port := None; Bot.server_type := None;
                        Bot.version := None; Bot.memory := Py.lit "2G" |} 25600 _ _ _ _) _ _).
    + reflexivity.
    + vm_compute; reflexivity.
    + reflexivity.
    + vm_compute; reflexivity.
    + lia.
    + vm_compute. discriminate.
Defined.

(** With such a backend, user 7 has a creation session and a plugin
    session live (after /server_create and /server_install_plugin 25565);
    "cancel" destroys the creation session only, and the plugin session is
    as it was. *)
Lemma cancel_leaves_other_session :
  let b' := Bot.on_message Sample.backend_ok (Sample.says (Py.lit "cancel")) Sample.both in
  Bot.live Bot.Creation 7 Sample.both
  /\ Bot.live Bot.PluginInstall 7 Sample.both
  /\ Bot.setup_sessions b' !! 7 = None
  /\ Bot.plugin_sessions b' !! 7 = Bot.plugin_sessions Sample.both !! 7
  /\ Bot.live Bot.PluginInstall 7 b'.
Proof.
  cbv zeta. unfold Bot.live.
  split; [eexists; vm_compute; reflexivity|].
  split; [eexists; vm_compute; reflexivity|].
  split; [vm_compute; reflexivity|].
  split; [vm_compute; reflexivity|].
  eexists; vm_compute; reflexivity.
Qed.

(** Whatever the backend answers: at every step, an input that matches a
    cancellation word is recognised before any validation of the step and
    destroys the session that receives the input: the creation session when
    the user has one (the text is stripped and lower-cased), otherwise the
    plugin session (the text is lower-cased only).  Nothing else changes and
    no request is made; the user then has no session of that kind, and none
    at all if that was the only one. *)
Theorem cancel_destroys_session (e : Bot.env) (m : Bot.message) (b : Bot.bot) :
  Bot.author_bot m = false ->
  let b' := Bot.on_message e m b in
  (Bot.live Bot.Creation (Bot.author m) b ->
   Py.mem (Py.lower (Py.strip (Bot.content m))) Bot.cancel_words = true ->
   Bot.setup_sessions b' = delete (Bot.author m) (Bot.setup_sessions b)
   /\ Bot.plugin_sessions b' = Bot.plugin_sessions b
   /\ Bot.sent b' = Bot.sent b ++ [Bot.SetupCancelled]
   /\ Bot.calls b' = Bot.calls b
   /\ ~ Bot.live Bot.Creation (Bot.author m) b'
   /\ (~ Bot.live Bot.PluginInstall (Bot.author m) b ->
       ~ Bot.live Bot.PluginInstall (Bot.author m) b'))
  /\ (~ Bot.live Bot.Creation (Bot.author m) b ->
      Bot.live Bot.PluginInstall (Bot.author m) b ->
      Py.mem (Py.lower (Bot.content m)) Bot.cancel_words = true ->
      Bot.plugin_sessions b' = delete (Bot.author m) (Bot.plugin_sessions b)
      /\ Bot.setup_sessions b' = Bot.setup_sessions b
      /\ Bot.sent b' = Bot.sent b ++ [Bot.PluginCancelled]
      /\ Bot.calls b' = Bot.calls b
      /\ ~ Bot.live Bot.PluginInstall (Bot.author m) b'
      /\ ~ Bot.live Bot.Creation (Bot.author m) b').
Proof.
  intros Hbot. cbv zeta. unfold Bot.on_message, Bot.handle_setup_message, Bot.live.
  rewrite Hbot. split.
  - intros [s Hs] Hc. rewrite Hs, Hc. simpl.
    repeat split; auto.
    + rewrite lookup_delete_eq. intros [? ?]; discriminate.
  - intros Hno [s Hs] Hc.
    destruct (Bot.setup_sessions b !! Bot.author m) eqn:Hsetup.
    { exfalso. apply Hno. eauto. }
    rewrite Hs, Hc. simpl.
    repeat split; auto.
    + rewrite lookup_delete_eq. intros [? ?]; discriminate.
    + rewrite Hsetup. intros [? ?]; discriminate.
Qed.

Lemma cancel_destroys_session_witness :
  ~ Bot.live Bot.Creation 7
      (Bot.on_message Sample.backend_ok (Sample.says (Py.lit "CANCEL")) Sample.creating).
Proof.
  refine (proj1 (proj2 (proj2 (proj2 (proj2
    (proj1 (cancel_destroys_session Sample.backend_ok (Sample.says (Py.lit "CANCEL"))
              Sample.creating _) _ _)))))).
  - reflexivity.
  - eexists; vm_compute; reflexivity.
  - vm_compute; reflexivity.
Defined.

(** ** The wizards against the application of main.py *)

(** The bot asks for /api/server/status/<port>; main.py serves
    /api/server/<port>/status, and no rule of it matches what the bot asks
    for, whatever the port. *)
Lemma status_route_unserved (port : Z) : served GET (Bot.status_endpoint port) = false.
Proof.
  unfold Bot.status_endpoint. generalize (Py.str_of_Z port) as tail. intros tail.
  vm_compute. reflexivity.
Qed.

(** The rule of main.py is matched by the path with port and word swapped. *)
Example status_route_of_main :
  served GET (Py.lit "/api/server/25565/status") = true
  /\ served GET (Py.lit "/api/server/status/25565") = false
  /\ served GET (Py.lit "/server_files/25565?path=plugins") = true
  /\ served POST (Py.lit "/create_server") = true.
Proof. vm_compute. auto. Qed.

(** Against main.py the plugin wizard never starts: the status request is
    not answered with 200, and the command stops at "server not found". *)
Lemma install_refused (e : Bot.env) (user port : Z) (b : Bot.bot) :
  answers_as_main e ->
  let b' := Bot.server_install_plugin e user port b in
  Bot.setup_sessions b' = Bot.setup_sessions b
  /\ Bot.plugin_sessions b' = Bot.plugin_sessions b
  /\ Bot.sent b' = Bot.sent b ++ [Bot.ServerNotFound port].
Proof.
  intros Hmain. cbv zeta. unfold Bot.server_install_plugin, Bot.api_request.
  pose proof (Hmain port (status_route_unserved port)) as Hne.
  apply Z.eqb_neq in Hne. rewrite Hne. cbn. auto.
Qed.

(** The creation wizard does not touch the plugin sessions. *)
Lemma setup_message_plugin_kept (e : Bot.env) (m : Bot.message) (b : Bot.bot) :
  Bot.plugin_sessions (Bot.handle_setup_message e m b).1 = Bot.plugin_sessions b.
Proof.
  unfold Bot.handle_setup_message, Bot.api_request.
  repeat (match goal with
          | |- context [match ?x with _ => _ end] => destruct x
          end; cbn); reflexivity.
Qed.

(** So, against main.py, no plugin session ever exists. *)
Lemma no_plugin_session (e : Bot.env) (b : Bot.bot) :
  answers_as_main e -> dispatches e -> Bot.reached e b ->
  Bot.plugin_sessions b = ∅.
Proof.
  intros Hmain Hdisp Hreach. induction Hreach as [|b h _ IH]; [reflexivity|].
  destruct h as [m|user|user port|answers asked]; cbn [Bot.after].
  - unfold Bot.on_message. destruct (Bot.author_bot m); [exact IH|].
    pose proof (setup_message_plugin_kept e m b) as Hkept.
    destruct (Bot.handle_setup_message e m b) as [b0 handled]. cbn [fst] in Hkept.
    destruct handled; [congruence|].
    rewrite Hkept, IH, lookup_empty.
    destruct (Hdisp m b0) as [[_ Hp]|[port Hp]]; rewrite Hp.
    + congruence.
    + rewrite (proj1 (proj2 (install_refused e (Bot.author m) port b0 Hmain))). congruence.
  - unfold Bot.server_create. destruct (bool_decide _); exact IH.
  - rewrite (proj1 (proj2 (install_refused e user port b Hmain))). exact IH.
  - exact IH.
Qed.





(** ** The supervisor: what a method leaves alone

    [keeps R m]: running [m] relates the state before to the state after by
    [R], whether [m] returns or raises. *)

Opaque Py.lit.
Arguments Py.lit : simpl never.
Arguments Py.str_of_Z : simpl never.
Arguments get_full_path : simpl never.
Arguments path_join : simpl never.
Arguments jar_name_of : simpl never.

#[local] Instance same_status_pre : PreOrder same_status.
Proof.
  split.
  - intros st. unfold same_status. auto.
  - intros a b c (?&?&?&?&?) (?&?&?&?&?). unfold same_status. repeat split; congruence.
Qed.

#[local] Instance same_db_pre : PreOrder same_db.
Proof.
  split.
  - intros st. unfold same_db. auto.
  - intros a b c Hab Hbc Ha. destruct (Hab Ha) as [Hb Hd].
    destruct (Hbc Hb) as [Hc Hd']. split; congruence.
Qed.

Section Keeps.
Context (R : state -> state -> Prop) `{!PreOrder R}.

Lemma keeps_ret {A} (a : A) : keeps R (ret a).
Proof. intros st. simpl. reflexivity. Qed.

Lemma keeps_raise {A} msg : keeps R (@raise A msg).
Proof. intros st. simpl. reflexivity. Qed.

Lemma keeps_lift {A} (r : result A) : keeps R (lift r).
Proof. intros st. simpl. reflexivity. Qed.

Lemma keeps_get_self : keeps R get_self.
Proof. intros st. simpl. reflexivity. Qed.

Lemma keeps_get_out : keeps R get_out.
Proof. intros st. simpl. reflexivity. Qed.

Lemma keeps_bind {A B} (m : M A) (k : A -> M B) :
  keeps R m -> (forall a, keeps R (k a)) -> keeps R (bind m k).
Proof.
  intros Hm Hk st. unfold bind. specialize (Hm st).
  destruct (m st) as [st' [a|e]]; simpl in *; [|assumption].
  etransitivity; [eassumption|apply Hk].
Qed.

Lemma keeps_try {A} (m : M A) (h : exn -> M A) :
  keeps R m -> (forall e, keeps R (h e)) -> keeps R (try_except m h).
Proof.
  intros Hm Hh st. unfold try_except. specialize (Hm st).
  destruct (m st) as [st' [a|e]]; simpl in *; [assumption|].
  etransitivity; [eassumption|apply Hh].
Qed.
End Keeps.

Create HintDb frame discriminated.

(** One step of a frame proof: follow the structure of the method. *)
Ltac frame_step :=
  lazy zeta;
  first
    [ solve [apply keeps_ret; exact _] | solve [apply keeps_raise; exact _]
    | solve [apply keeps_lift; exact _]
    | solve [apply keeps_get_self; exact _] | solve [apply keeps_get_out; exact _]
    | solve [auto with frame nocore]
    | apply keeps_bind; [exact _ | | intros ?]
    | apply keeps_try; [exact _ | | intros ?]
    | match goal with
      | |- keeps _ (match ?x with _ => _ end) => destruct x
      end ].

Ltac frame := intros; repeat frame_step.

Section Primitives.
Context (E : env).

Lemma act_status a : keeps same_status (act a).
Proof. intros [o w]. cbv. auto. Qed.
Lemma act_db a : keeps same_db (act a).
Proof. intros [o w]. cbv. auto. Qed.

Lemma put_fs_status f : keeps same_status (put_fs f).
Proof. intros [o w]. cbv. auto. Qed.
Lemma put_fs_db f : keeps same_db (put_fs f).
Proof. intros [o w]. cbv. auto. Qed.

Lemma requests_get_status url : keeps same_status (requests_get E url).
Proof.
  intros [o w]. unfold requests_get, bind, get_out, put_out, lift. simpl.
  repeat split; reflexivity.
Qed.
Lemma requests_get_db url : keeps same_db (requests_get E url).
Proof.
  intros [o w]. unfold requests_get, bind, get_out, put_out, lift. simpl.
  intros ?; split; auto.
Qed.

Lemma set_mrpack_status v : keeps same_status (set_mrpack_minecraft_version v).
Proof. intros [o w]. cbv. auto. Qed.
Lemma set_mrpack_db v : keeps same_db (set_mrpack_minecraft_version v).
Proof. intros [o w]. cbv. auto. Qed.

Lemma set_status_db s : keeps same_db (set_status s).
Proof. intros [o w]. cbv. auto. Qed.
Lemma set_process_db p : keeps same_db (set_process p).
Proof. intros [o w]. cbv. auto. Qed.

Lemma put_db_status d : keeps same_status (put_db d).
Proof. intros [o w]. cbv. auto. Qed.

Lemma add_log_db message level : keeps same_db (add_log E message level).
Proof.
  intros [o w] Ht. simpl in Ht. unfold add_log, bind, get_self. simpl.
  rewrite Ht. simpl. auto.
Qed.

Lemma update_status_db s : keeps same_db (update_status E s).
Proof.
  intros [o w] Ht. simpl in Ht. unfold update_status, set_status, bind, get_self, put_self.
  simpl. rewrite Ht. simpl. auto.
Qed.
End Primitives.

#[local] Hint Resolve act_status act_db put_fs_status put_fs_db requests_get_status
  requests_get_db set_mrpack_status set_mrpack_db set_status_db set_process_db
  put_db_status add_log_db update_status_db : frame.

Section Methods.
Context (E : env) (R : state -> state -> Prop) `{!PreOrder R}.
(** What the proofs below need of [R]: the primitives keep it. *)
Context (R_act : forall a, keeps R (act a))
        (R_put_fs : forall f, keeps R (put_fs f))
        (R_requests_get : forall E url, keeps R (requests_get E url))
        (R_set_mrpack : forall v, keeps R (set_mrpack_minecraft_version v))
        (R_add_log : forall E message level, keeps R (add_log E message level)).

#[local] Hint Resolve R_act R_put_fs R_requests_get R_set_mrpack R_add_log : frame.

Lemma keeps_getitem key v : keeps R (getitem key v).
Proof. unfold getitem. frame. Qed.
Lemma keeps_dict_get key d v : keeps R (dict_get key d v).
Proof. unfold dict_get. frame. Qed.
Lemma keeps_getitem_first v : keeps R (getitem_first v).
Proof. unfold getitem_first. frame. Qed.
Lemma keeps_getitem_last v : keeps R (getitem_last v).
Proof. unfold getitem_last. frame. Qed.
Lemma keeps_slice20 v : keeps R (slice20 v).
Proof. unfold slice20. frame. Qed.
Lemma keeps_iterate v : keeps R (iterate v).
Proof. unfold iterate. frame. Qed.
Lemma keeps_makedirs p : keeps R (makedirs p).
Proof. unfold makedirs. frame. Qed.
Lemma keeps_path_exists p : keeps R (path_exists p).
Proof. unfold path_exists. frame. Qed.
Lemma keeps_path_isfile p : keeps R (path_isfile p).
Proof. unfold path_isfile. frame. Qed.
Lemma keeps_path_getsize p : keeps R (path_getsize p).
Proof. unfold path_getsize. frame. Qed.
Lemma keeps_listdir p : keeps R (listdir p).
Proof. unfold listdir. frame. Qed.
Lemma keeps_write_chunks p r : keeps R (write_chunks p r).
Proof. unfold write_chunks. frame. Qed.
Lemma keeps_get_json url : keeps R (get_json E url).
Proof. unfold get_json. frame. Qed.
Lemma keeps_requests_get_value u : keeps R (requests_get_value E u).
Proof. unfold requests_get_value. frame. Qed.

#[local] Hint Resolve keeps_getitem keeps_dict_get keeps_getitem_first keeps_getitem_last
  keeps_slice20 keeps_iterate keeps_makedirs keeps_path_exists keeps_path_isfile
  keeps_path_getsize keeps_listdir keeps_write_chunks keeps_get_json
  keeps_requests_get_value : frame.

Lemma keeps_comprehension cond val l :
  (forall v, keeps R (cond v)) -> (forall v, keeps R (val v)) ->
  keeps R (comprehension cond val l).
Proof. intros Hc Hv. induction l; simpl; frame. Qed.

Lemma keeps_find_version version l : keeps R (find_version version l).
Proof. induction l; simpl; frame. Qed.

#[local] Hint Resolve keeps_find_version : frame.

Lemma keeps_versions_of url : keeps R (versions_of E url).
Proof. unfold versions_of. frame. Qed.

#[local] Hint Resolve keeps_versions_of : frame.

Lemma keeps_get_available_versions : keeps R (get_available_versions E).
Proof.
  unfold get_available_versions. frame; apply keeps_comprehension; frame.
Qed.

Lemma keeps_process_mrpack mrpack_path server_dir :
  keeps R (_process_mrpack E mrpack_path server_dir).
Proof. unfold _process_mrpack. frame. Qed.

#[local] Hint Resolve keeps_process_mrpack : frame.

Lemma keeps_download_mrpack server_dir : keeps R (_download_mrpack E server_dir).
Proof. unfold _download_mrpack. frame. Qed.

Lemma keeps_resolve repo server_dir jar_name jar_path :
  keeps R (resolve E repo server_dir jar_name jar_path).
Proof. unfold resolve. frame. Qed.

#[local] Hint Resolve keeps_download_mrpack keeps_resolve : frame.

Lemma keeps_download_server : keeps R (download_server E).
Proof. unfold download_server. frame. Qed.

Lemma keeps_start_prologue : keeps R (start_prologue E).
Proof. unfold start_prologue. frame. Qed.

Lemma keeps_stdin_write p text : keeps R (stdin_write p text).
Proof. unfold stdin_write. frame. Qed.

Lemma keeps_wait_exit p n t : keeps R (wait_exit p n t).
Proof. revert t. induction n; intros t; simpl; frame. Qed.

Lemma keeps_create_start_script jar_path : keeps R (create_start_script jar_path).
Proof. unfold create_start_script. frame. Qed.

Lemma keeps_popen cmd cwd : keeps R (popen E cmd cwd).
Proof. unfold popen. frame. Qed.
End Methods.

Lemma add_log_status E message level : keeps same_status (add_log E message level).
Proof.
  intros [o w]. unfold add_log, bind, get_self, get_out, put_db, put_out, ret. simpl.
  destruct (temporary o); simpl; repeat split; reflexivity.
Qed.

#[local] Hint Resolve add_log_status : frame.

(** Instances of the generic lemmas for the two relations. *)
Ltac generic L := intros; apply L; try exact _; auto with frame nocore.

Lemma download_server_status E : keeps same_status (download_server E).
Proof. generic keeps_download_server. Qed.

Lemma start_prologue_status E : keeps same_status (start_prologue E).
Proof. generic keeps_start_prologue. Qed.

Lemma download_server_db E : keeps same_db (download_server E).
Proof. generic keeps_download_server. Qed.

Lemma start_prologue_db E : keeps same_db (start_prologue E).
Proof. generic keeps_start_prologue. Qed.

Lemma get_available_versions_db E : keeps same_db (get_available_versions E).
Proof. generic keeps_get_available_versions. Qed.

Lemma path_exists_db p : keeps same_db (path_exists p).
Proof. generic keeps_path_exists. Qed.

Lemma path_isfile_db p : keeps same_db (path_isfile p).
Proof. generic keeps_path_isfile. Qed.

Lemma path_getsize_db p : keeps same_db (path_getsize p).
Proof. generic keeps_path_getsize. Qed.

Lemma listdir_db p : keeps same_db (listdir p).
Proof. generic keeps_listdir. Qed.

Lemma create_start_script_db p : keeps same_db (create_start_script p).
Proof. generic keeps_create_start_script. Qed.

Lemma popen_db E cmd cwd : keeps same_db (popen E cmd cwd).
Proof. generic keeps_popen. Qed.

Lemma stdin_write_db p text : keeps same_db (stdin_write p text).
Proof. generic keeps_stdin_write. Qed.

Lemma wait_exit_db p n t : keeps same_db (wait_exit p n t).
Proof. generic keeps_wait_exit. Qed.

#[local] Hint Resolve download_server_db start_prologue_db get_available_versions_db
  path_exists_db path_isfile_db path_getsize_db listdir_db create_start_script_db
  popen_db stdin_write_db wait_exit_db : frame.

Lemma launch_db E server_dir jar : keeps same_db (launch E server_dir jar).
Proof. unfold launch. frame. Qed.

#[local] Hint Resolve launch_db : frame.

Lemma start_db E : keeps same_db (start E).
Proof. unfold start. frame. Qed.

Lemma stop_db E : keeps same_db (stop E).
Proof. unfold stop, stop_body. frame. Qed.

#[local] Hint Resolve start_db stop_db : frame.

Lemma restart_db E : keeps same_db (restart E).
Proof. unfold restart. frame. Qed.

Lemma send_command_db E c : keeps same_db (send_command E c).
Proof. unfold send_command. frame. Qed.

Lemma monitor_line_db E line : keeps same_db (monitor_line E line).
Proof. unfold monitor_line. frame. Qed.

#[local] Hint Resolve monitor_line_db : frame.

Lemma monitor_lines_db E lines : keeps same_db (monitor_lines E lines).
Proof. induction lines; simpl; frame. Qed.

#[local] Hint Resolve monitor_lines_db : frame.

Lemma monitor_output_db E lines fin : keeps same_db (monitor_output E lines fin).
Proof. unfold monitor_output. frame. Qed.

#[local] Hint Resolve restart_db send_command_db monitor_output_db : frame.

(** C10: a [MinecraftServer] constructed with [temporary=True] never writes
    to the database: the constructor skips [_save_to_db], [update_status] and
    [add_log] return before their SQL, and so every method built from them
    ([get_available_versions], [download_server], [start], [stop], [restart],
    [send_command], [monitor_output]) leaves the tables [servers] and
    [server_logs] as they were, and the object temporary. *)
Theorem temporary_never_writes_db (E : env) :
  (forall port version server_type w,
      let st := __init__ port version server_type true w in
      temporary (self st) = true /\ db (out st) = db w)
  /\ (forall st : state,
         temporary (self st) = true ->
         (forall s, db (out (update_status E s st).1) = db (out st))
         /\ (forall message level, db (out (add_log E message level st).1) = db (out st))
         /\ db (out (get_available_versions E st).1) = db (out st)
         /\ db (out (download_server E st).1) = db (out st)
         /\ db (out (start E st).1) = db (out st)
         /\ db (out (stop E st).1) = db (out st)
         /\ db (out (restart E st).1) = db (out st)
         /\ (forall c, db (out (send_command E c st).1) = db (out st))
         /\ (forall lines fin, db (out (monitor_output E lines fin st).1) = db (out st)))
  /\ (forall server_type a, db (outside (get_versions E server_type a).1) = db (outside a)).
Proof.
  split; [|split].
  - intros. simpl. auto.
  - intros st Ht.
    repeat split; intros;
      match goal with
      | |- db (out (?m st).1) = _ =>
          assert (keeps same_db m) as K by (auto with frame nocore);
          exact (proj2 (K st Ht))
      end.
  - intros ty a. unfold get_versions.
    destruct (REPOSITORIES ty); [|reflexivity].
    destruct (bool_decide _); [reflexivity|].
    pose proof (get_available_versions_db E (__init__ 99999 (Py.lit "temp") ty true (outside a))
                  eq_refl) as [_ K].
    destruct (get_available_versions E _) as [st' res]. simpl in *. exact K.
Qed.

Lemma temporary_never_writes_db_witness :
  db (out (start Sample.offline Sample.temp_state).1) = db (out Sample.temp_state)
  /\ db (out (update_status Sample.offline Running Sample.temp_state).1)
     = db (out Sample.temp_state).
Proof.
  pose proof (proj1 (proj2 (temporary_never_writes_db Sample.offline)) Sample.temp_state eq_refl)
    as (Hu & _ & _ & _ & Hs & _).
  split; [exact Hs | exact (Hu Running)].
Defined.

(** *** Failure of the download inside [start] *)

Lemma returns_ret {A} (a : A) : returns (ret a).
Proof. intros st. eexists. reflexivity. Qed.

Lemma returns_bind {A B} (m : M A) (k : A -> M B) :
  returns m -> (forall a, returns (k a)) -> returns (bind m k).
Proof.
  intros Hm Hk st. unfold bind. destruct (Hm st) as [a Ha].
  destruct (m st) as [st' r]. simpl in Ha. subst r. apply Hk.
Qed.

Lemma returns_try {A} (m : M A) (h : exn -> M A) :
  (forall e, returns (h e)) -> returns (try_except m h).
Proof.
  intros Hh st. unfold try_except. destruct (m st) as [st' [a|e]].
  - eexists. reflexivity.
  - apply Hh.
Qed.

Lemma returns_add_log E message level : returns (add_log E message level).
Proof.
  intros [o w]. unfold add_log, bind, get_self. simpl.
  destruct (temporary o); eexists; reflexivity.
Qed.

Lemma returns_set_status s : returns (set_status s).
Proof. intros [o w]. eexists. reflexivity. Qed.

Lemma returns_update_status E s : returns (update_status E s).
Proof.
  intros [o w]. unfold update_status, set_status, bind, get_self, put_self. simpl.
  destruct (temporary o); eexists; reflexivity.
Qed.

Lemma returns_download_server E : returns (download_server E).
Proof.
  unfold download_server. apply returns_try. intros e.
  apply returns_bind; [apply returns_add_log | intros; apply returns_ret].
Qed.

Lemma returns_start E : returns (start E).
Proof.
  unfold start. intros st. unfold bind at 1. simpl.
  destruct (bool_decide _); [eexists; reflexivity|].
  apply returns_try. intros e.
  repeat first
    [ apply returns_add_log | apply returns_set_status | apply returns_update_status
    | apply returns_ret | apply returns_bind; [|intros ?] ].
Qed.

Lemma bind_val {A B} (m : M A) (k : A -> M B) st st' a :
  m st = (st', Val a) -> bind m k st = k a st'.
Proof. intros H. unfold bind. rewrite H. reflexivity. Qed.

Lemma try_val {A} (m : M A) (h : exn -> M A) st st' a :
  m st = (st', Val a) -> try_except m h st = (st', Val a).
Proof. intros H. unfold try_except. rewrite H. reflexivity. Qed.

(** C6: [start] and [download_server] never let an exception out; and when
    the [download_server] call made by [start] fails (returns None), [start]
    returns False and leaves the status (with its history) and the process
    handle as they were, after logging the failure at level ERROR. *)
Theorem start_download_failure (E : env) :
  returns (start E)
  /\ returns (download_server E)
  /\ forall (st st1 : state) (server_dir : pystr),
      status (self st) <> Running ->
      start_prologue E st = (st1, Val server_dir) ->
      (download_server E st1).2 = Val None ->
      exists st',
        start E st = (st', Val false)
        /\ status (self st') = status (self st)
        /\ seen (self st') = seen (self st)
        /\ process (self st') = process (self st)
        /\ (temporary (self st) = false ->
            last (server_logs (db (out st')))
            = Some {| log_port := port (self st);
                      log_text := Py.lit "[" ++ now E ++ Py.lit "] "
                                  ++ Py.lit "Failed to download server jar";
                      log_level := ERROR |}).
Proof.
  split; [apply returns_start|]. split; [apply returns_download_server|].
  intros st st1 server_dir Hrun Hpro Hdl.
  pose proof (start_prologue_status E st) as P. rewrite Hpro in P. simpl in P.
  pose proof (download_server_status E st1) as D.
  destruct (download_server E st1) as [st2 r] eqn:Hd. simpl in Hdl, D. subst r.
  pose proof (add_log_status E (Py.lit "Failed to download server jar") ERROR st2) as A.
  destruct P as (P1 & P2 & P3 & P4 & P5), D as (D1 & D2 & D3 & D4 & D5),
    A as (A1 & A2 & A3 & A4 & A5).
  exists (add_log E (Py.lit "Failed to download server jar") ERROR st2).1.
  split.
  - unfold start. unfold bind at 1. simpl.
    rewrite bool_decide_eq_false_2 by assumption.
    apply try_val. rewrite (bind_val _ _ _ _ _ Hpro), (bind_val _ _ _ _ _ Hd).
    unfold launch, bind, ret.
    destruct (add_log E _ _ st2) as [st3 [[]|e]] eqn:Hl; simpl; [reflexivity|].
    destruct (returns_add_log E (Py.lit "Failed to download server jar") ERROR st2) as [u Hu].
    rewrite Hl in Hu. discriminate.
  - repeat split; try congruence.
    intros Htmp. unfold add_log, bind, get_self, get_out, put_db, put_out, ret. simpl.
    replace (temporary (self st2)) with false by congruence. simpl.
    rewrite last_snoc. do 2 f_equal. congruence.
Qed.

Lemma start_download_failure_witness :
  exists st', start Sample.offline Sample.vanilla_new = (st', Val false)
              /\ status (self st') = Stopped.
Proof.
  destruct (proj2 (proj2 (start_download_failure Sample.offline)) Sample.vanilla_new
              (start_prologue Sample.offline Sample.vanilla_new).1
              (Py.lit "/app/servers/25565")) as (st' & H1 & H2 & _).
  - vm_compute; discriminate.
  - vm_compute; reflexivity.
  - vm_compute; reflexivity.
  - exists st'. split; [exact H1 | rewrite H2; reflexivity].
Defined.

(** *** The jar cache of [download_server] *)

(** C1, evaluated where the code departs from it: a fabric server, version
    1.20.1, port 25565, empty server directory, providers answering.  The
    first call makes three requests and writes fabric-server.jar; the test
    for an existing jar looks at fabric-1.20.1.jar, which is never written,
    so the second call makes the same three requests again. *)
Theorem fabric_fetched_twice :
  let first := download_server Sample.online Sample.fabric_new in
  let second := download_server Sample.online first.1 in
  first.2 = Val (Some (Py.lit "/app/servers/25565/fabric-server.jar"))
  /\ second.2 = Val (Some (Py.lit "/app/servers/25565/fabric-server.jar"))
  /\ fs (out first.1) !! Py.lit "/app/servers/25565/fabric-1.20.1.jar" = None
  /\ fs (out first.1) !! Py.lit "/app/servers/25565/fabric-server.jar" = Some (File [80; 75]%N)
  /\ length (requests (out first.1)) = 3%nat
  /\ requests (out second.1) = requests (out first.1) ++ requests (out first.1).
Proof. vm_compute. repeat split; reflexivity. Qed.

(** The same two calls for a paper server: the jar written by the first
    call is found by the second, which makes no request. *)
Example paper_fetched_once :
  let first := download_server Sample.online Sample.paper_new in
  let second := download_server Sample.online first.1 in
  first.2 = Val (Some (Py.lit "/app/servers/25565/paper-1.20.1.jar"))
  /\ second.2 = first.2
  /\ length (requests (out first.1)) = 2%nat
  /\ requests (out second.1) = requests (out first.1).
Proof. vm_compute. repeat split; reflexivity. Qed.

Lemma download_server_cached (E : env) (st : state) (repo : repository) :
  let server_dir := get_full_path E [Py.lit "servers"; Py.str_of_Z (port (self st))] in
  let jar_path := path_join server_dir (jar_name_of (self st)) in
  REPOSITORIES (server_type (self st)) = Some repo ->
  repo_kind repo <> Modrinth ->
  (forall bytes, fs (out st) !! server_dir <> Some (File bytes)) ->
  is_Some (fs (out st) !! jar_path) ->
  (download_server E st).2 = Val (Some jar_path)
  /\ requests (out (download_server E st).1) = requests (out st).
Proof.
  intros server_dir jar_path Hrepo Hkind Hdir Hjar.
  destruct st as [o w]. simpl in *.
  assert (is_Some (<[server_dir := Dir]> (fs w) !! jar_path)) as Hex
    by (rewrite lookup_insert; destruct (decide (server_dir = jar_path)); eauto).
  unfold download_server, try_except, bind, get_self, makedirs, get_out. cbn.
  fold server_dir. fold jar_path.
  destruct (fs w !! server_dir) as [[|bytes]|] eqn:Hd;
    [ | destruct (Hdir bytes eq_refl) | ];
    cbn; rewrite Hrepo; cbn;
    rewrite (bool_decide_eq_false_2 _ Hkind); cbn;
    rewrite (bool_decide_eq_true_2 _ Hex); cbn;
    destruct (temporary o); cbn; auto.
Qed.

(** *** The background reader *)

Lemma monitor_output_cons E line lines fin st :
  monitor_output E (line :: lines) fin st
  = match monitor_line E line st with
    | (st', Val _) => monitor_output E lines fin st'
    | (st', Raise e) => add_log E (Py.lit "Error in output monitor: " ++ exn_msg e) ERROR st'
    end.
Proof.
  unfold monitor_output, try_except. simpl. unfold bind at 1 2.
  destruct (monitor_line E line st) as [st' [[]|e]]; reflexivity.
Qed.

Lemma returns_monitor_line E line : returns (monitor_line E line).
Proof.
  unfold monitor_line.
  repeat first
    [ apply returns_add_log | apply returns_update_status | apply returns_ret
    | apply returns_bind; [|intros ?]
    | match goal with |- returns (if ?b then _ else _) => destruct b end ].
Qed.

#[local] Instance stays_running_pre : PreOrder stays_running.
Proof.
  split.
  - intros st H. exact H.
  - intros a b c Hab Hbc Ha. auto.
Qed.

Lemma keeps_weaken {A} (R R' : state -> state -> Prop) (m : M A) :
  (forall st st', R st st' -> R' st st') -> keeps R m -> keeps R' m.
Proof. intros HR Hm st. apply HR, Hm. Qed.

Lemma add_log_running E message level : keeps stays_running (add_log E message level).
Proof.
  apply (keeps_weaken same_status); [|apply add_log_status].
  intros st st' (H & _) Hr. congruence.
Qed.

Lemma update_status_running E : keeps stays_running (update_status E Running).
Proof.
  intros [o w] _. unfold update_status, set_status, bind, get_self, put_self. cbn.
  destruct (temporary o); reflexivity.
Qed.

#[local] Hint Resolve add_log_running update_status_running : frame.

(** A line without "Failed to start" leaves a running server running. *)
Lemma monitor_line_running E line st :
  status (self st) = Running ->
  Py.contains (Py.lit "Failed to start") (Py.strip line) = false ->
  status (self (monitor_line E line st).1) = Running.
Proof.
  intros Hrun Hno. revert st Hrun. change (keeps stays_running (monitor_line E line)).
  unfold monitor_line. rewrite Hno. frame.
Qed.

(** C5, as stated, fails: the running paper server of [Sample.running];
    its output stream is closed while no stop is in progress, and the reader
    ends with the status still "running" and nothing at all changed. *)
Lemma closed_stream_stays_running :
  status (self Sample.running) = Running
  /\ (monitor_output Sample.online [] Closed Sample.running).1 = Sample.running
  /\ status (self (monitor_output Sample.online [] Closed Sample.running).1) <> Error.
Proof. vm_compute. repeat split; discriminate. Qed.

(** C5, amended: when the output stream is closed the reader ends without
    touching the server: the state is what the last line left.  The reader
    sets "error" only on a line containing "Failed to start" (and not both
    "Done" and "For help"); a running server whose remaining output has no
    such line is still running after the stream is closed. *)
Theorem closed_stream_keeps_status (E : env) :
  (forall st, (monitor_output E [] Closed st).1 = st)
  /\ (forall st lines,
         status (self st) = Running ->
         Forall (fun line => Py.contains (Py.lit "Failed to start") (Py.strip line) = false)
                lines ->
         status (self (monitor_output E lines Closed st).1) = Running).
Proof.
  split.
  - intros st. reflexivity.
  - intros st lines Hrun Hall. revert st Hrun.
    induction Hall as [|line lines Hline _ IH]; intros st Hrun.
    + exact Hrun.
    + rewrite monitor_output_cons.
      pose proof (monitor_line_running E line st Hrun Hline) as Hst.
      destruct (returns_monitor_line E line st) as [u Hu].
      destruct (monitor_line E line st) as [st' r]. simpl in *. subst r.
      apply IH. exact Hst.
Qed.

Lemma closed_stream_keeps_status_witness :
  status (self (monitor_output Sample.online [Py.lit "Stopping the server"] Closed
                  Sample.running).1) = Running.
Proof.
  apply (proj2 (closed_stream_keeps_status Sample.online)).
  - vm_compute; reflexivity.
  - repeat constructor.
Defined.

(** *** [stop] *)

Lemma bind_unit {B} (m : M unit) (k : unit -> M B) st :
  returns m -> bind m k st = k tt (m st).1.
Proof.
  intros H. destruct (H st) as [[] Ha]. unfold bind.
  destruct (m st) as [st' r]; simpl in *; subst; reflexivity.
Qed.

Lemma returns_act a : returns (act a).
Proof. intros [o w]. eexists. reflexivity. Qed.

Lemma returns_set_process p : returns (set_process p).
Proof. intros [o w]. eexists. reflexivity. Qed.

Create HintDb returns discriminated.
#[local] Hint Resolve returns_act returns_set_process returns_set_status
  returns_update_status returns_add_log returns_ret : returns.

(** What each primitive does to the attributes and to the list of actions. *)
Ltac projection :=
  intros;
  match goal with
  | st : state |- _ =>
      let o := fresh "o" in
      let w := fresh "w" in
      destruct st as [o w]; cbn; try (destruct (temporary o)); reflexivity
  end.

Lemma add_log_self E message level st : self (add_log E message level st).1 = self st.
Proof. unfold add_log, bind, get_self. projection. Qed.
Lemma add_log_effects E message level st :
  effects (out (add_log E message level st).1) = effects (out st).
Proof. unfold add_log, bind, get_self. projection. Qed.
Lemma set_status_self_status s st : status (self (set_status s st).1) = s.
Proof. projection. Qed.
Lemma set_status_seen s st : seen (self (set_status s st).1) = seen (self st) ++ [s].
Proof. projection. Qed.
Lemma set_status_process s st : process (self (set_status s st).1) = process (self st).
Proof. projection. Qed.
Lemma set_status_out s st : out (set_status s st).1 = out st.
Proof. projection. Qed.
Lemma update_status_status E s st : status (self (update_status E s st).1) = s.
Proof. unfold update_status, set_status, bind, get_self, put_self. projection. Qed.
Lemma update_status_seen E s st :
  seen (self (update_status E s st).1) = seen (self st) ++ [s].
Proof. unfold update_status, set_status, bind, get_self, put_self. projection. Qed.
Lemma update_status_process E s st :
  process (self (update_status E s st).1) = process (self st).
Proof. unfold update_status, set_status, bind, get_self, put_self. projection. Qed.
Lemma update_status_effects E s st :
  effects (out (update_status E s st).1) = effects (out st).
Proof. unfold update_status, set_status, bind, get_self, put_self. projection. Qed.
Lemma set_process_process p st : process (self (set_process p st).1) = p.
Proof. projection. Qed.
Lemma set_process_status p st : status (self (set_process p st).1) = status (self st).
Proof. projection. Qed.
Lemma set_process_seen p st : seen (self (set_process p st).1) = seen (self st).
Proof. projection. Qed.
Lemma set_process_out p st : out (set_process p st).1 = out st.
Proof. projection. Qed.
Lemma act_self a st : self (act a st).1 = self st.
Proof. projection. Qed.
Lemma act_effects a st : effects (out (act a st).1) = effects (out st) ++ [a].
Proof. projection. Qed.

Ltac proj :=
  repeat first
    [ rewrite add_log_self | rewrite add_log_effects | rewrite set_status_self_status
    | rewrite set_status_seen | rewrite set_status_process | rewrite set_status_out
    | rewrite update_status_status | rewrite update_status_seen
    | rewrite update_status_process | rewrite update_status_effects
    | rewrite set_process_process | rewrite set_process_status | rewrite set_process_seen
    | rewrite set_process_out | rewrite act_self | rewrite act_effects ].

Lemma add_effects_nil st : add_effects [] st = st.
Proof. destruct st as [o [d f r e]]. unfold add_effects. cbn. rewrite app_nil_r. reflexivity. Qed.

Lemma add_effects_app l l' st : add_effects l' (add_effects l st) = add_effects (l ++ l') st.
Proof. unfold add_effects. cbn. rewrite app_assoc. reflexivity. Qed.

Lemma act_add_effects a st : act a st = (add_effects [a] st, Val tt).
Proof. reflexivity. Qed.

(** The polling loop: it sleeps [k] times one second, [k] at most [n], and
    stops early only when the process is seen to have exited. *)
Lemma wait_exit_spec p n t st :
  exists k, (k <= n)%nat
    /\ wait_exit p n t st = (add_effects (repeat (Sleep 1) k) st, Val (t + k)%nat)
    /\ (exited p (t + k) = false -> k = n)
    /\ (forall j, (j < k)%nat -> exited p (t + j) = false).
Proof.
  revert t st. induction n as [|n IH]; intros t st.
  - exists 0%nat. cbn. rewrite add_effects_nil, Nat.add_0_r.
    split; [lia|]. split; [reflexivity|]. split; [reflexivity|]. intros; lia.
  - cbn. destruct (exited p t) eqn:Hex.
    + exists 0%nat. cbn. rewrite add_effects_nil, Nat.add_0_r.
      split; [lia|]. split; [reflexivity|]. split; [congruence|]. intros; lia.
    + destruct (IH (S t) (add_effects [Sleep 1] st)) as (k & Hk & Heq & Hlast & Hbefore).
      exists (S k). unfold bind. rewrite act_add_effects, Heq, add_effects_app.
      replace (S t + k)%nat with (t + S k)%nat in * by lia.
      split; [lia|]. split; [reflexivity|]. split; [intros; f_equal; auto|].
      intros [|j] Hj; [rewrite Nat.add_0_r; exact Hex|].
      replace (t + S j)%nat with (S t + j)%nat by lia. apply Hbefore. lia.
Qed.

Lemma stop_body_alive E p st :
  alive p = true ->
  exists k st',
    (k <= 30)%nat
    /\ stop_body E p st = (st', Val true)
    /\ status (self st') = Stopped
    /\ process (self st') = None
    /\ seen (self st') = seen (self st) ++ [Stopping; Stopping; Stopped; Stopped]
    /\ effects (out st') =
         effects (out st) ++ [StdinWrite (Py.lit "stop" ++ [10%N])]
         ++ repeat (Sleep 1) k ++ escalation p k
    /\ (exited p k = false -> k = 30%nat)
    /\ (forall j, (j < k)%nat -> exited p j = false).
Proof.
  intros Halive. unfold stop_body, stdin_write. rewrite Halive.
  rewrite !bind_unit by auto with returns.
  match goal with
  | |- context [bind (wait_exit p 30 0) ?k ?s] =>
      destruct (wait_exit_spec p 30 0 s) as (k' & Hk & Heq & Hlast & Hbefore);
      exists k'; unfold bind at 1; rewrite Heq
  end.
  cbn [Nat.add] in *.
  set (st1 := add_effects _ _).
  assert (exists st2, (if negb (exited p k')
                       then act Terminate;; act (Sleep 5);;
                            (if negb (exited_after_term p k' (k' + 5)) then act Kill else ret ())
                       else ret ()) st1 = (st2, Val tt)
                      /\ self st2 = self st1
                      /\ effects (out st2) = effects (out st1) ++ escalation p k')
    as (st2 & Hesc & Hself2 & Heff2).
  { unfold escalation. destruct (exited p k'); cbn.
    - exists st1. rewrite app_nil_r. auto.
    - destruct (exited_after_term p k' (k' + 5)); cbn;
        eexists; (split; [reflexivity|]); cbn; rewrite <- ?app_assoc; auto. }
  unfold bind at 1. rewrite Hesc.
  rewrite !bind_unit by auto with returns.
  eexists. split; [exact Hk|]. split; [reflexivity|].
  proj. rewrite Hself2, Heff2. subst st1. cbn [add_effects self out effects].
  proj. rewrite <- !app_assoc. cbn [Datatypes.app].
  repeat split; auto.
Qed.

(** *** What one operation does to the status *)

Lemma path_exists_status p : keeps same_status (path_exists p).
Proof. generic keeps_path_exists. Qed.
Lemma path_isfile_status p : keeps same_status (path_isfile p).
Proof. generic keeps_path_isfile. Qed.
Lemma path_getsize_status p : keeps same_status (path_getsize p).
Proof. generic keeps_path_getsize. Qed.
Lemma listdir_status p : keeps same_status (listdir p).
Proof. generic keeps_listdir. Qed.
Lemma create_start_script_status p : keeps same_status (create_start_script p).
Proof. generic keeps_create_start_script. Qed.
Lemma popen_status E cmd cwd : keeps same_status (popen E cmd cwd).
Proof. generic keeps_popen. Qed.
Lemma stdin_write_status p text : keeps same_status (stdin_write p text).
Proof. generic keeps_stdin_write. Qed.

#[local] Hint Resolve download_server_status start_prologue_status path_exists_status
  path_isfile_status path_getsize_status listdir_status create_start_script_status
  popen_status stdin_write_status : frame.

Lemma send_command_status E c : keeps same_status (send_command E c).
Proof. unfold send_command. frame. Qed.

Lemma starts_bind {A} (m : M A) (k : A -> M bool) :
  keeps same_status m -> (forall a, starts (k a)) -> starts (bind m k).
Proof.
  intros Hm Hk st. unfold bind. specialize (Hm st).
  destruct (m st) as [st1 [a|e]]; cbn in *; [|exact Hm].
  specialize (Hk a st1). destruct (k a st1) as [st2 r]. cbn in *.
  destruct Hm as (H1 & H2 & H3 & H4 & H5).
  destruct r as [[|]|]; [| |].
  - destruct Hk as (K1 & K2 & K3). unfold started. rewrite K1, K2, H2. auto.
  - transitivity st1; [repeat split; assumption|exact Hk].
  - transitivity st1; [repeat split; assumption|exact Hk].
Qed.

Lemma starts_ret_false : starts (ret false).
Proof. intros st. cbn. reflexivity. Qed.

Lemma bind_get_self {B} (k : MinecraftServer -> M B) st : bind get_self k st = k (self st) st.
Proof. reflexivity. Qed.

Lemma launch_starts E server_dir jar : starts (launch E server_dir jar).
Proof.
  unfold launch.
  repeat first
    [ apply starts_ret_false
    | match goal with
      | |- starts (bind (set_process _) _) => fail 1
      | |- starts (match ?x with _ => _ end) => destruct x
      end
    | apply starts_bind; [solve [frame] | intros ?] ].
  all: intros st; rewrite !bind_unit by auto with returns;
    rewrite bind_get_self; rewrite !bind_unit by auto with returns;
    cbn [ret snd fst]; unfold started; proj; rewrite <- app_assoc; repeat split; eauto.
Qed.

Lemma start_change E st : change st (start E st).1.
Proof.
  unfold start. rewrite bind_get_self.
  destruct (bool_decide (status (self st) = Running)) eqn:Hrun.
  { apply change_none. cbn. reflexivity. }
  apply bool_decide_eq_false in Hrun.
  assert (starts (server_dir <- start_prologue E;;
                  jar_path <- download_server E;; launch E server_dir jar_path)) as Hbody.
  { apply starts_bind; [frame|intros ?].
    apply starts_bind; [frame|intros ?]. apply launch_starts. }
  specialize (Hbody st). unfold try_except.
  destruct ((server_dir <- start_prologue E;; _) st) as [st1 [[|]|e]]; cbn in Hbody |- *.
  - apply change_start; assumption.
  - apply change_none; assumption.
  - destruct Hbody as (H1 & H2 & H3 & H4 & H5).
    rewrite !bind_unit by auto with returns. cbn [ret fst].
    apply change_error; proj; try congruence.
    rewrite H2, <- app_assoc. reflexivity.
Qed.

Lemma stop_change E st : change st (stop E st).1.
Proof.
  unfold stop. rewrite bind_get_self.
  destruct (process (self st)) as [p|] eqn:Hp; [|apply change_none; cbn; reflexivity].
  destruct (bool_decide (status (self st) = Stopped)) eqn:Hst;
    [apply change_none; cbn; reflexivity|].
  apply bool_decide_eq_false in Hst. unfold try_except.
  destruct (alive p) eqn:Halive.
  - destruct (stop_body_alive E p st Halive) as (k & st' & _ & Heq & H1 & H2 & H3 & _).
    rewrite Heq. cbn. apply change_stop; assumption.
  - unfold stop_body, stdin_write. rewrite Halive. cbn.
    apply change_none.
    rewrite bind_unit by auto with returns. cbn [ret fst].
    apply add_log_status.
Qed.

Lemma monitor_line_change E line st : change st (monitor_line E line st).1.
Proof.
  unfold monitor_line.
  destruct (negb (bool_decide (Py.strip line = []))); [|apply change_none; cbn; reflexivity].
  rewrite bind_unit by auto with returns.
  pose proof (add_log_status E (Py.strip line) INFO st) as (H1 & H2 & H3 & H4 & H5).
  destruct (Py.contains (Py.lit "Done") _ && Py.contains (Py.lit "For help") _);
    [|destruct (Py.contains (Py.lit "Failed to start") _)].
  - rewrite bind_unit by auto with returns.
    apply (change_line _ _ Running); proj; auto; congruence.
  - rewrite bind_unit by auto with returns.
    apply (change_line _ _ Error); proj; auto; congruence.
  - apply change_none. cbn. repeat split; assumption.
Qed.

Lemma chain_from_app a l ws :
  chain_from a (l ++ ws) <-> chain_from a l /\ chain_from (default a (last l)) ws.
Proof.
  revert a. induction l as [|b l IH]; intros a; cbn.
  - tauto.
  - rewrite IH. destruct l as [|c l]; [cbn; tauto|].
    assert (is_Some (last (c :: l))) as [x Hx] by (apply last_is_Some; discriminate).
    rewrite last_cons_cons, Hx. cbn. tauto.
Qed.

Lemma chain_snoc l a ws :
  last l = Some a -> chain l -> chain_from a ws -> chain (l ++ ws).
Proof.
  destruct l as [|b l]; [discriminate|]. cbn [chain Datatypes.app]. intros Hlast Hc Hws.
  apply chain_from_app. split; [assumption|].
  destruct l as [|c l]; cbn in *.
  - injection Hlast as ->. assumption.
  - rewrite Hlast. assumption.
Qed.

Lemma chain_adjacent l l1 a b l2 :
  chain l -> l = l1 ++ a :: b :: l2 -> a = b \/ legal a b.
Proof.
  intros Hc ->. destruct l1 as [|c l1]; cbn in Hc.
  - tauto.
  - apply chain_from_app in Hc as [_ Hc]. cbn in Hc. tauto.
Qed.

Lemma history_snoc l a ws :
  last l = Some a -> history l -> chain_from a ws -> history (l ++ ws).
Proof.
  destruct l as [|x l]; [discriminate|]. cbn [history Datatypes.app].
  intros Hlast [-> Hc] Hws. split; [reflexivity|].
  destruct l as [|y l].
  - cbn in Hlast. injection Hlast as <-. destruct ws as [|b ws]; [exact I|]. apply Hws.
  - rewrite last_cons_cons in Hlast. eapply chain_snoc; eassumption.
Qed.

Lemma history_adjacent l l1 a b l2 :
  history l -> l = l1 ++ a :: b :: l2 ->
  (a = b \/ legal a b) \/ (l1 = [] /\ a = Stopped /\ b = Stopping).
Proof.
  intros Hh ->. destruct l1 as [|c l1]; cbn in Hh.
  - destruct Hh as [-> _]. destruct b; cbn; auto.
  - destruct Hh as [_ Hc]. left. eapply chain_adjacent; [exact Hc|reflexivity].
Qed.

Lemma change_wf st st' : wf st -> change st st' -> wf st'.
Proof.
  intros (Hproc & Hlast & Hchain) Hch. unfold wf.
  destruct Hch as [(H1 & H2 & H3 & H4 & H5)
                  |Hrun (H1 & H2 & H3)
                  |H1 H2 H3
                  |Hst H1 H2 H3
                  |s Hs H1 H2 H3
                  |H1 H2 H3 H4].
  - rewrite H1, H2, H3. auto.
  - rewrite H1, H2. split; [discriminate|]. split; [rewrite last_app; reflexivity|].
    eapply history_snoc; [eassumption|assumption|]. cbn.
    destruct (status (self st)); cbn; intuition congruence.
  - rewrite H1, H2. split; [discriminate|]. split; [rewrite last_app; reflexivity|].
    eapply history_snoc; [eassumption|assumption|]. cbn. tauto.
  - rewrite H1, H2, H3. split; [intros [? ?]; discriminate|].
    split; [rewrite last_app; reflexivity|].
    eapply history_snoc; [eassumption|assumption|]. cbn.
    destruct (status (self st)); cbn; intuition congruence.
  - rewrite H1, H2, H3. split.
    + intros _. destruct Hs; subst; discriminate.
    + split; [rewrite last_snoc; reflexivity|].
      eapply history_snoc; [eassumption|assumption|]. cbn.
      destruct Hs; subst; cbn; tauto.
  - rewrite H1, H2. auto.
Qed.

Lemma init_wf port version server_type temporary w :
  wf (__init__ port version server_type temporary w).
Proof.
  unfold __init__, wf. destruct temporary; cbn; (split; [intros [? ?]; discriminate|auto]).
Qed.

Lemma bind_ignore {A B} (m : M A) (k : M B) st :
  returns m -> bind m (fun _ => k) st = k (m st).1.
Proof.
  intros H. destruct (H st) as [a Ha]. unfold bind.
  destruct (m st) as [st' r]; cbn in *; subst; reflexivity.
Qed.

Lemma returns_stop E : returns (stop E).
Proof.
  unfold stop. intros st. rewrite bind_get_self.
  destruct (process (self st)); [|eexists; reflexivity].
  destruct (bool_decide _); [eexists; reflexivity|].
  apply returns_try. intros e.
  apply returns_bind; [apply returns_add_log|intros; apply returns_ret].
Qed.

Lemma restart_changes E st :
  exists st1 st2, change st st1 /\ change st1 st2 /\ change st2 (restart E st).1.
Proof.
  unfold restart.
  rewrite (bind_ignore _ _ _ (returns_stop E)), (bind_ignore _ _ _ (returns_act (Sleep 5))).
  eexists _, _. split; [apply stop_change|]. split; [|apply start_change].
  apply change_none, act_status.
Qed.

(** *** The operations with the readers at work *)

#[local] Instance writes_up_pre : PreOrder writes_up.
Proof.
  split.
  - intros st. exists []. rewrite app_nil_r. cbn. auto.
  - intros a b c (w1 & S1 & T1 & F1) (w2 & S2 & T2 & F2).
    exists (w1 ++ w2). rewrite S2, S1, app_assoc. split; [reflexivity|].
    split; [|apply Forall_app; auto].
    rewrite T2, T1, last_app. destruct (last w2); reflexivity.
Qed.

#[local] Instance same_process_pre : PreOrder same_process.
Proof.
  split.
  - intros st. reflexivity.
  - intros a b c Hab Hbc. unfold same_process in *. congruence.
Qed.

Lemma keeps_impl {A} (R R' : state -> state -> Prop) (m : M A) :
  (forall st st', R st st' -> R' st st') -> keeps R m -> keeps R' m.
Proof. intros H Hm st. apply H, Hm. Qed.

Lemma same_status_writes_up st st' : same_status st st' -> writes_up st st'.
Proof. intros (H1 & H2 & _). exists []. rewrite app_nil_r. cbn. auto. Qed.

Lemma same_status_process st st' : same_status st st' -> same_process st st'.
Proof. intros (_ & _ & H & _). exact H. Qed.

Lemma act_up a : keeps writes_up (act a).
Proof. eapply keeps_impl; [apply same_status_writes_up|apply act_status]. Qed.
Lemma put_fs_up f : keeps writes_up (put_fs f).
Proof. eapply keeps_impl; [apply same_status_writes_up|apply put_fs_status]. Qed.
Lemma requests_get_up E url : keeps writes_up (requests_get E url).
Proof. eapply keeps_impl; [apply same_status_writes_up|apply requests_get_status]. Qed.
Lemma set_mrpack_up v : keeps writes_up (set_mrpack_minecraft_version v).
Proof. eapply keeps_impl; [apply same_status_writes_up|apply set_mrpack_status]. Qed.
Lemma add_log_up E message level : keeps writes_up (add_log E message level).
Proof. eapply keeps_impl; [apply same_status_writes_up|apply add_log_status]. Qed.
Lemma set_process_up p : keeps writes_up (set_process p).
Proof. intros st. exists []. proj. rewrite app_nil_r. cbn. auto. Qed.

Lemma act_proc a : keeps same_process (act a).
Proof. eapply keeps_impl; [apply same_status_process|apply act_status]. Qed.
Lemma put_fs_proc f : keeps same_process (put_fs f).
Proof. eapply keeps_impl; [apply same_status_process|apply put_fs_status]. Qed.
Lemma requests_get_proc E url : keeps same_process (requests_get E url).
Proof. eapply keeps_impl; [apply same_status_process|apply requests_get_status]. Qed.
Lemma set_mrpack_proc v : keeps same_process (set_mrpack_minecraft_version v).
Proof. eapply keeps_impl; [apply same_status_process|apply set_mrpack_status]. Qed.
Lemma add_log_proc E message level : keeps same_process (add_log E message level).
Proof. eapply keeps_impl; [apply same_status_process|apply add_log_status]. Qed.
Lemma set_status_proc s : keeps same_process (set_status s).
Proof. intros st. unfold same_process. proj. reflexivity. Qed.
Lemma update_status_proc E s : keeps same_process (update_status E s).
Proof. intros st. unfold same_process. proj. reflexivity. Qed.

Lemma set_status_up s :
  s = Starting \/ s = Running \/ s = Error -> keeps writes_up (set_status s).
Proof. intros Hs st. exists [s]. proj. cbn. auto. Qed.
Lemma update_status_up E s :
  s = Starting \/ s = Running \/ s = Error -> keeps writes_up (update_status E s).
Proof. intros Hs st. exists [s]. proj. cbn. auto. Qed.

Lemma set_status_up_starting : keeps writes_up (set_status Starting).
Proof. apply set_status_up. auto. Qed.
Lemma set_status_up_error : keeps writes_up (set_status Error).
Proof. apply set_status_up. auto. Qed.
Lemma update_status_up_starting E : keeps writes_up (update_status E Starting).
Proof. apply update_status_up. auto. Qed.
Lemma update_status_up_running E : keeps writes_up (update_status E Running).
Proof. apply update_status_up. auto. Qed.
Lemma update_status_up_error E : keeps writes_up (update_status E Error).
Proof. apply update_status_up. auto. Qed.

#[local] Hint Resolve act_up put_fs_up requests_get_up set_mrpack_up add_log_up
  set_process_up act_proc put_fs_proc requests_get_proc set_mrpack_proc add_log_proc
  set_status_proc update_status_proc set_status_up_starting set_status_up_error
  update_status_up_starting update_status_up_running update_status_up_error : frame.

Lemma monitor_line_up E line : keeps writes_up (monitor_line E line).
Proof. unfold monitor_line. frame. Qed.
Lemma monitor_line_proc E line : keeps same_process (monitor_line E line).
Proof. unfold monitor_line. frame. Qed.

#[local] Hint Resolve monitor_line_up monitor_line_proc : frame.

Lemma window_up E lines : keeps writes_up (window E lines).
Proof. unfold window. induction lines; simpl; frame. Qed.
Lemma window_proc E lines : keeps same_process (window E lines).
Proof. unfold window. induction lines; simpl; frame. Qed.

Lemma returns_window E lines : returns (window E lines).
Proof.
  unfold window. induction lines as [|line lines IH]; simpl.
  - apply returns_ret.
  - apply returns_bind; [apply returns_monitor_line|intros _; exact IH].
Qed.

#[local] Hint Resolve window_up window_proc : frame.
#[local] Hint Resolve returns_window : returns.

Lemma download_server_up E : keeps writes_up (download_server E).
Proof. generic keeps_download_server. Qed.
Lemma start_prologue_up E : keeps writes_up (start_prologue E).
Proof. generic keeps_start_prologue. Qed.
Lemma path_exists_up p : keeps writes_up (path_exists p).
Proof. generic keeps_path_exists. Qed.
Lemma path_isfile_up p : keeps writes_up (path_isfile p).
Proof. generic keeps_path_isfile. Qed.
Lemma path_getsize_up p : keeps writes_up (path_getsize p).
Proof. generic keeps_path_getsize. Qed.
Lemma listdir_up p : keeps writes_up (listdir p).
Proof. generic keeps_listdir. Qed.
Lemma create_start_script_up p : keeps writes_up (create_start_script p).
Proof. generic keeps_create_start_script. Qed.
Lemma popen_up E cmd cwd : keeps writes_up (popen E cmd cwd).
Proof. generic keeps_popen. Qed.

Lemma download_server_proc E : keeps same_process (download_server E).
Proof. generic keeps_download_server. Qed.
Lemma start_prologue_proc E : keeps same_process (start_prologue E).
Proof. generic keeps_start_prologue. Qed.
Lemma path_exists_proc p : keeps same_process (path_exists p).
Proof. generic keeps_path_exists. Qed.
Lemma path_isfile_proc p : keeps same_process (path_isfile p).
Proof. generic keeps_path_isfile. Qed.
Lemma path_getsize_proc p : keeps same_process (path_getsize p).
Proof. generic keeps_path_getsize. Qed.
Lemma listdir_proc p : keeps same_process (listdir p).
Proof. generic keeps_listdir. Qed.
Lemma create_start_script_proc p : keeps same_process (create_start_script p).
Proof. generic keeps_create_start_script. Qed.
Lemma popen_proc E cmd cwd : keeps same_process (popen E cmd cwd).
Proof. generic keeps_popen. Qed.

#[local] Hint Resolve download_server_up start_prologue_up path_exists_up path_isfile_up
  path_getsize_up listdir_up create_start_script_up popen_up download_server_proc
  start_prologue_proc path_exists_proc path_isfile_proc path_getsize_proc listdir_proc
  create_start_script_proc popen_proc : frame.

(** With the readers at work, [start] writes only "starting", "running"
    and "error". *)
Lemma start_racing_up E r : keeps writes_up (start_racing E r).
Proof. unfold start_racing, launch_racing. frame. Qed.

Lemma starts_up_bind {A} (m : M A) (k : A -> M bool) :
  keeps same_process m -> (forall a, starts_up (k a)) -> starts_up (bind m k).
Proof.
  intros Hm Hk st. unfold bind. specialize (Hm st). unfold same_process in Hm.
  destruct (m st) as [st1 [a|e]]; cbn in *; [|exact Hm].
  specialize (Hk a st1). destruct (k a st1) as [st2 [[|]|]]; cbn in *; congruence.
Qed.

Lemma starts_up_ret_false : starts_up (ret false).
Proof. intros st. reflexivity. Qed.

Lemma launch_racing_starts_up E server_dir jar r :
  starts_up (launch_racing E server_dir jar r).
Proof.
  unfold launch_racing.
  repeat first
    [ apply starts_up_ret_false
    | match goal with
      | |- starts_up (bind (set_process _) _) => fail 1
      | |- starts_up (match ?x with _ => _ end) => destruct x
      end
    | apply starts_up_bind; [solve [frame] | intros ?] ].
  all: intros st; rewrite !bind_unit by auto with returns;
    rewrite bind_get_self; rewrite !bind_unit by auto with returns;
    cbn [ret snd fst]; proj; discriminate.
Qed.

Lemma start_racing_starts_up E r : starts_up (start_racing E r).
Proof.
  intros st. unfold start_racing. rewrite bind_get_self.
  destruct (bool_decide (status (self st) = Running)); [reflexivity|].
  assert (starts_up (server_dir <- start_prologue E;;
                     jar_path <- download_server E;;
                     launch_racing E server_dir jar_path r)) as Hbody.
  { apply starts_up_bind; [frame|intros ?].
    apply starts_up_bind; [frame|intros ?]. apply launch_racing_starts_up. }
  specialize (Hbody st). unfold try_except.
  destruct ((server_dir <- start_prologue E;; _) st) as [st1 [b|e]]; [exact Hbody|].
  cbn in Hbody. rewrite !bind_unit by auto with returns. cbn [ret fst snd].
  proj.
  rewrite (window_proc E (r 3%nat)). proj.
  rewrite (window_proc E (r 2%nat)). proj. exact Hbody.
Qed.

Lemma chain_from_up a ws :
  Forall (fun s => s = Starting \/ s = Running \/ s = Error) ws -> chain_from a ws.
Proof.
  intros H. revert a. induction H as [|b ws Hb _ IH]; intros a; cbn; [exact I|].
  split; [|apply IH]. right. destruct Hb as [-> | [-> | ->]]; exact I.
Qed.

(** Writes of "starting", "running" and "error" keep the invariant, as long
    as the handle is not replaced while the status stays "stopped". *)
Lemma writes_up_wf st st' :
  writes_up st st' ->
  (process (self st') = process (self st) \/ status (self st') <> Stopped) ->
  wf st -> wf st'.
Proof.
  intros (ws & Hseen & Hst & Hup) Hproc (W1 & W2 & W3). unfold wf.
  assert (status (self st) <> Stopped -> status (self st') <> Stopped) as Hkeep.
  { intros Hne. rewrite Hst. destruct (last ws) as [x|] eqn:Hl; [|exact Hne].
    apply last_Some in Hl as [ws' ->]. cbn. apply Forall_app in Hup as [_ Hx].
    apply Forall_inv in Hx. cbn in Hx. destruct Hx as [Hx|[Hx|Hx]]; rewrite Hx; discriminate. }
  split; [|split].
  - destruct Hproc as [Hp|Hne]; [|auto]. rewrite Hp. auto.
  - rewrite Hseen, Hst, last_app. destruct (last ws); [reflexivity|exact W2].
  - rewrite Hseen. eapply history_snoc; [exact W2|exact W3|apply chain_from_up, Hup].
Qed.

Lemma start_racing_wf E r st : wf st -> wf (start_racing E r st).1.
Proof.
  intros Hwf. eapply writes_up_wf; [apply start_racing_up| |exact Hwf].
  pose proof (start_racing_starts_up E r st) as H.
  destruct (start_racing E r st).2 as [[|]|]; auto.
Qed.

Lemma window_wf E lines st : wf st -> wf (window E lines st).1.
Proof.
  intros Hwf. eapply writes_up_wf; [apply window_up| |exact Hwf].
  left. apply window_proc.
Qed.

(** What the handling of one line does: nothing to the status, or one write
    of "running" or of "error". *)
Lemma monitor_line_cases E line st :
  same_status st (monitor_line E line st).1
  \/ exists s, (s = Running \/ s = Error)
       /\ status (self (monitor_line E line st).1) = s
       /\ seen (self (monitor_line E line st).1) = seen (self st) ++ [s]
       /\ process (self (monitor_line E line st).1) = process (self st).
Proof.
  unfold monitor_line.
  destruct (negb (bool_decide (Py.strip line = []))); [|left; cbn; reflexivity].
  rewrite bind_unit by auto with returns.
  pose proof (add_log_status E (Py.strip line) INFO st) as (H1 & H2 & H3 & H4 & H5).
  destruct (Py.contains (Py.lit "Done") _ && Py.contains (Py.lit "For help") _);
    [|destruct (Py.contains (Py.lit "Failed to start") _)].
  - rewrite bind_unit by auto with returns.
    right. exists Running. proj. repeat split; auto; congruence.
  - rewrite bind_unit by auto with returns.
    right. exists Error. proj. repeat split; auto; congruence.
  - left. cbn. repeat split; assumption.
Qed.

Lemma hist_impl (S S' : server_status -> Prop) P st :
  (forall a, S a -> S' a) -> hist S P st -> hist S' P st.
Proof. intros H (H1 & H2 & H3 & H4). repeat split; auto. Qed.

Lemma triple_bind {A B} P (m : M A) Q (k : A -> M B) R :
  triple P m Q -> (forall a, triple (Q a) (k a) R) -> triple P (bind m k) R.
Proof.
  intros Hm Hk st HP. destruct (Hm st HP) as (a & Ha & HQ). unfold bind.
  destruct (m st) as [st1 res]. cbn in *. subst res. apply Hk. exact HQ.
Qed.

Lemma triple_same {A} S P (m : M A) :
  returns m -> keeps same_status m -> triple (hist S P) m (fun _ => hist S P).
Proof.
  intros Hr Hk st (H1 & H2 & H3 & H4). destruct (Hr st) as [a Ha]. exists a.
  split; [exact Ha|]. destruct (Hk st) as (K1 & K2 & K3 & _).
  unfold hist. rewrite K1, K2, K3. auto.
Qed.

Lemma triple_set_process S P p :
  triple (hist S P) (set_process p) (fun _ => hist S (eq p)).
Proof.
  intros st (H1 & H2 & H3 & H4). exists tt. split; [reflexivity|].
  unfold hist. proj. auto.
Qed.

Lemma hist_write (S : server_status -> Prop) P x st st' :
  (forall a, S a -> a = x \/ legal a x) ->
  status (self st') = x ->
  seen (self st') = seen (self st) ++ [x] ->
  process (self st') = process (self st) ->
  hist S P st -> hist (eq x) P st'.
Proof.
  intros Hl K1 K2 K3 (H1 & H2 & H3 & H4). unfold hist. rewrite K1, K2, K3.
  split; [apply last_snoc|]. split; [|auto].
  eapply history_snoc; [exact H1|exact H2|]. cbn. auto.
Qed.

Lemma triple_set_status (S : server_status -> Prop) P x :
  (forall a, S a -> a = x \/ legal a x) ->
  triple (hist S P) (set_status x) (fun _ => hist (eq x) P).
Proof.
  intros Hl st H. exists tt. split; [reflexivity|].
  eapply hist_write; [exact Hl| | | |exact H]; proj; reflexivity.
Qed.

Lemma triple_update_status (S : server_status -> Prop) P E x :
  (forall a, S a -> a = x \/ legal a x) ->
  triple (hist S P) (update_status E x) (fun _ => hist (eq x) P).
Proof.
  intros Hl st H. destruct (returns_update_status E x st) as [[] Ha]. exists tt.
  split; [exact Ha|].
  eapply hist_write; [exact Hl| | | |exact H]; proj; reflexivity.
Qed.

Lemma triple_window (S : server_status -> Prop) P E lines :
  triple (hist S P) (window E lines)
         (fun _ => hist (fun s => S s \/ s = Running \/ s = Error) P).
Proof.
  unfold window. revert S. induction lines as [|line lines IH]; intros S st H; cbn.
  - exists tt. split; [reflexivity|]. eapply hist_impl; [|exact H]. auto.
  - rewrite bind_unit by apply returns_monitor_line.
    assert (hist (fun s => S s \/ s = Running \/ s = Error) P (monitor_line E line st).1)
      as H1.
    { destruct (monitor_line_cases E line st) as [(K1 & K2 & K3 & _)|(s & Hs & K1 & K2 & K3)].
      - destruct H as (H1 & H2 & H3 & H4). unfold hist. rewrite K1, K2, K3. auto.
      - eapply hist_impl; [|eapply (hist_write S P s); [|exact K1|exact K2|exact K3|exact H]].
        + intros a <-. tauto.
        + intros a _. right. destruct Hs as [-> | ->]; exact I. }
    destruct (IH _ _ H1) as ([] & Ha & H2). exists tt. split; [exact Ha|].
    eapply hist_impl; [|exact H2]. cbn. tauto.
Qed.

Lemma returns_wait_exit p n t : returns (wait_exit p n t).
Proof.
  intros st. destruct (wait_exit_spec p n t st) as (k & _ & Heq & _).
  rewrite Heq. eexists. reflexivity.
Qed.

Lemma wait_exit_status p n t : keeps same_status (wait_exit p n t).
Proof. generic keeps_wait_exit. Qed.

(** [stop], with the readers at work, on a process that takes the
    directive: it returns True, the status is "stopped", the handle is
    cleared and the history is well formed. *)
Lemma stop_body_racing_alive E p r (S : server_status -> Prop) P :
  alive p = true ->
  (forall a, S a -> a <> Stopped) ->
  triple (hist S P) (stop_body_racing E p r)
         (fun b st => b = true /\ hist (eq Stopped) (eq None) st).
Proof.
  intros Halive HS. unfold stop_body_racing, stdin_write. rewrite Halive.
  eapply triple_bind; [apply triple_same; [apply returns_act|apply act_status]|intros ?].
  eapply triple_bind; [apply triple_set_status; intros s0 Hs0; right; cbn; auto|intros ?].
  eapply triple_bind; [apply triple_window|intros ?].
  eapply triple_bind.
  { apply triple_update_status. intros s0 [<- | [-> | ->]]; cbn; auto; right; discriminate. }
  intros ?.
  eapply triple_bind;
    [apply triple_same; [apply returns_wait_exit|apply wait_exit_status]|intros t].
  eapply triple_bind.
  { apply triple_same.
    - destruct (negb (exited p t)); [|apply returns_ret].
      apply returns_bind; [apply returns_act|intros ?].
      apply returns_bind; [apply returns_act|intros ?].
      destruct (negb _); [apply returns_act|apply returns_ret].
    - frame. }
  intros ?.
  eapply triple_bind; [apply triple_set_process|intros ?].
  eapply triple_bind; [apply triple_window|intros ?].
  eapply triple_bind.
  { apply triple_set_status. intros s0 [<- | [-> | ->]]; right; cbn; discriminate. }
  intros ?.
  eapply triple_bind; [apply triple_window|intros ?].
  eapply triple_bind.
  { apply triple_update_status. intros s0 [<- | [-> | ->]]; cbn; auto; right; discriminate. }
  intros ?.
  eapply triple_bind;
    [apply triple_same; [apply returns_add_log|apply add_log_status]|intros ?].
  intros st H. exists true. cbn. auto.
Qed.

Lemma returns_stop_racing E r : returns (stop_racing E r).
Proof.
  unfold stop_racing. intros st. rewrite bind_get_self.
  destruct (process (self st)); [|eexists; reflexivity].
  destruct (bool_decide _); [eexists; reflexivity|].
  apply returns_try. intros e.
  apply returns_bind; [apply returns_add_log|intros; apply returns_ret].
Qed.

Lemma stop_racing_wf E r st : wf st -> wf (stop_racing E r st).1.
Proof.
  intros Hwf. pose proof Hwf as (W1 & W2 & W3). unfold stop_racing. rewrite bind_get_self.
  destruct (process (self st)) as [p|] eqn:Hp; [|exact Hwf].
  destruct (bool_decide (status (self st) = Stopped)) eqn:Hst; [exact Hwf|].
  apply bool_decide_eq_false in Hst. unfold try_except.
  destruct (alive p) eqn:Halive.
  - destruct (stop_body_racing_alive E p r (fun a => a <> Stopped) (fun _ => True)
                Halive (fun a H => H) st) as (b & Hb & -> & H1 & H2 & H3 & H4).
    { repeat split; assumption. }
    destruct (stop_body_racing E p r st) as [st' res]. cbn in *. subst res. cbn.
    unfold wf. rewrite <- H4. split; [intros [? ?]; discriminate|]. auto.
  - unfold stop_body_racing, stdin_write. rewrite Halive. cbn.
    rewrite bind_unit by auto with returns. cbn [ret fst].
    eapply change_wf; [exact Hwf|apply change_none, add_log_status].
Qed.

Lemma returns_start_racing E r : returns (start_racing E r).
Proof.
  unfold start_racing. intros st. rewrite bind_get_self.
  destruct (bool_decide _); [eexists; reflexivity|].
  apply returns_try. intros e.
  repeat first
    [ apply returns_add_log | apply returns_set_status | apply returns_update_status
    | apply returns_window | apply returns_ret | apply returns_bind; [|intros ?] ].
Qed.

Lemma restart_racing_wf E r st : wf st -> wf (restart_racing E r st).1.
Proof.
  intros Hwf. unfold restart_racing.
  rewrite (bind_ignore _ _ _ (returns_stop_racing E r)),
    (bind_ignore _ _ _ (returns_act (Sleep 5))),
    (bind_ignore _ _ _ (returns_window E (r 3%nat))).
  apply start_racing_wf, window_wf.
  eapply change_wf; [apply stop_racing_wf, Hwf|]. apply change_none, act_status.
Qed.

(** Without lines to handle, the operations are the ones of the class. *)
Lemma racing_quiet E st :
  stop_racing E (fun _ => []) st = stop E st
  /\ start_racing E (fun _ => []) st = start E st
  /\ restart_racing E (fun _ => []) st = restart E st.
Proof.
  assert (forall st, stop_racing E (fun _ => []) st = stop E st) as Hstop.
  { intros st'. unfold stop_racing, stop. rewrite !bind_get_self.
    destruct (process (self st')); [|reflexivity].
    destruct (bool_decide _); reflexivity. }
  assert (forall st, start_racing E (fun _ => []) st = start E st) as Hstart.
  { intros st'. unfold start_racing, start. rewrite !bind_get_self.
    destruct (bool_decide _); [reflexivity|].
    unfold try_except.
    assert (forall d j s, launch_racing E d j (fun _ => []) s = launch E d j s) as Hl
      by (intros d [[|c j]|] s; reflexivity).
    assert ((server_dir <- start_prologue E;; jar_path <- download_server E;;
             launch_racing E server_dir jar_path (fun _ => [])) st'
            = (server_dir <- start_prologue E;; jar_path <- download_server E;;
               launch E server_dir jar_path) st') as ->.
    { unfold bind. destruct (start_prologue E st') as [s1 [d|e]]; [|reflexivity].
      destruct (download_server E s1) as [s2 [j|e]]; [|reflexivity]. apply Hl. }
    reflexivity. }
  split; [apply Hstop|]. split; [apply Hstart|].
  unfold restart_racing, restart, bind. rewrite Hstop.
  destruct (stop E st) as [s1 [b|e]]; [|reflexivity].
  destruct (act (Sleep 5) s1) as [s2 [[]|e]] eqn:Ha; [|reflexivity].
  cbn. apply (Hstart s2).
Qed.

Lemma step_wf s ev s' : wf (sv s) -> step s ev s' -> wf (sv s').
Proof.
  intros Hwf Hstep. destruct Hstep; cbn [sv].
  - eapply change_wf; [eassumption|apply start_change].
  - eapply change_wf; [eassumption|apply stop_change].
  - destruct (restart_changes E (sv s)) as (st1 & st2 & H1 & H2 & H3).
    eauto using change_wf.
  - eapply change_wf; [eassumption|apply change_none, send_command_status].
  - eapply change_wf; [eassumption|apply monitor_line_change].
  - assumption.
  - eapply change_wf; [eassumption|]. apply change_none.
    unfold monitor_output, try_except. cbn. apply add_log_status.
  - eapply change_wf; [eassumption|].
    apply change_process; proj; eauto.
  - apply start_racing_wf. assumption.
  - apply stop_racing_wf. assumption.
  - apply restart_racing_wf. assumption.
Qed.

Lemma reachable_wf s : reachable s -> wf (sv s).
Proof.
  induction 1 as [s Hinit|s ev s' _ IH Hstep].
  - destruct Hinit; cbn [sv].
    + apply init_wf.
    + unfold rehydrate, wf. cbn. split; [intros [? ?]; discriminate|auto].
  - eapply step_wf; eassumption.
Qed.

Lemma sup_started_reachable : reachable Sample.sup_started.
Proof.
  eapply reachable_step; [|apply step_start].
  apply reachable_initial. apply initial_new.
Qed.

Lemma sup_stopped_reachable : reachable Sample.sup_stopped.
Proof. eapply reachable_step; [apply sup_started_reachable|apply step_stop]. Qed.

Lemma sup_late_line_reachable : reachable Sample.sup_late_line.
Proof.
  eapply reachable_step; [apply sup_stopped_reachable|].
  eapply step_line. vm_compute. reflexivity.
Qed.

(** C3: whenever [stop] is called on a server that holds the handle of a
    running process, it returns True with status "stopped" and the handle
    cleared, whatever the process does with the shutdown directive.  It
    writes "stop", sleeps [k] times one second with [k] at most 30 (fewer
    only if the process was seen to exit), and if the process is still there
    sends SIGTERM, sleeps 5 seconds and sends SIGKILL if it is still there. *)
Theorem stop_always_stops (E : env) (s : supervisor) (p : Popen) :
  reachable s ->
  process (self (sv s)) = Some p ->
  alive p = true ->
  exists k st',
    stop E (sv s) = (st', Val true)
    /\ status (self st') = Stopped
    /\ process (self st') = None
    /\ (k <= 30)%nat
    /\ effects (out st') =
         effects (out (sv s)) ++ [StdinWrite (Py.lit "stop" ++ [10%N])]
         ++ repeat (Sleep 1) k ++ escalation p k
    /\ (exited p k = false -> k = 30%nat)
    /\ (forall j, (j < k)%nat -> exited p j = false).
Proof.
  intros Hreach Hp Halive.
  destruct (reachable_wf s Hreach) as (Hproc & _ & _).
  assert (status (self (sv s)) <> Stopped) as Hst by (apply Hproc; rewrite Hp; eauto).
  destruct (stop_body_alive E p (sv s) Halive)
    as (k & st' & Hk & Heq & H1 & H2 & _ & H4 & H5 & H6).
  exists k, st'. unfold stop. rewrite bind_get_self, Hp.
  rewrite (bool_decide_eq_false_2 _ Hst). unfold try_except. rewrite Heq.
  repeat split; assumption.
Qed.

Lemma stop_always_stops_witness :
  exists k st',
    stop Sample.online (sv Sample.sup_started) = (st', Val true)
    /\ status (self st') = Stopped
    /\ process (self st') = None
    /\ (k <= 30)%nat.
Proof.
  destruct (stop_always_stops Sample.online Sample.sup_started Sample.deaf)
    as (k & st' & H1 & H2 & H3 & H4 & _).
  - apply sup_started_reachable.
  - vm_compute; reflexivity.
  - reflexivity.
  - exists k, st'. auto.
Defined.

(** A process that ignores the directive and SIGTERM gets all of it: thirty
    sleeps of a second, SIGTERM, five seconds, SIGKILL. *)
Example stop_deaf_process :
  effects (out (sv Sample.sup_stopped)) =
    effects (out (sv Sample.sup_started))
    ++ [StdinWrite (Py.lit "stop" ++ [10%N])] ++ repeat (Sleep 1) 30
    ++ [Terminate; Sleep 5; Kill]
  /\ status (self (sv Sample.sup_stopped)) = Stopped
  /\ process (self (sv Sample.sup_stopped)) = None.
Proof. vm_compute. repeat split; reflexivity. Qed.

(** C4, as stated, fails: the paper server is started and, while still
    "starting", stopped; [stop] takes it from "starting" to "stopping", which
    is not an edge of stopped -> starting -> running -> stopping -> stopped
    and does not lead into "error". *)
Lemma starting_to_stopping :
  reachable Sample.sup_stopped
  /\ status (self (sv Sample.sup_started)) = Starting
  /\ seen (self (sv Sample.sup_stopped)) =
       [Stopped; Starting] ++ Starting :: Stopping :: [Stopping; Stopped; Stopped].
Proof.
  split; [apply sup_stopped_reachable|].
  split; vm_compute; reflexivity.
Qed.

(** The reader is not joined by [stop]: a line it still holds is handled
    after [stop] has returned, and "Done ... For help" then takes the status
    from "stopped" to "running". *)
Example line_after_stop :
  reachable Sample.sup_late_line
  /\ seen (self (sv Sample.sup_late_line)) =
       [Stopped; Starting; Starting; Stopping; Stopping; Stopped] ++ Stopped :: Running :: [].
Proof. split; [apply sup_late_line_reachable|vm_compute; reflexivity]. Qed.

(** The readers at work during [stop] and during [start]: the line that
    reports the server as initialised, handled while [stop] waits for the
    process, takes the status from "stopping" to "running", and [stop] then
    takes it from "running" to "stopped"; handled while a later [start] is
    at work, it takes the status from "stopped" to "running", and [start]
    then takes it from "running" to "starting". *)
Example lines_during_operations :
  reachable Sample.sup_line_during_stop
  /\ seen (self (sv Sample.sup_line_during_stop)) =
       [Stopped; Starting; Starting; Stopping; Stopping] ++ Running :: Stopped :: [Stopped]
  /\ reachable Sample.sup_line_during_start
  /\ seen (self (sv Sample.sup_line_during_start)) =
       [Stopped; Starting; Starting; Stopping; Stopping; Stopped; Stopped]
       ++ Running :: Starting :: [Starting].
Proof.
  split; [|split; [|split]].
  - eapply reachable_step; [apply sup_started_reachable|].
    eapply step_stop_racing. vm_compute. reflexivity.
  - vm_compute. reflexivity.
  - eapply reachable_step; [apply sup_stopped_reachable|].
    eapply step_start_racing. vm_compute. reflexivity.
  - vm_compute. reflexivity.
Qed.

(** A server loaded from a row persisted as "stopping": the constructor's
    "stopped" is followed by "stopping". *)
Example loaded_while_stopping :
  reachable Sample.sup_loaded_stopping
  /\ seen (self (sv Sample.sup_loaded_stopping)) = [Stopped; Stopping].
Proof.
  split; [apply reachable_initial, initial_loaded|vm_compute; reflexivity].
Qed.

(** C4, amended: the operations are issued one at a time, and the readers
    handle lines between two operations and during one.  Then two successive
    values of the status are equal or joined by an edge of [legal], which
    are all edges but stopped -> stopping and starting -> stopped; the one
    exception is the first change of a server that was loaded from a row
    persisted as "stopping", which goes from the "stopped" of the
    constructor to "stopping". *)
Theorem status_moves_along_edges (s : supervisor) (l1 l2 : list server_status)
    (a b : server_status) :
  reachable s ->
  seen (self (sv s)) = l1 ++ a :: b :: l2 ->
  (a = b \/ legal a b) \/ (l1 = [] /\ a = Stopped /\ b = Stopping).
Proof.
  intros Hreach Hseen.
  destruct (reachable_wf s Hreach) as (_ & _ & Hh).
  eapply history_adjacent; eassumption.
Qed.

Lemma status_moves_along_edges_witness :
  (Running = Stopped \/ legal Running Stopped)
  \/ ([Stopped; Starting; Starting; Stopping; Stopping] = []
      /\ Running = Stopped /\ Stopped = Stopping).
Proof.
  apply (status_moves_along_edges Sample.sup_line_during_stop
           [Stopped; Starting; Starting; Stopping; Stopping] [Stopped] Running Stopped).
  - eapply reachable_step; [apply sup_started_reachable|].
    eapply step_stop_racing. vm_compute. reflexivity.
  - vm_compute; reflexivity.
Defined.

(** *** The endpoints and unknown ports *)

(** X21: every endpoint that takes a port, except the one that reads the
    log, answers 404 'Server not found' for a port that is not in the
    registry, and changes nothing. *)
Lemma unknown_port_not_found (E : env) (ep : endpoint) (port : Z) (a : app) :
  servers a !! port = None ->
  (forall limit, ep <> Logs limit) ->
  handle E ep port a = (a, not_found).
Proof.
  intros Hnone Hep. destruct ep; cbn;
    unfold get_status, server_status_route, start_server, stop_server, restart_server,
      send_command_route, update_settings, delete_server;
    rewrite ?Hnone; try reflexivity.
  exfalso. eapply Hep. reflexivity.
Qed.

(** C7, evaluated where the code departs from it: no server is registered,
    and GET /api/server/25565/logs answers 200 with an empty list where
    every other endpoint answers 404; the state is untouched. *)
Theorem logs_of_unknown_port :
  servers Sample.app0 !! 25565 = None
  /\ handle Sample.offline (Logs 50) 25565 Sample.app0
     = (Sample.app0, {| code := 200; answer := BLogs [] |})
  /\ handle Sample.offline Status 25565 Sample.app0 = (Sample.app0, not_found).
Proof. vm_compute. repeat split; reflexivity. Qed.


(** ** Further properties of the supervisor *)

#[local] Instance logs_grow_pre : PreOrder logs_grow.
Proof.
  split.
  - intros st. unfold logs_grow. reflexivity.
  - intros a b c Hab Hbc. unfold logs_grow in *. etransitivity; eassumption.
Qed.

#[local] Instance rows_kept_pre : PreOrder rows_kept.
Proof.
  split.
  - intros st. split; [reflexivity|]. intros q. split; reflexivity.
  - intros a b c [Hp1 H1] [Hp2 H2]. split; [congruence|].
    intros q. destruct (H1 q) as [H1a H1b], (H2 q) as [H2a H2b]. split.
    + intros Hq. rewrite H2a by congruence. auto.
    + congruence.
Qed.

Section Lifecycle.
Context (R : state -> state -> Prop) `{!PreOrder R}.
Context (R_act : forall a, keeps R (act a))
        (R_put_fs : forall f, keeps R (put_fs f))
        (R_requests_get : forall E url, keeps R (requests_get E url))
        (R_set_mrpack : forall v, keeps R (set_mrpack_minecraft_version v))
        (R_add_log : forall E message level, keeps R (add_log E message level))
        (R_set_status : forall s, keeps R (set_status s))
        (R_update_status : forall E s, keeps R (update_status E s))
        (R_set_process : forall p, keeps R (set_process p)).

#[local] Hint Resolve R_act R_put_fs R_requests_get R_set_mrpack R_add_log R_set_status
  R_update_status R_set_process : frame.

Lemma life_download_server E : keeps R (download_server E).
Proof. generic keeps_download_server. Qed.
Lemma life_get_available_versions E : keeps R (get_available_versions E).
Proof. generic keeps_get_available_versions. Qed.
Lemma life_start_prologue E : keeps R (start_prologue E).
Proof. generic keeps_start_prologue. Qed.
Lemma life_path_exists p : keeps R (path_exists p).
Proof. generic keeps_path_exists. Qed.
Lemma life_path_isfile p : keeps R (path_isfile p).
Proof. generic keeps_path_isfile. Qed.
Lemma life_path_getsize p : keeps R (path_getsize p).
Proof. generic keeps_path_getsize. Qed.
Lemma life_listdir p : keeps R (listdir p).
Proof. generic keeps_listdir. Qed.
Lemma life_create_start_script p : keeps R (create_start_script p).
Proof. generic keeps_create_start_script. Qed.
Lemma life_popen E cmd cwd : keeps R (popen E cmd cwd).
Proof. generic keeps_popen. Qed.
Lemma life_stdin_write p text : keeps R (stdin_write p text).
Proof. generic keeps_stdin_write. Qed.
Lemma life_wait_exit p n t : keeps R (wait_exit p n t).
Proof. generic keeps_wait_exit. Qed.

#[local] Hint Resolve life_download_server life_get_available_versions life_start_prologue
  life_path_exists life_path_isfile life_path_getsize life_listdir
  life_create_start_script life_popen life_stdin_write life_wait_exit : frame.

Lemma life_launch E server_dir jar : keeps R (launch E server_dir jar).
Proof. unfold launch. frame. Qed.

#[local] Hint Resolve life_launch : frame.

Lemma life_start E : keeps R (start E).
Proof. unfold start. frame. Qed.

Lemma life_stop E : keeps R (stop E).
Proof. unfold stop, stop_body. frame. Qed.

#[local] Hint Resolve life_start life_stop : frame.

Lemma life_restart E : keeps R (restart E).
Proof. unfold restart. frame. Qed.

Lemma life_send_command E c : keeps R (send_command E c).
Proof. unfold send_command. frame. Qed.

Lemma life_monitor_line E line : keeps R (monitor_line E line).
Proof. unfold monitor_line. frame. Qed.

#[local] Hint Resolve life_monitor_line : frame.

Lemma life_monitor_lines E lines : keeps R (monitor_lines E lines).
Proof. induction lines; simpl; frame. Qed.

#[local] Hint Resolve life_monitor_lines : frame.

Lemma life_monitor_output E lines fin : keeps R (monitor_output E lines fin).
Proof. unfold monitor_output. frame. Qed.

(** Every method of the life cycle keeps a relation that the primitives keep. *)
Lemma life_all E st :
  R st (start E st).1 /\ R st (stop E st).1 /\ R st (restart E st).1
  /\ (forall c, R st (send_command E c st).1)
  /\ (forall lines fin, R st (monitor_output E lines fin st).1)
  /\ R st (download_server E st).1
  /\ R st (get_available_versions E st).1.
Proof.
  repeat split; intros;
    first [apply life_start | apply life_stop | apply life_restart | apply life_send_command
          | apply life_monitor_output | apply life_download_server
          | apply life_get_available_versions].
Qed.
End Lifecycle.

Lemma logs_grow_out st st' : out st' = out st -> logs_grow st st'.
Proof. intros H. unfold logs_grow. rewrite H. reflexivity. Qed.

Lemma logs_grow_logs st st' :
  server_logs (db (out st')) = server_logs (db (out st)) -> logs_grow st st'.
Proof. intros H. unfold logs_grow. rewrite H. reflexivity. Qed.

Lemma add_log_grows E message level : keeps logs_grow (add_log E message level).
Proof.
  intros [o w]. unfold add_log, bind, get_self, get_out, put_db, put_out, ret, logs_grow.
  cbn. destruct (temporary o); cbn; [reflexivity|]. apply prefix_app_r. reflexivity.
Qed.

Lemma update_status_grows E s : keeps logs_grow (update_status E s).
Proof.
  intros [o w]. apply logs_grow_logs.
  unfold update_status, set_status, bind, get_self, get_out, put_self, put_db, put_out, ret.
  cbn. destruct (temporary o); reflexivity.
Qed.

(** The log table only grows under the methods of the life cycle. *)
Lemma logs_append_only (E : env) (st : state) :
  logs_grow st (start E st).1 /\ logs_grow st (stop E st).1
  /\ logs_grow st (restart E st).1
  /\ (forall c, logs_grow st (send_command E c st).1)
  /\ (forall lines fin, logs_grow st (monitor_output E lines fin st).1)
  /\ logs_grow st (download_server E st).1
  /\ logs_grow st (get_available_versions E st).1.
Proof.
  apply life_all; try exact _; intros;
    first [apply add_log_grows | apply update_status_grows
          | intros [o w]; apply logs_grow_logs; reflexivity].
Qed.

Lemma rows_kept_db st st' :
  port (self st') = port (self st) -> db (out st') = db (out st) -> rows_kept st st'.
Proof. intros Hp Hd. split; [assumption|]. intros q. rewrite Hd. split; reflexivity. Qed.

Lemma add_log_rows E message level : keeps rows_kept (add_log E message level).
Proof.
  intros [o w]. unfold add_log, bind, get_self, get_out, put_db, put_out, ret.
  cbn. destruct (temporary o); cbn; (split; [reflexivity|]); intros q; split; reflexivity.
Qed.

Lemma update_status_rows E s : keeps rows_kept (update_status E s).
Proof.
  intros [o w].
  unfold update_status, set_status, bind, get_self, get_out, put_self, put_db, put_out, ret.
  cbn. destruct (temporary o); cbn; (split; [reflexivity|]); intros q; cbn;
    [split; reflexivity|].
  split.
  - intros Hq. apply lookup_alter_ne. congruence.
  - rewrite lookup_alter. destruct (decide (port o = q)) as [->|]; [|reflexivity].
    destruct (servers_tbl (db w) !! q); reflexivity.
Qed.

(** X2: no method of the life cycle adds or removes a row of [servers] or
    touches the row of another port, and of its own row it changes at most
    the status and the time of the last start: version, type, memory, motd,
    player limit and auto-start flag stay as persisted. *)
Theorem rows_of_others_untouched (E : env) (st : state) :
  rows_kept st (start E st).1 /\ rows_kept st (stop E st).1
  /\ rows_kept st (restart E st).1
  /\ (forall c, rows_kept st (send_command E c st).1)
  /\ (forall lines fin, rows_kept st (monitor_output E lines fin st).1)
  /\ rows_kept st (download_server E st).1
  /\ rows_kept st (get_available_versions E st).1.
Proof.
  apply life_all; try exact _; intros;
    first [apply add_log_rows | apply update_status_rows
          | intros [o w]; apply rows_kept_db; reflexivity].
Qed.

(** X3: [stop] returns True exactly when the object holds a process handle,
    its status is not "stopped" and the process is still running.  When it
    returns False, the status, its history and the handle are as before:
    in particular the handle of a process that has already exited is kept,
    and nothing is written or signalled to the process. *)
Theorem stop_result (E : env) (st : state) :
  ((stop E st).2 = Val true <->
   exists p, process (self st) = Some p /\ alive p = true /\ status (self st) <> Stopped)
  /\ ((stop E st).2 = Val false ->
      same_status st (stop E st).1 /\ effects (out (stop E st).1) = effects (out st)).
Proof.
  unfold stop. rewrite bind_get_self.
  destruct (process (self st)) as [p|] eqn:Hp.
  2:{ cbn. split; [split; [discriminate|intros (p & ? & _); discriminate]|].
      intros _. split; reflexivity. }
  destruct (bool_decide (status (self st) = Stopped)) eqn:Hst.
  { apply bool_decide_eq_true in Hst. cbn.
    split; [split; [discriminate|intros (q & _ & _ & H); contradiction]|].
    intros _. split; reflexivity. }
  apply bool_decide_eq_false in Hst. unfold try_except.
  destruct (alive p) eqn:Halive.
  - destruct (stop_body_alive E p st Halive) as (k & st' & _ & Heq & _).
    rewrite Heq. cbn. split; [split; eauto|discriminate].
  - unfold stop_body, stdin_write. rewrite Halive. cbn.
    rewrite bind_unit by auto with returns. cbn [ret fst snd].
    split; [split; [discriminate|intros (q & Hq & Ha & _); congruence]|].
    intros _. split; [apply add_log_status|apply add_log_effects].
Qed.

(** X4: [start] returns True only from a status other than "running", and
    then the status is "starting" and a handle is held; when it returns
    False the handle is the one held before and the status is as before or
    "error"; it never raises.  On a "running" server it returns False and
    changes nothing at all. *)
Theorem start_result (E : env) (st : state) :
  match (start E st).2 with
  | Val true => status (self st) <> Running /\ started st (start E st).1
  | Val false =>
      process (self (start E st).1) = process (self st)
      /\ (status (self (start E st).1) = status (self st)
          \/ status (self (start E st).1) = Error)
  | Raise _ => False
  end
  /\ (status (self st) = Running -> start E st = (st, Val false)).
Proof.
  unfold start. rewrite bind_get_self.
  destruct (bool_decide (status (self st) = Running)) eqn:Hrun.
  { cbn. split; [auto|reflexivity]. }
  apply bool_decide_eq_false in Hrun. split; [|intros; contradiction].
  assert (starts (server_dir <- start_prologue E;;
                  jar_path <- download_server E;; launch E server_dir jar_path)) as Hbody.
  { apply starts_bind; [frame|intros ?].
    apply starts_bind; [frame|intros ?]. apply launch_starts. }
  specialize (Hbody st). unfold try_except.
  destruct ((server_dir <- start_prologue E;; _) st) as [st1 [[|]|e]]; cbn in Hbody |- *.
  - auto.
  - destruct Hbody as (H1 & _ & H3 & _). auto.
  - destruct Hbody as (H1 & H2 & H3 & H4 & H5).
    rewrite !bind_unit by auto with returns. cbn [ret fst snd].
    split; proj; auto.
Qed.

(** X5: [send_command] returns True exactly when a handle is held, the
    status is "running" and the process is still running; the only effect
    is then one write of the command and a newline to the process.  When it
    returns False nothing is written and the status and handle are kept. *)
Theorem send_command_result (E : env) (c : pystr) (st : state) :
  ((send_command E c st).2 = Val true <->
   exists p, process (self st) = Some p /\ alive p = true /\ status (self st) = Running)
  /\ ((send_command E c st).2 = Val true ->
      (send_command E c st).1 = add_effects [StdinWrite (c ++ [10%N])] st)
  /\ ((send_command E c st).2 = Val false ->
      same_status st (send_command E c st).1
      /\ effects (out (send_command E c st).1) = effects (out st)).
Proof.
  unfold send_command. rewrite bind_get_self.
  destruct (process (self st)) as [p|] eqn:Hp.
  2:{ cbn. split; [split; [discriminate|intros (p & ? & _); discriminate]|].
      split; [discriminate|]. intros _. split; reflexivity. }
  destruct (bool_decide (status (self st) = Running)) eqn:Hst; cbn [negb].
  2:{ apply bool_decide_eq_false in Hst. cbn.
      split; [split; [discriminate|intros (q & _ & _ & H); contradiction]|].
      split; [discriminate|]. intros _. split; reflexivity. }
  apply bool_decide_eq_true in Hst. unfold try_except, stdin_write.
  destruct (alive p) eqn:Halive.
  - rewrite bind_unit by auto with returns. cbn [ret fst snd].
    split; [split; eauto|]. split; [reflexivity|discriminate].
  - cbn. rewrite bind_unit by auto with returns. cbn [ret fst snd].
    split; [split; [discriminate|intros (q & Hq & Ha & _); congruence]|].
    split; [discriminate|]. intros _. split; [apply add_log_status|apply add_log_effects].
Qed.

(** [stop] on a handle whose process has exited. *)
Lemma stop_dead (E : env) (st : state) (p : Popen) :
  process (self st) = Some p -> alive p = false ->
  (stop E st).2 = Val false /\ same_status st (stop E st).1.
Proof.
  intros Hp Hdead. unfold stop. rewrite bind_get_self, Hp.
  destruct (bool_decide (status (self st) = Stopped)).
  { cbn. split; reflexivity. }
  unfold try_except, stop_body, stdin_write. rewrite Hdead. cbn.
  rewrite bind_unit by auto with returns. cbn [ret fst snd].
  split; [reflexivity|apply add_log_status].
Qed.

(** [start] on a running server. *)
Lemma start_running (E : env) (st : state) :
  status (self st) = Running -> start E st = (st, Val false).
Proof.
  intros Hrun. unfold start. rewrite bind_get_self.
  rewrite (bool_decide_eq_true_2 _ Hrun). reflexivity.
Qed.

(** X6: a server whose process has exited while its status is "running"
    cannot be recovered through its own operations: [stop] fails on the
    broken pipe without clearing the handle, [start] refuses because the
    status is "running", [send_command] fails, and [restart], which is the
    two in a row, returns False and leaves the server "running" with the
    dead handle. *)
Theorem crashed_server_stuck (E : env) (st : state) (p : Popen) :
  status (self st) = Running ->
  process (self st) = Some p ->
  alive p = false ->
  (stop E st).2 = Val false
  /\ (start E st).2 = Val false
  /\ (forall c, (send_command E c st).2 = Val false)
  /\ (restart E st).2 = Val false
  /\ status (self (restart E st).1) = Running
  /\ process (self (restart E st).1) = Some p.
Proof.
  intros Hrun Hp Hdead.
  destruct (stop_dead E st p Hp Hdead) as (Hstop & S1 & _ & S3 & _).
  split; [exact Hstop|].
  split; [rewrite (start_running E st Hrun); reflexivity|].
  split.
  { intros c. unfold send_command. rewrite bind_get_self, Hp.
    rewrite (bool_decide_eq_true_2 _ Hrun). cbn [negb].
    unfold try_except, stdin_write. rewrite Hdead. cbn.
    rewrite bind_unit by auto with returns. reflexivity. }
  unfold restart.
  rewrite (bind_ignore _ _ _ (returns_stop E)), (bind_ignore _ _ _ (returns_act (Sleep 5))).
  assert (status (self (act (Sleep 5) (stop E st).1).1) = Running) as Hr
    by (rewrite act_self; congruence).
  rewrite (start_running E _ Hr). cbn [fst snd].
  rewrite act_self. repeat split; congruence.
Qed.

Lemma crashed_server_stuck_witness :
  (restart Sample.online Sample.crashed).2 = Val false
  /\ status (self (restart Sample.online Sample.crashed).1) = Running.
Proof.
  destruct (crashed_server_stuck Sample.online Sample.crashed Sample.dead)
    as (_ & _ & _ & H1 & H2 & _).
  - vm_compute; reflexivity.
  - vm_compute; reflexivity.
  - reflexivity.
  - split; [exact H1|exact H2].
Defined.

(** *** What the methods return *)

Lemma yields_ret {A} (P : A -> Prop) a : P a -> yields P (ret a).
Proof. intros H st. exact H. Qed.

Lemma yields_raise {A} (P : A -> Prop) msg : yields P (raise msg).
Proof. intros st. exact I. Qed.

Lemma yields_bind {A B} (P : B -> Prop) (m : M A) (k : A -> M B) :
  (forall a, yields P (k a)) -> yields P (bind m k).
Proof.
  intros Hk st. unfold bind. destruct (m st) as [st' [a|e]]; [apply Hk|exact I].
Qed.

Lemma yields_try {A} (P : A -> Prop) (m : M A) (h : exn -> M A) :
  yields P m -> (forall e, yields P (h e)) -> yields P (try_except m h).
Proof.
  intros Hm Hh st. unfold try_except. specialize (Hm st).
  destruct (m st) as [st' [a|e]]; [exact Hm|apply Hh].
Qed.

Lemma yields_slice20 v :
  yields (fun j => forall l, j = JArr l -> (length l <= 20)%nat) (slice20 v).
Proof.
  destruct v; intros st; cbn; try exact I; intros l' Hl; try discriminate.
  injection Hl as <-. rewrite length_take. lia.
Qed.

Lemma yields_take20 l :
  yields (fun j => forall l', j = JArr l' -> (length l' <= 20)%nat) (ret (JArr (take 20 l))).
Proof. apply yields_ret. intros l' Hl. injection Hl as <-. rewrite length_take. lia. Qed.

Lemma returns_get_available_versions E : returns (get_available_versions E).
Proof.
  unfold get_available_versions. apply returns_try. intros e.
  apply returns_bind; [apply returns_add_log|intros; apply returns_ret].
Qed.

(** X7: [get_available_versions] never raises, and a list it returns has at
    most 20 versions; for a server type that is not in REPOSITORIES it
    returns the empty list without making a request. *)
Theorem available_versions_bounded (E : env) (st : state) :
  exists j,
    (get_available_versions E st).2 = Val j
    /\ (forall l, j = JArr l -> (length l <= 20)%nat)
    /\ (REPOSITORIES (server_type (self st)) = None ->
        j = JArr [] /\ (get_available_versions E st).1 = st).
Proof.
  destruct (returns_get_available_versions E st) as [j Hj]. exists j.
  split; [exact Hj|]. split.
  - assert (yields (fun j => forall l, j = JArr l -> (length l <= 20)%nat)
              (get_available_versions E)) as Y.
    { unfold get_available_versions, versions_of.
      apply yields_try.
      - repeat first
          [ apply yields_take20 | apply yields_slice20 | apply yields_raise
          | apply yields_ret; intros ? Hl; injection Hl as <-; cbn; lia
          | apply yields_bind; intros ?
          | match goal with
            | |- yields _ (match ?x with _ => _ end) => destruct x
            end ].
      - intros e. apply yields_bind. intros _. apply yields_ret.
        intros ? Hl; injection Hl as <-; cbn; lia. }
    specialize (Y st). rewrite Hj in Y. exact Y.
  - intros Hnone. revert Hj. unfold get_available_versions, try_except.
    rewrite bind_get_self, Hnone. cbn. intros Hj. injection Hj as <-. auto.
Qed.

(** *** Reuse of a downloaded jar *)

Lemma download_server_cached_witness :
  (download_server Sample.online (download_server Sample.online Sample.paper_new).1).2
  = Val (Some (path_join (get_full_path Sample.online [Py.lit "servers"; Py.str_of_Z 25565])
                 (Py.lit "paper-1.20.1.jar"))).
Proof.
  refine (proj1 (download_server_cached Sample.online
                   (download_server Sample.online Sample.paper_new).1
                   {| repo_name := Py.lit "PaperMC Official";
                      repo_url := Py.lit "https://api.papermc.io/v2/projects/paper";
                      repo_kind := Papermc |} _ _ _ _)).
  - vm_compute; reflexivity.
  - discriminate.
  - intros bytes. vm_compute. discriminate.
  - eexists. vm_compute. reflexivity.
Defined.

#[local] Instance only_requests_pre : PreOrder only_requests.
Proof.
  split.
  - intros st. repeat split.
  - intros a b c (?&?&?&?) (?&?&?&?). repeat split; congruence.
Qed.

Lemma requests_get_only E url : keeps only_requests (requests_get E url).
Proof. intros [o w]. repeat split. Qed.

Lemma resolve_only E repo server_dir jar_name jar_path :
  keeps only_requests (resolve E repo server_dir jar_name jar_path).
Proof. apply keeps_resolve; [exact _|apply requests_get_only]. Qed.

Lemma requests_get_value_only E u : keeps only_requests (requests_get_value E u).
Proof. apply keeps_requests_get_value; [exact _|apply requests_get_only]. Qed.

(** Outside the fabric branch, [resolve] hands back the name and path it
    was given. *)
Lemma resolve_keeps_path E repo server_dir jar_name jar_path :
  repo_kind repo <> Fabric ->
  yields (fun r => r.1.2 = jar_name /\ r.2 = jar_path)
         (resolve E repo server_dir jar_name jar_path).
Proof.
  intros Hkind. unfold resolve. apply yields_bind. intros o.
  destruct (repo_kind repo); try contradiction;
    repeat first
      [ apply yields_raise
      | apply yields_ret; split; reflexivity
      | apply yields_bind; intros ?
      | match goal with
        | |- yields _ (match ?x with _ => _ end) => destruct x
        end ].
Qed.

Lemma bind_inv {A B} (m : M A) (k : A -> M B) st st' b :
  bind m k st = (st', Val b) ->
  exists st1 a, m st = (st1, Val a) /\ k a st1 = (st', Val b).
Proof.
  unfold bind. destruct (m st) as [st1 [a|e]]; [eauto|discriminate].
Qed.

Lemma add_log_fs E message level st : fs (out (add_log E message level st).1) = fs (out st).
Proof. unfold add_log, bind, get_self. projection. Qed.

Lemma add_log_requests E message level st :
  requests (out (add_log E message level st).1) = requests (out st).
Proof. unfold add_log, bind, get_self. projection. Qed.

Lemma add_log_val E message level st st' u :
  add_log E message level st = (st', Val u) -> st' = (add_log E message level st).1.
Proof. intros ->. reflexivity. Qed.

Lemma makedirs_val p st sa u :
  makedirs p st = (sa, Val u) ->
  self sa = self st /\ fs (out sa) = <[p := Dir]> (fs (out st)).
Proof.
  destruct st as [o w]. unfold makedirs, bind, get_out, put_fs, put_out, raise, ret. cbn.
  destruct (fs w !! p) as [[|bytes]|]; intros H; try discriminate;
    injection H as <- _; auto.
Qed.

Lemma write_chunks_val p r st sf u :
  write_chunks p r st = (sf, Val u) ->
  self sf = self st /\ fs (out sf) = <[p := File (concat (chunks r))]> (fs (out st)).
Proof.
  destruct st as [o w]. unfold write_chunks, bind, get_out, put_fs, put_out, raise, ret. cbn.
  destruct (fs w !! p) as [[|bytes]|]; try discriminate;
    destruct (broken r); intros H; try discriminate; injection H as <- _; auto.
Qed.

(** What a successful [download_server] leaves behind, outside the fabric
    and modpack branches: the jar is at the path that is tested for an
    existing jar, and the server directory is a directory. *)
Lemma download_server_some (E : env) (st st1 : state) (repo : repository) (p : pystr) :
  let server_dir := get_full_path E [Py.lit "servers"; Py.str_of_Z (port (self st))] in
  let jar_path := path_join server_dir (jar_name_of (self st)) in
  REPOSITORIES (server_type (self st)) = Some repo ->
  repo_kind repo <> Modrinth ->
  repo_kind repo <> Fabric ->
  download_server E st = (st1, Val (Some p)) ->
  p = jar_path
  /\ self st1 = self st
  /\ is_Some (fs (out st1) !! jar_path)
  /\ (forall bytes, fs (out st1) !! server_dir <> Some (File bytes)).
Proof.
  intros server_dir jar_path Hrepo Hmod Hfab Hrun.
  unfold download_server, try_except in Hrun.
  match type of Hrun with
  | match ?m st with _ => _ end = _ => destruct (m st) as [st' [a|e]] eqn:Hbody
  end.
  2:{ rewrite bind_unit in Hrun by auto with returns. discriminate. }
  injection Hrun as -> ->.
  rewrite bind_get_self in Hbody. cbv zeta in Hbody. fold server_dir in Hbody.
  apply bind_inv in Hbody as (sa & [] & Hmk & Hbody).
  apply makedirs_val in Hmk as (Hsa & Hfa).
  rewrite Hrepo, (bool_decide_eq_false_2 _ Hmod) in Hbody. fold jar_path in Hbody.
  apply bind_inv in Hbody as (sb & ex & Hex & Hbody).
  unfold path_exists, bind, get_out, ret in Hex. injection Hex as <- <-.
  destruct (bool_decide (is_Some (fs (out sa) !! jar_path))) eqn:Hthere.
  - apply bool_decide_eq_true in Hthere.
    apply bind_inv in Hbody as (sc & [] & Hlog & Hbody).
    apply add_log_val in Hlog as ->. injection Hbody as <- <-.
    rewrite add_log_self, add_log_fs.
    repeat split; auto. intros bytes. rewrite Hfa, lookup_insert_eq. discriminate.
  - apply bool_decide_eq_false in Hthere.
    apply bind_inv in Hbody as (sc & [] & Hlog & Hbody).
    apply add_log_val in Hlog as ->.
    apply bind_inv in Hbody as (sd & r & Hres & Hbody).
    pose proof (resolve_keeps_path E repo server_dir (jar_name_of (self st)) jar_path Hfab
                  (add_log E (Py.lit "Downloading " ++ server_type (self st)
                              ++ Py.lit " version " ++ version (self st)) INFO sa).1) as Hpath.
    pose proof (resolve_only E repo server_dir (jar_name_of (self st)) jar_path
                  (add_log E (Py.lit "Downloading " ++ server_type (self st)
                              ++ Py.lit " version " ++ version (self st)) INFO sa).1) as Hsd.
    rewrite Hres in Hpath, Hsd. cbn [fst snd] in Hpath, Hsd.
    destruct r as [[url n] pth]. cbn [fst snd] in Hpath. destruct Hpath as [-> ->].
    destruct Hsd as (Hsd1 & _ & Hsd3 & _).
    destruct (truthy url); [|discriminate]. cbn [negb] in Hbody.
    apply bind_inv in Hbody as (se & response & Hget & Hbody).
    pose proof (requests_get_value_only E url sd) as Hse. rewrite Hget in Hse.
    destruct Hse as (Hse1 & _ & Hse3 & _). cbn [fst] in Hse1, Hse3.
    destruct (status_code response =? 200); [|discriminate]. cbn [negb] in Hbody.
    apply bind_inv in Hbody as (sf & [] & Hwrite & Hbody).
    apply write_chunks_val in Hwrite as (Hsf & Hff).
    apply bind_inv in Hbody as (sg & [] & Hlog & Hbody).
    apply add_log_val in Hlog as ->. injection Hbody as <- <-.
    rewrite add_log_self, add_log_fs, Hff, Hse3, Hsd3, add_log_fs, Hfa.
    split; [reflexivity|]. split; [rewrite Hsf, Hse1, Hsd1, add_log_self; exact Hsa|].
    split; [rewrite lookup_insert_eq; eauto|].
    intros bytes Hb. rewrite lookup_insert in Hb.
    destruct (decide (jar_path = server_dir)) as [Heq|Hne].
    + apply Hthere. rewrite Hfa, Heq, lookup_insert_eq. eauto.
    + rewrite lookup_insert_eq in Hb. discriminate.
Qed.

(** X9: for vanilla, paper, purpur and velocity, asking twice fetches once:
    after a [download_server] that returned a path, the next call returns
    the same path without making a request, whatever the network would
    answer by then. *)
Theorem download_twice_fetches_once (E : env) (st st1 : state) (repo : repository)
    (p : pystr) :
  REPOSITORIES (server_type (self st)) = Some repo ->
  repo_kind repo <> Modrinth ->
  repo_kind repo <> Fabric ->
  download_server E st = (st1, Val (Some p)) ->
  (download_server E st1).2 = Val (Some p)
  /\ requests (out (download_server E st1).1) = requests (out st1).
Proof.
  intros Hrepo Hmod Hfab Hrun.
  destruct (download_server_some E st st1 repo p Hrepo Hmod Hfab Hrun)
    as (-> & Hself & Hjar & Hdir).
  pose proof (download_server_cached E st1 repo) as Hc. cbv zeta in Hc.
  rewrite Hself in Hc. apply Hc; assumption.
Qed.

Lemma download_twice_fetches_once_witness :
  requests (out (download_server Sample.online
                   (download_server Sample.online Sample.paper_new).1).1)
  = requests (out (download_server Sample.online Sample.paper_new).1).
Proof.
  refine (proj2 (download_twice_fetches_once Sample.online Sample.paper_new
                   (download_server Sample.online Sample.paper_new).1
                   {| repo_name := Py.lit "PaperMC Official";
                      repo_url := Py.lit "https://api.papermc.io/v2/projects/paper";
                      repo_kind := Papermc |}
                   (Py.lit "/app/servers/25565/paper-1.20.1.jar") _ _ _ _)).
  - vm_compute; reflexivity.
  - discriminate.
  - discriminate.
  - vm_compute; reflexivity.
Defined.

(** *** The log and the configuration under the life cycle *)

#[local] Instance logs_own_pre : PreOrder logs_own.
Proof.
  split.
  - intros st. split; [reflexivity|]. exists []. rewrite app_nil_r. auto.
  - intros a b c [Hp1 (l1 & H1 & F1)] [Hp2 (l2 & H2 & F2)]. split; [congruence|].
    exists (l1 ++ l2). rewrite H2, H1, app_assoc. split; [reflexivity|].
    apply Forall_app. split; [assumption|]. rewrite <- Hp1. assumption.
Qed.

#[local] Instance same_config_pre : PreOrder same_config.
Proof.
  split.
  - intros st. repeat split.
  - intros a b c (?&?&?&?&?&?&?&?) (?&?&?&?&?&?&?&?). repeat split; congruence.
Qed.

Lemma logs_own_same st st' :
  port (self st') = port (self st) ->
  server_logs (db (out st')) = server_logs (db (out st)) -> logs_own st st'.
Proof. intros Hp Hl. split; [assumption|]. exists []. rewrite app_nil_r. auto. Qed.

Lemma add_log_own E message level : keeps logs_own (add_log E message level).
Proof.
  intros [o w]. unfold add_log, bind, get_self, get_out, put_db, put_out, ret.
  cbn. destruct (temporary o); cbn; [reflexivity|].
  split; [reflexivity|]. eexists. split; [reflexivity|]. repeat constructor.
Qed.

Lemma update_status_own E s : keeps logs_own (update_status E s).
Proof.
  intros [o w]. apply logs_own_same;
    unfold update_status, set_status, bind, get_self, get_out, put_self, put_db, put_out, ret;
    cbn; destruct (temporary o); reflexivity.
Qed.

(** X1: the log table is append-only under every method of the life
    cycle, and the rows a method adds carry the port of its own object:
    what [start], [stop], [restart], [send_command], the reader,
    [download_server] and [get_available_versions] find in [server_logs] is
    still there afterwards, in the same order, before what they add. *)
Theorem logs_append_own_rows (E : env) (st : state) :
  logs_own st (start E st).1 /\ logs_own st (stop E st).1
  /\ logs_own st (restart E st).1
  /\ (forall c, logs_own st (send_command E c st).1)
  /\ (forall lines fin, logs_own st (monitor_output E lines fin st).1)
  /\ logs_own st (download_server E st).1
  /\ logs_own st (get_available_versions E st).1.
Proof.
  apply life_all; try exact _; intros;
    first [apply add_log_own | apply update_status_own
          | intros [o w]; apply logs_own_same; reflexivity].
Qed.

Lemma same_config_self st st' : self st' = self st -> same_config st st'.
Proof. intros H. unfold same_config. rewrite H. repeat split. Qed.

Lemma add_log_config E message level : keeps same_config (add_log E message level).
Proof. intros st. apply same_config_self, add_log_self. Qed.

Lemma update_status_config E s : keeps same_config (update_status E s).
Proof.
  intros [o w].
  unfold update_status, set_status, bind, get_self, get_out, put_self, put_db, put_out, ret.
  cbn. destruct (temporary o) eqn:Ht; cbn; repeat split; auto.
Qed.

(** The configuration of the object is not changed by the life cycle. *)
Lemma config_kept (E : env) (st : state) :
  same_config st (start E st).1 /\ same_config st (stop E st).1
  /\ same_config st (restart E st).1
  /\ (forall c, same_config st (send_command E c st).1)
  /\ (forall lines fin, same_config st (monitor_output E lines fin st).1)
  /\ same_config st (download_server E st).1
  /\ same_config st (get_available_versions E st).1.
Proof.
  apply life_all; try exact _; intros;
    first [apply add_log_config | apply update_status_config
          | intros [o w]; repeat split].
Qed.

(** *** The reader and the log *)

Lemma add_log_logs E message level st :
  temporary (self st) = false ->
  server_logs (db (out (add_log E message level st).1))
  = server_logs (db (out st))
    ++ [{| log_port := port (self st);
           log_text := Py.lit "[" ++ now E ++ Py.lit "] " ++ message;
           log_level := level |}].
Proof.
  destruct st as [o w]. cbn. intros Ht.
  unfold add_log, bind, get_self, get_out, put_db, put_out, ret. cbn. rewrite Ht. reflexivity.
Qed.

Lemma monitor_line_plain E line st :
  plain_line line ->
  monitor_line E line st
  = if negb (bool_decide (Py.strip line = []))
    then ((add_log E (Py.strip line) INFO st).1, Val tt) else (st, Val tt).
Proof.
  intros [H1 H2]. unfold monitor_line. rewrite H1, H2.
  destruct (negb _); [|reflexivity].
  rewrite bind_unit by auto with returns. reflexivity.
Qed.

(** X8: the reader turns the output into log rows line by line and in
    order: for lines carrying neither signature, a server that is not
    temporary gets exactly one INFO row per non-blank line, holding the
    stripped line behind the time stamp, appended in the order the lines
    were read; blank lines leave no trace and the object is not touched. *)
Theorem reader_logs_lines_in_order (E : env) (st : state) (lines : list pystr) :
  temporary (self st) = false ->
  Forall plain_line lines ->
  server_logs (db (out (monitor_output E lines Closed st).1))
  = server_logs (db (out st))
    ++ (info_row E (port (self st))
          <$> filter (fun l => l <> []) (Py.strip <$> lines))
  /\ self (monitor_output E lines Closed st).1 = self st.
Proof.
  intros Ht Hall. revert st Ht.
  induction Hall as [|line lines Hline _ IH]; intros st Ht.
  - cbn. rewrite app_nil_r. auto.
  - rewrite monitor_output_cons, (monitor_line_plain E line st Hline).
    rewrite fmap_cons, filter_cons.
    destruct (decide (Py.strip line <> [])) as [Hne|He].
    + rewrite (bool_decide_eq_false_2 _ Hne). cbn [negb].
      destruct (IH (add_log E (Py.strip line) INFO st).1) as [IH1 IH2].
      { rewrite add_log_self. exact Ht. }
      rewrite IH1, IH2, add_log_self, (add_log_logs _ _ _ _ Ht), <- app_assoc.
      split; reflexivity.
    + assert (Py.strip line = []) as Hnil by (destruct (Py.strip line); [reflexivity|exfalso; apply He; discriminate]).
      rewrite (bool_decide_eq_true_2 _ Hnil). cbn [negb]. apply IH. exact Ht.
Qed.

Lemma reader_logs_lines_in_order_witness :
  self (monitor_output Sample.online [Py.lit "  hello "; Py.lit "  "; Py.lit "world"]
          Closed Sample.running).1 = self Sample.running.
Proof.
  refine (proj2 (reader_logs_lines_in_order Sample.online Sample.running
                   [Py.lit "  hello "; Py.lit "  "; Py.lit "world"] _ _)).
  - vm_compute; reflexivity.
  - repeat constructor; vm_compute; reflexivity.
Defined.

(** ** Further properties of the HTTP API *)

Lemma unknown_port_not_found_witness :
  handle Sample.offline Delete 25565 Sample.app0 = (Sample.app0, not_found).
Proof.
  apply unknown_port_not_found.
  - vm_compute; reflexivity.
  - intros limit; discriminate.
Defined.

(** X10: GET /api/server/<port>/logs changes nothing.  When the port and
    the limit are integers SQLite can hold (64 bits, signed) it answers 200
    with the most recent lines of that port, oldest first: a final segment
    of the port's lines in the order of insertion, of at most [limit] lines
    when [limit] is not negative and all of them otherwise; every line it
    shows belongs to a row of that port.  When the port or the limit is
    outside that range, the request ends in the error page, code 500. *)
Theorem get_logs_latest (pt limit : Z) (a : app) :
  (get_logs pt limit a).1 = a
  /\ (sqlite_int pt && sqlite_int limit = false ->
      (get_logs pt limit a).2 = {| code := 500; answer := BServerError |})
  /\ (sqlite_int pt && sqlite_int limit = true ->
      exists ls,
        (get_logs pt limit a).2 = {| code := 200; answer := BLogs ls |}
        /\ ls `suffix_of`
             (log_text <$> filter (fun r => log_port r = pt) (server_logs (db (outside a))))
        /\ (0 <= limit -> (length ls <= Z.to_nat limit)%nat)
        /\ (limit < 0 ->
            ls = log_text <$> filter (fun r => log_port r = pt)
                                (server_logs (db (outside a))))
        /\ (forall line, line ∈ ls ->
            exists r, r ∈ server_logs (db (outside a))
                      /\ log_port r = pt /\ log_text r = line)).
Proof.
  unfold get_logs.
  destruct (sqlite_int pt && sqlite_int limit);
    (split; [reflexivity|]); (split; [intros H; try discriminate H; reflexivity|]);
    intros H; try discriminate H.
  eexists. split; [reflexivity|]. unfold last_logs.
  set (l := log_text <$> filter _ _).
  assert ((if limit <? 0 then l else drop (length l - Z.to_nat limit) l) `suffix_of` l) as Hsuf.
  { destruct (limit <? 0); [reflexivity|apply suffix_drop]. }
  split; [exact Hsuf|]. split; [|split].
  - intros Hl. destruct (limit <? 0) eqn:Hneg; [lia|]. rewrite length_drop. lia.
  - intros Hl. apply Z.ltb_lt in Hl. rewrite Hl. reflexivity.
  - intros line Hin. destruct Hsuf as [k Hk].
    assert (line ∈ l) as Hl by (rewrite Hk; apply elem_of_app; auto).
    subst l. apply list_elem_of_fmap in Hl as (r & -> & Hr).
    apply list_elem_of_filter in Hr as [Hp Hr]. eauto.
Qed.

Lemma call_fst {A} (pt : Z) (o : MinecraftServer) (m : M A) (a : app) :
  (call pt o m a).1
  = {| servers := <[pt := self (m {| self := o; out := outside a |}).1]> (servers a);
       outside := out (m {| self := o; out := outside a |}).1 |}.
Proof. unfold call. destruct (m _) as [st r]. reflexivity. Qed.

(** X11: the three creation endpoints answer 400 and change nothing when
    a required entry (port, version, server_type) is missing or falsy, or
    when the port is already in the registry. *)
Theorem creation_rejected (E : env) (d : create_request) (a : app) :
  (required d = None
   \/ exists pt version ty, required d = Some (pt, version, ty)
                           /\ is_Some (servers a !! pt)) ->
  ((create_server_route E d a).1 = a /\ code (create_server_route E d a).2 = 400)
  /\ ((servers_handler_post E d a).1 = a /\ code (servers_handler_post E d a).2 = 400)
  /\ ((api_create_server E d a).1 = a /\ code (api_create_server E d a).2 = 400).
Proof.
  unfold create_server_route, servers_handler_post, api_create_server.
  intros [Hnone|(pt & version & ty & Hreq & Hthere)].
  - rewrite Hnone. cbn. auto.
  - rewrite Hreq, (bool_decide_eq_true_2 _ Hthere). cbn. auto.
Qed.

Lemma creation_rejected_witness :
  (create_server_route Sample.offline
     {| cr_port := Some 0; cr_version := Some (Py.lit "1.20.1");
        cr_server_type := Some (Py.lit "paper"); cr_memory := None;
        cr_max_players := None; cr_motd := None; cr_auto_start := None;
        cr_mrpack_file_id := None |} Sample.app0).1 = Sample.app0.
Proof.
  refine (proj1 (proj1 (creation_rejected Sample.offline _ Sample.app0 _))).
  left. reflexivity.
Defined.

Lemma state_eta st : {| self := self st; out := out st |} = st.
Proof. destruct st; reflexivity. Qed.

(** [start] and [stop], taken alone. *)
Lemma start_same_config (E : env) (st : state) : same_config st (start E st).1.
Proof.
  apply life_start; try exact _; intros;
    first [apply add_log_config | apply update_status_config
          | intros [o w]; repeat split].
Qed.

Lemma start_rows_kept (E : env) (st : state) : rows_kept st (start E st).1.
Proof.
  apply life_start; try exact _; intros;
    first [apply add_log_rows | apply update_status_rows
          | intros [o w]; apply rows_kept_db; reflexivity].
Qed.

Lemma stop_logs_own (E : env) (st : state) : logs_own st (stop E st).1.
Proof.
  apply life_stop; try exact _; intros;
    first [apply add_log_own | apply update_status_own
          | intros [o w]; apply logs_own_same; reflexivity].
Qed.

Lemma stop_rows_kept (E : env) (st : state) : rows_kept st (stop E st).1.
Proof.
  apply life_stop; try exact _; intros;
    first [apply add_log_rows | apply update_status_rows
          | intros [o w]; apply rows_kept_db; reflexivity].
Qed.

(** What [register] leaves in the registry and in the row of the port. *)
Lemma register_kept (E : env) (pt : Z) (d : create_request) (st : state) (a : app) :
  port (self st) = pt ->
  let a' := (register E pt d st a).1 in
  (exists o, servers a' !! pt = Some o
             /\ same_config st {| self := o; out := outside a' |})
  /\ settings_of <$> servers_tbl (db (outside a')) !! pt
     = settings_of <$> servers_tbl (db (out st)) !! pt.
Proof.
  intros Hp. unfold register. cbn [fst].
  destruct (default false (cr_auto_start d)).
  - rewrite call_fst. cbn [servers outside]. rewrite state_eta.
    pose proof (start_same_config E st) as Hc.
    pose proof (start_rows_kept E st) as (_ & Hr).
    split.
    + eexists. rewrite lookup_insert_eq. split; [reflexivity|]. exact Hc.
    + apply Hr.
  - cbn. split; [|reflexivity].
    eexists. rewrite lookup_insert_eq. split; [reflexivity|]. repeat split.
Qed.

(** [_save_to_db] on a player limit that SQLite can hold, and on one it
    cannot. *)
Lemma save_to_db_val (st : state) :
  sqlite_int (max_players (self st)) = true ->
  exists st',
    _save_to_db st = (st', Val tt)
    /\ self st' = self st
    /\ servers_tbl (db (out st')) !! port (self st)
       = Some {| row_version := version (self st);
                 row_server_type := server_type (self st);
                 row_status := status (self st); row_memory := memory (self st);
                 row_motd := motd (self st); row_max_players := max_players (self st);
                 row_auto_start := auto_start (self st); row_last_started := None |}
    /\ (forall q, q <> port (self st) ->
          servers_tbl (db (out st')) !! q = servers_tbl (db (out st)) !! q)
    /\ server_logs (db (out st')) = server_logs (db (out st)).
Proof.
  intros H. unfold _save_to_db. rewrite bind_get_self, H. cbn.
  eexists. split; [reflexivity|]. cbn. rewrite lookup_insert_eq.
  repeat split. intros q Hq. apply lookup_insert_ne. congruence.
Qed.

Lemma save_to_db_raise (st : state) :
  sqlite_int (max_players (self st)) = false ->
  _save_to_db st = (st, Raise (Exn too_large)).
Proof.
  intros H. unfold _save_to_db. rewrite bind_get_self, H. reflexivity.
Qed.



Lemma filter_none {A} (P : A -> Prop) `{!forall x, Decision (P x)} (l : list A) :
  Forall (fun x => ~ P x) l -> filter P l = [].
Proof.
  induction 1 as [|x l Hx _ IH]; [reflexivity|].
  rewrite filter_cons_False by assumption. exact IH.
Qed.




#[local] Instance same_fs_pre : PreOrder same_fs.
Proof.
  split.
  - intros st. reflexivity.
  - intros x y z Hxy Hyz. unfold same_fs in *. congruence.
Qed.

Lemma act_keeps_fs a : keeps same_fs (act a).
Proof. intros [o w]. reflexivity. Qed.
Lemma set_status_keeps_fs s : keeps same_fs (set_status s).
Proof. intros [o w]. reflexivity. Qed.
Lemma set_process_keeps_fs p : keeps same_fs (set_process p).
Proof. intros [o w]. reflexivity. Qed.
Lemma add_log_keeps_fs E message level : keeps same_fs (add_log E message level).
Proof. intros st. apply add_log_fs. Qed.
Lemma update_status_keeps_fs E s : keeps same_fs (update_status E s).
Proof.
  intros [o w].
  unfold update_status, set_status, bind, get_self, get_out, put_self, put_db, put_out, ret.
  cbn. destruct (temporary o); reflexivity.
Qed.

#[local] Hint Resolve act_keeps_fs set_status_keeps_fs set_process_keeps_fs
  add_log_keeps_fs update_status_keeps_fs : frame.

Lemma wait_exit_keeps_fs p n t : keeps same_fs (wait_exit p n t).
Proof. revert t. induction n; intros t; simpl; frame. Qed.

#[local] Hint Resolve wait_exit_keeps_fs : frame.

(** [stop] does not touch the file system. *)
Lemma stop_keeps_fs (E : env) : keeps same_fs (stop E).
Proof. unfold stop, stop_body, stdin_write. frame. Qed.

(** X13: POST /api/server/<port>/delete on a registered server whose port
    SQLite can hold.  When the path of the server directory is not a regular
    file, it answers 200, removes the server from the registry, removes its
    row from [servers] and every row of its port from [server_logs] (also a
    row that the [stop] issued by the deletion has just written); the
    entries, rows and log lines of all other ports are as before, and the
    port is unknown to the API afterwards.  When the path is a regular file,
    [shutil.rmtree] raises and the endpoint answers 500: the server stays
    registered, its row stays, and no log row is deleted. *)
Theorem delete_removes_server (E : env) (pt : Z) (a : app) (server : MinecraftServer) :
  servers a !! pt = Some server ->
  port server = pt ->
  sqlite_int pt = true ->
  let server_dir := get_full_path E [Py.lit "servers"; Py.str_of_Z pt] in
  let r := delete_server E pt a in
  ((forall bytes, fs (outside a) !! server_dir <> Some (File bytes)) ->
   code r.2 = 200
   /\ servers r.1 !! pt = None
   /\ servers_tbl (db (outside r.1)) !! pt = None
   /\ server_logs (db (outside r.1))
      = filter (fun row => log_port row <> pt) (server_logs (db (outside a)))
   /\ (forall q, q <> pt ->
         servers r.1 !! q = servers a !! q
         /\ servers_tbl (db (outside r.1)) !! q = servers_tbl (db (outside a)) !! q)
   /\ handle E Status pt r.1 = (r.1, not_found))
  /\ (forall bytes, fs (outside a) !! server_dir = Some (File bytes) ->
      code r.2 = 500
      /\ is_Some (servers r.1 !! pt)
      /\ settings_of <$> servers_tbl (db (outside r.1)) !! pt
         = settings_of <$> servers_tbl (db (outside a)) !! pt
      /\ server_logs (db (outside a)) `prefix_of` server_logs (db (outside r.1))
      /\ fs (outside r.1) = fs (outside a)).
Proof.
  intros Hs Hp Hpt. cbv zeta. unfold delete_server. rewrite Hs.
  pose proof (stop_logs_own E {| self := server; out := outside a |}) as (_ & l & Hl & Hown).
  pose proof (stop_rows_kept E {| self := server; out := outside a |}) as (_ & Hrows).
  pose proof (stop_keeps_fs E {| self := server; out := outside a |}) as Hfs.
  unfold same_fs in Hfs.
  cbn [self out port] in Hl, Hown, Hrows, Hfs. rewrite Hp in Hown, Hrows.
  assert (filter (fun row => log_port row <> pt) l = []) as Hnone.
  { apply filter_none. eapply Forall_impl; [exact Hown|]. cbn. intros r Hr Hne. auto. }
  rewrite Hpt. cbn [negb].
  destruct (negb (bool_decide (status server = Stopped))).
  - rewrite call_fst. cbn [outside]. rewrite Hfs.
    split.
    + intros Hdir.
      destruct (fs (outside a) !! get_full_path E [Py.lit "servers"; Py.str_of_Z pt])
        as [[|bytes]|] eqn:Hnode; [|exfalso; eapply Hdir; reflexivity|];
        cbn [fst snd code servers outside db server_logs servers_tbl];
        (split; [reflexivity|]); (split; [apply lookup_delete_eq|]);
        (split; [apply lookup_delete_eq|]);
        (split; [rewrite Hl, filter_app, Hnone, app_nil_r; reflexivity|]);
        (split;
         [intros q Hq; rewrite !lookup_delete_ne, lookup_insert_ne by congruence;
          split; [reflexivity|]; apply Hrows; exact Hq
         |unfold handle, get_status; cbn [servers]; rewrite lookup_delete_eq; reflexivity]).
    + intros bytes Hfile. rewrite Hfile.
      cbn [fst snd code servers outside]. split; [reflexivity|].
      split; [rewrite lookup_insert_eq; eauto|].
      split; [apply Hrows|]. split; [rewrite Hl; apply prefix_app_r; reflexivity|exact Hfs].
  - split.
    + intros Hdir.
      destruct (fs (outside a) !! get_full_path E [Py.lit "servers"; Py.str_of_Z pt])
        as [[|bytes]|] eqn:Hnode; [|exfalso; eapply Hdir; reflexivity|];
        cbn [fst snd code servers outside db server_logs servers_tbl];
        (split; [reflexivity|]); (split; [apply lookup_delete_eq|]);
        (split; [apply lookup_delete_eq|]); (split; [reflexivity|]);
        (split;
         [intros q Hq; rewrite !lookup_delete_ne by congruence; auto
         |unfold handle, get_status; cbn [servers]; rewrite lookup_delete_eq; reflexivity]).
    + intros bytes Hfile. rewrite Hfile. cbn [fst snd code].
      split; [reflexivity|]. split; [rewrite Hs; eauto|]. auto.
Qed.

Lemma delete_removes_server_witness :
  servers (delete_server Sample.online 25565
             {| servers := {[ 25565 := self Sample.running ]};
                outside := out Sample.running |}).1 !! 25565 = None.
Proof.
  refine (proj1 (proj2 (proj1 (delete_removes_server Sample.online 25565 _
                                 (self Sample.running) _ _ _) _))).
  - apply lookup_singleton_eq.
  - vm_compute; reflexivity.
  - reflexivity.
  - intros bytes H. vm_compute in H. discriminate H.
Defined.





(** One turn of the loop: the object registered for the row holds the
    values of the row, the row is left with the defaults, and the other
    ports are not touched. *)
Lemma load_row_spec (E : env) (a : app) (p : Z) (r : server_row) :
  let a1 := load_row E a (p, r) in
  (exists o, servers a1 !! p = Some o
             /\ port o = p /\ version o = row_version r
             /\ server_type o = row_server_type r
             /\ memory o = row_memory r /\ motd o = row_motd r
             /\ max_players o = row_max_players r
             /\ auto_start o = row_auto_start r)
  /\ settings_of <$> servers_tbl (db (outside a1)) !! p
     = Some (row_version r, row_server_type r, Py.lit "2G", Py.lit "Minecraft Server",
             20, false)
  /\ (forall q, q <> p ->
        servers a1 !! q = servers a !! q
        /\ servers_tbl (db (outside a1)) !! q = servers_tbl (db (outside a)) !! q).
Proof.
  cbv zeta. unfold load_row. cbn [fst snd].
  set (st := rehydrate r (__init__ p (row_version r) (row_server_type r) false (outside a))).
  assert (settings_of <$> servers_tbl (db (out st)) !! p
          = Some (row_version r, row_server_type r, Py.lit "2G",
                  Py.lit "Minecraft Server", 20, false)) as Hrow.
  { subst st. cbn. rewrite lookup_insert_eq. reflexivity. }
  assert (forall q, q <> p ->
            servers_tbl (db (out st)) !! q = servers_tbl (db (outside a)) !! q) as Hothers.
  { intros q Hq. subst st. cbn. apply lookup_insert_ne. congruence. }
  assert (port (self st) = p) as Hport by reflexivity.
  destruct (auto_start (self st) && bool_decide (status (self st) = Stopped)).
  - rewrite call_fst. cbn [servers outside self out].
    pose proof (start_same_config E st) as (H1 & H2 & H3 & H4 & H5 & H6 & H7 & _).
    pose proof (start_rows_kept E st) as (_ & Hk).
    rewrite Hport in Hk.
    replace {| self := self st; out := out st |} with st by (destruct st; reflexivity).
    split; [|split].
    + eexists. rewrite lookup_insert_eq. split; [reflexivity|].
      rewrite H1, H2, H3, H4, H5, H6, H7. subst st. repeat split.
    + rewrite (proj2 (Hk p)). exact Hrow.
    + intros q Hq. rewrite !lookup_insert_ne by congruence. split; [reflexivity|].
      rewrite (proj1 (Hk q) Hq). apply Hothers, Hq.
  - cbn [servers outside].
    split; [|split].
    + eexists. rewrite lookup_insert_eq. split; [reflexivity|]. subst st. repeat split.
    + exact Hrow.
    + intros q Hq. rewrite lookup_insert_ne by congruence. split; [reflexivity|].
      apply Hothers, Hq.
Qed.

(** The turns of the loop for other ports leave a port as it is. *)
Lemma load_rows_others (E : env) (l : list (Z * server_row)) (a : app) (q : Z) :
  q ∉ l.*1 ->
  servers (fold_left (load_row E) l a) !! q = servers a !! q
  /\ servers_tbl (db (outside (fold_left (load_row E) l a))) !! q
     = servers_tbl (db (outside a)) !! q.
Proof.
  revert a. induction l as [|[p r] l IH]; intros a Hq; [split; reflexivity|].
  cbn [fold_left]. rewrite fmap_cons, not_elem_of_cons in Hq. destruct Hq as [Hne Hq].
  destruct (IH (load_row E a (p, r)) Hq) as [-> ->].
  destruct (load_row_spec E a p r) as (_ & _ & Hf). apply Hf. exact Hne.
Qed.

Lemma load_rows_spec (E : env) (l : list (Z * server_row)) (a0 : app) (pt : Z)
    (r : server_row) :
  NoDup l.*1 -> (pt, r) ∈ l ->
  (exists o, servers (fold_left (load_row E) l a0) !! pt = Some o
             /\ port o = pt /\ version o = row_version r
             /\ server_type o = row_server_type r
             /\ memory o = row_memory r /\ motd o = row_motd r
             /\ max_players o = row_max_players r
             /\ auto_start o = row_auto_start r)
  /\ settings_of <$> servers_tbl (db (outside (fold_left (load_row E) l a0))) !! pt
     = Some (row_version r, row_server_type r, Py.lit "2G", Py.lit "Minecraft Server",
             20, false).
Proof.
  revert a0. induction l as [|[p r0] l IH]; intros a0 Hnd Hin; [inversion Hin|].
  cbn [fold_left]. rewrite fmap_cons in Hnd. apply NoDup_cons in Hnd as [Hp Hnd].
  apply elem_of_cons in Hin as [Heq|Hin].
  - injection Heq as <- <-.
    destruct (load_rows_others E l (load_row E a0 (pt, r)) pt Hp) as [-> ->].
    destruct (load_row_spec E a0 pt r) as (Ho & Hrow & _). split; assumption.
  - apply IH; assumption.
Qed.

(** X15: [load_servers_from_db] registers, for every row of table
    [servers], an object that holds the version, type, memory, motd, player
    limit and auto-start flag of the row; but the row itself is left with
    the defaults ('2G', 'Minecraft Server', 20, false), because the
    constructor saves the new object before the attributes are read from the
    row and nothing saves it afterwards, also when the server is started at
    once.  Ports without a row are not registered by it. *)
Theorem reload_resets_rows (E : env) (a : app) (pt : Z) (r : server_row) :
  servers_tbl (db (outside a)) !! pt = Some r ->
  let a' := load_servers_from_db E a in
  (exists o, servers a' !! pt = Some o
             /\ port o = pt /\ version o = row_version r
             /\ server_type o = row_server_type r
             /\ memory o = row_memory r /\ motd o = row_motd r
             /\ max_players o = row_max_players r
             /\ auto_start o = row_auto_start r)
  /\ settings_of <$> servers_tbl (db (outside a')) !! pt
     = Some (row_version r, row_server_type r, Py.lit "2G", Py.lit "Minecraft Server",
             20, false)
  /\ (forall q, servers_tbl (db (outside a)) !! q = None ->
        servers a' !! q = servers a !! q
        /\ servers_tbl (db (outside a')) !! q = None).
Proof.
  intros Hr. cbv zeta. unfold load_servers_from_db.
  pose proof (NoDup_fst_map_to_list (servers_tbl (db (outside a)))) as Hnd.
  assert ((pt, r) ∈ map_to_list (servers_tbl (db (outside a)))) as Hin
    by (apply elem_of_map_to_list; exact Hr).
  destruct (load_rows_spec E _ a pt r Hnd Hin) as [Ho Hrow].
  split; [exact Ho|]. split; [exact Hrow|].
  intros q Hq.
    assert (q ∉ (map_to_list (servers_tbl (db (outside a)))).*1) as Hout.
    { intros Hin'. apply list_elem_of_fmap in Hin' as ([q' r'] & -> & Hin').
      apply elem_of_map_to_list in Hin'. cbn in Hq. congruence. }
    destruct (load_rows_others E _ a q Hout) as [-> ->]. split; [reflexivity | exact Hq].
Qed.

Lemma reload_resets_rows_witness :
  settings_of <$> servers_tbl (db (outside (load_servers_from_db Sample.offline
     {| servers := ∅;
        outside := out (_save_to_db (apply_settings
                          {| new_memory := Some (Py.lit "4G"); new_motd := None;
                             new_max_players := None; new_auto_start := None |}
                          Sample.vanilla_new).1).1 |}))) !! 25565
  = Some (Py.lit "1.20.1", Py.lit "vanilla", Py.lit "2G", Py.lit "Minecraft Server",
          20, false).
Proof.
  refine (proj1 (proj2 (reload_resets_rows Sample.offline _ 25565
     {| row_version := Py.lit "1.20.1"; row_server_type := Py.lit "vanilla";
        row_status := Stopped; row_memory := Py.lit "4G";
        row_motd := Py.lit "Minecraft Server"; row_max_players := 20;
        row_auto_start := false; row_last_started := None |} _))).
  vm_compute; reflexivity.
Defined.

(** ** The wizards, continued *)

Lemma mem_cases (x : pystr) (ws : list pystr) :
  Py.mem x ws = true -> x ∈ ws.
Proof.
  unfold Py.mem. induction ws as [|w ws IH]; cbn; [discriminate|].
  intros H. apply orb_true_iff in H as [H|H].
  - apply bool_decide_eq_true in H. subst. left.
  - right. auto.
Qed.

(** A server type the wizard accepts is not a cancellation word. *)
Lemma type_not_cancel (c : pystr) :
  Py.mem c Bot.valid_types = true -> Py.mem c Bot.cancel_words = false.
Proof.
  intros H. apply mem_cases in H. unfold Bot.valid_types in H.
  repeat (apply elem_of_cons in H as [->|H]; [vm_compute; reflexivity|]).
  inversion H.
Qed.

(** Neither is an amount of memory the wizard accepts. *)
Lemma memory_not_cancel (c : pystr) :
  Py.match_memory c = true -> Py.mem (Py.lower c) Bot.cancel_words = false.
Proof.
  unfold Py.match_memory. intros H.
  destruct (rev c) as [|x ds] eqn:Hr; [discriminate|].
  apply andb_true_iff in H as [H _]. apply andb_true_iff in H as [H _].
  assert (c = rev ds ++ [x]) as ->
    by (rewrite <- (rev_involutive c), Hr; reflexivity).
  destruct (Py.mem _ _) eqn:Hm; [exfalso|reflexivity].
  apply mem_cases in Hm. unfold Bot.cancel_words in Hm.
  unfold Py.lower in Hm. rewrite map_app in Hm. cbn [map] in Hm.
  assert (Py.lower_cp x = 109 \/ Py.lower_cp x = 103)%N as Hx.
  { apply orb_true_iff in H as [H|H]; apply N.eqb_eq in H; subst x; vm_compute; auto. }
  assert (forall w : pystr,
            map Py.lower_cp (rev ds) ++ [Py.lower_cp x] = w ->
            last w = Some 109%N \/ last w = Some 103%N) as Hlast.
  { intros w <-. rewrite last_snoc. destruct Hx as [-> | ->]; auto. }
  repeat (apply elem_of_cons in Hm as [Hm|Hm];
          [apply Hlast in Hm; vm_compute in Hm; destruct Hm; discriminate|]).
  inversion Hm.
Qed.

(** X16: the creation wizard, walked through by one user with four
    accepted inputs (a free port in 25565..26000, a server type in any
    case, a version that is not empty and not a cancellation word, an amount
    of memory), makes exactly two requests: the status request for the port
    and one POST /create_server that carries the port, the version as
    stripped, the type in lower case, the memory and auto_start = True.
    Whatever the backend answers to the POST, the session is gone afterwards
    and the plugin sessions are as before. *)
Theorem wizard_collects_and_posts (e : Bot.env) (b : Bot.bot) (s : Bot.setup_session)
    (m1 m2 m3 m4 : Bot.message) (u p : Z) :
  Bot.author m1 = u -> Bot.author m2 = u -> Bot.author m3 = u -> Bot.author m4 = u ->
  Bot.author_bot m1 = false -> Bot.author_bot m2 = false ->
  Bot.author_bot m3 = false -> Bot.author_bot m4 = false ->
  Bot.setup_sessions b !! u = Some s -> Bot.step s = 1 ->
  Py.int (Py.strip (Bot.content m1)) = Some p -> 25565 <= p <= 26000 ->
  Bot.status (Bot.backend e (Bot.Get (Bot.status_endpoint p))) <> 200 ->
  Py.mem (Py.lower (Py.strip (Bot.content m2))) Bot.valid_types = true ->
  Py.strip (Py.strip (Bot.content m3)) <> [] ->
  Py.mem (Py.lower (Py.strip (Bot.content m3))) Bot.cancel_words = false ->
  Py.match_memory (Py.strip (Py.strip (Bot.content m4))) = true ->
  Py.mem (Py.lower (Py.strip (Bot.content m4))) Bot.cancel_words = false ->
  let b' := Bot.on_message e m4 (Bot.on_message e m3 (Bot.on_message e m2
              (Bot.on_message e m1 b))) in
  Bot.calls b'
  = Bot.calls b
    ++ [Bot.Get (Bot.status_endpoint p);
        Bot.Post (Py.lit "/create_server")
          {| Bot.cd_port := Some p;
             Bot.cd_version := Some (Py.strip (Py.strip (Bot.content m3)));
             Bot.cd_server_type := Some (Py.lower (Py.strip (Bot.content m2)));
             Bot.cd_memory := Py.strip (Py.strip (Bot.content m4));
             Bot.cd_auto_start := true |}]
  /\ Bot.setup_sessions b' = delete u (Bot.setup_sessions b)
  /\ Bot.plugin_sessions b' = Bot.plugin_sessions b.
Proof.
  intros A1 A2 A3 A4 B1 B2 B3 B4 Hs Hstep Hint Hrange Hfree Hty Hver Hvc Hmem Hmc.
  cbv zeta.
  (* step 1 *)
  assert (exists b1,
    Bot.on_message e m1 b = b1
    /\ Bot.calls b1 = Bot.calls b ++ [Bot.Get (Bot.status_endpoint p)]
    /\ Bot.plugin_sessions b1 = Bot.plugin_sessions b
    /\ Bot.setup_sessions b1
       = <[u := {| Bot.step := 2; Bot.port := Some p;
                   Bot.server_type := Bot.server_type s;
                   Bot.version := Bot.version s; Bot.memory := Bot.memory s |}]>
           (Bot.setup_sessions b)) as (b1 & -> & C1 & P1 & S1).
  { eexists. split; [reflexivity|].
    unfold Bot.on_message, Bot.handle_setup_message.
    rewrite B1, A1, Hs, (int_not_cancel _ _ Hint), Hstep, Hint. cbn.
    replace ((p <? 25565) || (p >? 26000)) with false
      by (symmetry; apply orb_false_iff; split; lia).
    apply Z.eqb_neq in Hfree. rewrite Hfree. cbn. auto. }
  (* step 2 *)
  assert (exists b2,
    Bot.on_message e m2 b1 = b2
    /\ Bot.calls b2 = Bot.calls b1
    /\ Bot.plugin_sessions b2 = Bot.plugin_sessions b1
    /\ Bot.setup_sessions b2
       = <[u := {| Bot.step := 3; Bot.port := Some p;
                   Bot.server_type := Some (Py.lower (Py.strip (Bot.content m2)));
                   Bot.version := Bot.version s; Bot.memory := Bot.memory s |}]>
           (Bot.setup_sessions b1)) as (b2 & -> & C2 & P2 & S2).
  { eexists. split; [reflexivity|].
    unfold Bot.on_message, Bot.handle_setup_message.
    cbv zeta. rewrite B2, A2, S1, lookup_insert_eq, (type_not_cancel _ Hty), Hty. cbn.
    destruct (bool_decide _); cbn; rewrite S1; auto. }
  (* step 3 *)
  assert (exists b3,
    Bot.on_message e m3 b2 = b3
    /\ Bot.calls b3 = Bot.calls b2
    /\ Bot.plugin_sessions b3 = Bot.plugin_sessions b2
    /\ Bot.setup_sessions b3
       = <[u := {| Bot.step := 4; Bot.port := Some p;
                   Bot.server_type := Some (Py.lower (Py.strip (Bot.content m2)));
                   Bot.version := Some (Py.strip (Py.strip (Bot.content m3)));
                   Bot.memory := Bot.memory s |}]>
           (Bot.setup_sessions b2)) as (b3 & -> & C3 & P3 & S3).
  { eexists. split; [reflexivity|].
    unfold Bot.on_message, Bot.handle_setup_message.
    cbv zeta. rewrite B3, A3, S2, lookup_insert_eq, Hvc.
    rewrite (bool_decide_eq_false_2 _ Hver). cbn. rewrite S2. auto. }
  (* step 4 *)
  unfold Bot.on_message, Bot.handle_setup_message.
  cbv zeta. rewrite B4, A4, S3, lookup_insert_eq, Hmc, Hmem. cbn.
  unfold Bot.api_request. cbn.
  match goal with |- context [if ?c then _ else _] => destruct c end; cbn.
  all: rewrite C3, C2, C1, <- app_assoc, P3, P2, P1, S3, S2, S1, !delete_insert_eq; auto.
Qed.

Lemma wizard_collects_and_posts_witness :
  Bot.setup_sessions
    (Bot.on_message Sample.backend_404 (Sample.says (Py.lit "4G"))
       (Bot.on_message Sample.backend_404 (Sample.says (Py.lit " 1.20.1 "))
          (Bot.on_message Sample.backend_404 (Sample.says (Py.lit "Paper"))
             (Bot.on_message Sample.backend_404 (Sample.says (Py.lit "25600"))
                Sample.creating))))
  = delete 7 (Bot.setup_sessions Sample.creating).
Proof.
  refine (proj1 (proj2 (wizard_collects_and_posts Sample.backend_404 Sample.creating
     {| Bot.step := 1; Bot.port := None; Bot.server_type := None;
        Bot.version := None; Bot.memory := Py.lit "2G" |}
     (Sample.says (Py.lit "25600")) (Sample.says (Py.lit "Paper"))
     (Sample.says (Py.lit " 1.20.1 ")) (Sample.says (Py.lit "4G")) 7 25600
     _ _ _ _ _ _ _ _ _ _ _ _ _ _ _ _ _ _)));
    try reflexivity; try lia; try (vm_compute; reflexivity); vm_compute; discriminate.
Defined.

(** A confirmation word is not a cancellation word. *)
Lemma confirm_not_cancel (c : pystr) :
  Py.mem c Bot.confirm_words = true -> Py.mem c Bot.cancel_words = false.
Proof.
  intros H. apply mem_cases in H. unfold Bot.confirm_words in H.
  repeat (apply elem_of_cons in H as [->|H]; [vm_compute; reflexivity|]).
  inversion H.
Qed.

(** X17: for a user who has no creation session (a creation session would
    take the message first), step 2 of the plugin wizard ends the session on
    every message, whatever it says.  The stored file is uploaded, by one
    request to /server_files/<port>/upload that carries the stored bytes,
    file name and folder, exactly when the text in lower case (not stripped)
    is a confirmation word; any other text makes no request.  The creation
    sessions are as before. *)
Theorem plugin_confirmation (e : Bot.env) (m : Bot.message) (b : Bot.bot)
    (s : Bot.plugin_session) :
  Bot.author_bot m = false ->
  Bot.setup_sessions b !! Bot.author m = None ->
  Bot.plugin_sessions b !! Bot.author m = Some s ->
  Bot.p_step s = 2 ->
  let b' := Bot.on_message e m b in
  Bot.plugin_sessions b' = delete (Bot.author m) (Bot.plugin_sessions b)
  /\ Bot.setup_sessions b' = Bot.setup_sessions b
  /\ Bot.calls b'
     = Bot.calls b
       ++ (if Py.mem (Py.lower (Bot.content m)) Bot.confirm_words
           then [Bot.Upload (Bot.upload_endpoint (Bot.p_port s))
                   {| Bot.fd_bytes := Bot.file_content s;
                      Bot.fd_filename := Bot.filename s;
                      Bot.fd_path := Bot.folder s |}]
           else []).
Proof.
  intros Hbot Hnone Hs Hstep. cbv zeta.
  unfold Bot.on_message, Bot.handle_setup_message. rewrite Hbot, Hnone, Hs, Hstep.
  destruct (Py.mem (Py.lower (Bot.content m)) Bot.confirm_words) eqn:Hc.
  - rewrite (confirm_not_cancel _ Hc). cbn.
    destruct (Bot.status _ =? 200); cbn; auto.
  - destruct (Py.mem (Py.lower (Bot.content m)) Bot.cancel_words);
      cbn; rewrite app_nil_r; auto.
Qed.

Lemma plugin_confirmation_witness :
  Bot.plugin_sessions
    (Bot.on_message Sample.backend_ok (Sample.says (Py.lit "OK"))
       (Bot.with_plugin (insert 7
          {| Bot.p_step := 2; Bot.p_port := 25565; Bot.p_server_type := Py.lit "paper";
             Bot.filename := Some (Py.lit "a.jar"); Bot.file_content := Some [80; 75]%N;
             Bot.folder := Some (Py.lit "plugins") |}) Bot.new_bot))
  = delete 7 (Bot.plugin_sessions
       (Bot.with_plugin (insert 7
          {| Bot.p_step := 2; Bot.p_port := 25565; Bot.p_server_type := Py.lit "paper";
             Bot.filename := Some (Py.lit "a.jar"); Bot.file_content := Some [80; 75]%N;
             Bot.folder := Some (Py.lit "plugins") |}) Bot.new_bot)).
Proof.
  refine (proj1 (plugin_confirmation Sample.backend_ok (Sample.says (Py.lit "OK")) _
     {| Bot.p_step := 2; Bot.p_port := 25565; Bot.p_server_type := Py.lit "paper";
        Bot.filename := Some (Py.lit "a.jar"); Bot.file_content := Some [80; 75]%N;
        Bot.folder := Some (Py.lit "plugins") |} _ _ _ _));
    try reflexivity; vm_compute; reflexivity.
Defined.

(** The creation wizard reads and writes the entry of the author only. *)
Lemma setup_message_others (e : Bot.env) (m : Bot.message) (b : Bot.bot) (u : Z) :
  u <> Bot.author m ->
  Bot.setup_sessions (Bot.handle_setup_message e m b).1 !! u = Bot.setup_sessions b !! u
  /\ Bot.plugin_sessions (Bot.handle_setup_message e m b).1 !! u
     = Bot.plugin_sessions b !! u.
Proof.
  intros Hu. unfold Bot.handle_setup_message, Bot.api_request.
  repeat (match goal with
          | |- context [match ?x with _ => _ end] => destruct x
          end; cbn);
    repeat first [rewrite lookup_insert_ne by congruence
                 | rewrite lookup_delete_ne by congruence]; split; reflexivity.
Qed.

(** X18: a message changes no session of a user other than its author:
    the creation wizard and the plugin wizard read and write the entry of
    the author only, so that, as long as the command dispatcher does the
    same, the sessions of every other user are as before. *)
Theorem other_users_sessions_kept (e : Bot.env) (m : Bot.message) (b : Bot.bot) (u : Z) :
  u <> Bot.author m ->
  (forall b0,
     Bot.setup_sessions (Bot.process_commands e m b0) !! u = Bot.setup_sessions b0 !! u
     /\ Bot.plugin_sessions (Bot.process_commands e m b0) !! u
        = Bot.plugin_sessions b0 !! u) ->
  Bot.setup_sessions (Bot.on_message e m b) !! u = Bot.setup_sessions b !! u
  /\ Bot.plugin_sessions (Bot.on_message e m b) !! u = Bot.plugin_sessions b !! u.
Proof.
  intros Hu Hpc. unfold Bot.on_message.
  destruct (Bot.author_bot m); [split; reflexivity|].
  pose proof (setup_message_others e m b u Hu) as [<- <-].
  destruct (Bot.handle_setup_message e m b) as [b0 handled]. cbn [fst].
  destruct handled; [split; reflexivity|].
  unfold Bot.plugin_accept, Bot.api_request.
  repeat (match goal with
          | |- context [match ?x with _ => _ end] => destruct x
          end; cbn);
    repeat first [rewrite lookup_insert_ne by congruence
                 | rewrite lookup_delete_ne by congruence];
    first [split; reflexivity | apply Hpc].
Qed.

Lemma other_users_sessions_kept_witness :
  Bot.setup_sessions (Bot.on_message Sample.backend_ok (Sample.says (Py.lit "cancel"))
                        Sample.both) !! 8
  = Bot.setup_sessions Sample.both !! 8.
Proof.
  refine (proj1 (other_users_sessions_kept Sample.backend_ok (Sample.says (Py.lit "cancel"))
                   Sample.both 8 _ _)).
  - vm_compute. discriminate.
  - intros b0. split; reflexivity.
Defined.

(** X19: while a user has a creation session (at step 1 to 4), each of
    their messages is consumed by the creation wizard: the plugin sessions
    are left as they are, also a plugin session of the same user that waits
    for its confirmation, and the message is not passed on to the command
    dispatcher. *)
Theorem creation_session_takes_input (e : Bot.env) (m : Bot.message) (b : Bot.bot)
    (s : Bot.setup_session) :
  Bot.author_bot m = false ->
  Bot.setup_sessions b !! Bot.author m = Some s ->
  1 <= Bot.step s <= 4 ->
  Bot.on_message e m b = (Bot.handle_setup_message e m b).1
  /\ (Bot.handle_setup_message e m b).2 = true
  /\ Bot.plugin_sessions (Bot.on_message e m b) = Bot.plugin_sessions b.
Proof.
  intros Hbot Hs Hstep.
  assert ((Bot.handle_setup_message e m b).2 = true
          /\ Bot.plugin_sessions (Bot.handle_setup_message e m b).1
             = Bot.plugin_sessions b) as [Hh Hp].
  { unfold Bot.handle_setup_message, Bot.api_request. rewrite Hs.
    assert (Bot.step s = 1 \/ Bot.step s = 2 \/ Bot.step s = 3 \/ Bot.step s = 4)
      as [-> | [-> | [-> | ->]]] by lia; cbn;
      repeat (match goal with
              | |- context [match ?x with _ => _ end] => destruct x
              end; cbn); split; reflexivity. }
  unfold Bot.on_message. rewrite Hbot.
  destruct (Bot.handle_setup_message e m b) as [b0 handled]. cbn in Hh, Hp. subst handled.
  cbn. auto.
Qed.

Lemma creation_session_takes_input_witness :
  Bot.plugin_sessions (Bot.on_message Sample.backend_ok (Sample.says (Py.lit "ok")) Sample.both)
  = Bot.plugin_sessions Sample.both.
Proof.
  refine (proj2 (proj2 (creation_session_takes_input Sample.backend_ok
     (Sample.says (Py.lit "ok")) Sample.both
     {| Bot.step := 1; Bot.port := None; Bot.server_type := None;
        Bot.version := None; Bot.memory := Py.lit "2G" |} _ _ _))).
  - reflexivity.
  - vm_compute; reflexivity.
  - cbn. lia.
Defined.

(** X20: for a user who has no creation session (a creation session would
    take the message first), at step 1 of the plugin wizard an attached file
    decides, when the text is not a cancellation word: a first attachment
    whose name does not end in .jar (in any case) destroys the session; one
    that does, and can be read, is stored with its name and bytes, the
    session moves to step 2 and the destination folder is 'mods' when the
    server type is 'fabric' and 'plugins' otherwise.  No request is made in
    either case. *)
Theorem plugin_attachment_step (e : Bot.env) (m : Bot.message) (b : Bot.bot)
    (s : Bot.plugin_session) (a : Bot.attachment) (rest : list Bot.attachment) :
  Bot.author_bot m = false ->
  Bot.setup_sessions b !! Bot.author m = None ->
  Bot.plugin_sessions b !! Bot.author m = Some s ->
  Bot.p_step s = 1 ->
  Py.mem (Py.lower (Bot.content m)) Bot.cancel_words = false ->
  Bot.attachments m = a :: rest ->
  let b' := Bot.on_message e m b in
  Bot.calls b' = Bot.calls b
  /\ Bot.setup_sessions b' = Bot.setup_sessions b
  /\ (Py.endswith (Py.lit ".jar") (Py.lower (Bot.att_filename a)) = false ->
      Bot.plugin_sessions b' = delete (Bot.author m) (Bot.plugin_sessions b)
      /\ Bot.sent b' = Bot.sent b ++ [Bot.MustBeJar])
  /\ (forall bytes,
        Py.endswith (Py.lit ".jar") (Py.lower (Bot.att_filename a)) = true ->
        Bot.att_read a = Some bytes ->
        Bot.plugin_sessions b'
        = <[Bot.author m :=
              {| Bot.p_step := 2; Bot.p_port := Bot.p_port s;
                 Bot.p_server_type := Bot.p_server_type s;
                 Bot.filename := Some (Bot.att_filename a);
                 Bot.file_content := Some bytes;
                 Bot.folder := Some (if bool_decide (Bot.p_server_type s = Py.lit "fabric")
                                     then Py.lit "mods" else Py.lit "plugins") |}]>
            (Bot.plugin_sessions b)).
Proof.
  intros Hbot Hnone Hs Hstep Hc Hatt. cbv zeta.
  unfold Bot.on_message, Bot.handle_setup_message. rewrite Hbot, Hnone, Hs, Hc, Hstep, Hatt.
  cbn [Z.eqb Pos.eqb].
  assert (Bot.folder_for (Bot.p_server_type s)
          = if bool_decide (Bot.p_server_type s = Py.lit "fabric")
            then Py.lit "mods" else Py.lit "plugins") as Hf.
  { unfold Bot.folder_for.
    destruct (Py.mem (Bot.p_server_type s) _) eqn:Hm; [|reflexivity].
    apply mem_cases in Hm.
    repeat (apply elem_of_cons in Hm as [->|Hm]; [vm_compute; reflexivity|]).
    inversion Hm. }
  destruct (Py.endswith _ _) eqn:Hj; cbn [negb].
  - destruct (Bot.att_read a) as [bytes|] eqn:Hr.
    + unfold Bot.plugin_accept. cbn. rewrite Hf.
      repeat split; try discriminate. intros ? _ [= <-]. reflexivity.
    + cbn. repeat split; try discriminate.
  - cbn. repeat split; try discriminate.
Qed.

Lemma plugin_attachment_step_witness :
  Bot.calls (Bot.on_message Sample.backend_ok
               {| Bot.author := 7; Bot.author_bot := false; Bot.content := [];
                  Bot.attachments := [{| Bot.att_filename := Py.lit "Map.JAR";
                                         Bot.att_read := Some [80; 75]%N |}] |}
               (Bot.server_install_plugin Sample.backend_ok 7 25565 Bot.new_bot))
  = Bot.calls (Bot.server_install_plugin Sample.backend_ok 7 25565 Bot.new_bot).
Proof.
  refine (proj1 (plugin_attachment_step Sample.backend_ok _ _
     {| Bot.p_step := 1; Bot.p_port := 25565; Bot.p_server_type := Py.lit "paper";
        Bot.filename := None; Bot.file_content := None; Bot.folder := None |}
     {| Bot.att_filename := Py.lit "Map.JAR"; Bot.att_read := Some [80; 75]%N |} []
     _ _ _ _ _ _));
    try reflexivity; vm_compute; reflexivity.
Defined.
